(** * xeokit-sdk: the NavCube plugin and the colour-adjustment shader helper

    A shallow embedding of

      - [src/viewer/scene/PerformanceModel/lib/colorAdjustment.js]
      - [src/plugins/NavCubePlugin/NavCubePlugin.js]

    The plugin is event-driven JavaScript: every handler runs to completion
    and mutates fields of the plugin object, variables of the constructor's
    closure, and objects of the host engine and of the DOM.  Each handler is
    embedded as a function from the state before to the state after; calls
    into the engine that do not report back ([cameraFlight.flyTo],
    [camera.orbitYaw], [this.error], ...) are appended to logs carried in the
    state, in the order in which the code issues them. *)

From Stdlib Require Import ZArith QArith Floats.
From stdpp Require Import base decidable option list strings gmap.

Local Open Scope string_scope.
Local Open Scope list_scope.
Local Open Scope Z_scope.

(* ===================================================================== *)
(** * colorAdjustment.js *)
(* ===================================================================== *)

(** [Array.prototype.push] with one argument. *)
Definition push (src : list string) (line : string) : list string :=
  src ++ [line].

(** [colorAdjustment(src)]: the array after the call (the function itself
    returns nothing; its effect is on [src]). *)
Definition colorAdjustment (src : list string) : list string :=
  let src := push src "uniform vec4 colorParams;" in
  let src := push src "vec4 brightnessSaturationAndConstrast(vec4 color) {" in
  let src := push src "float brightness = colorParams.r;" in
  let src := push src "float saturation = colorParams.g;" in
  let src := push src "float contrast = colorParams.b;" in
  let src := push src "vec3 finalColor = color.rgb * brightness;" in
  let src := push src "float luminance = 0.2125 * color.r + 0.7154 * color.g + 0.0721 * color.b;" in
  let src := push src "vec3 luminanceColor = vec3(luminance);" in
  let src := push src "finalColor = mix(luminanceColor,finalColor,saturation);" in
  let src := push src "vec3 avgColor = vec3(0.5);" in
  let src := push src "finalColor = clamp(mix(avgColor,finalColor,contrast),0.0,1.0);" in
  let src := push src "return vec4(finalColor,color.a);" in
  let src := push src "}" in
  src.

(** The shape of the property "the call appends [n] fixed strings": some
    list of [n] strings, the same for every input, ends up after [src]. *)
Definition appends_fixed_lines (n : nat) : Prop :=
  ∃ lines : list string,
    length lines = n ∧ ∀ src, colorAdjustment src = src ++ lines.

(* ===================================================================== *)
(** * JavaScript values *)
(* ===================================================================== *)

(** The Number type and the operations of the language and of [Math] that
    the plugin applies to numbers.  They are kept abstract: every statement
    below holds for any implementation of the arithmetic, IEEE 754 binary64
    included, and nothing is assumed about rounding. *)
Class JSNumber := {
  num : Type;
  lit : Q → num;                    (* a numeric literal of the source text *)
  nan : num;
  num_add : num → num → num;
  num_sub : num → num → num;
  num_mul : num → num → num;
  num_div : num → num → num;
  num_neg : num → num;              (* unary minus *)
  num_lt : num → num → bool;        (* [<] on two numbers *)
  num_truthy : num → bool;          (* ToBoolean: false on +0, -0 and NaN *)
  Math_abs : num → num;
  Math_tan : num → num;
  numberToString : num → string;    (* Number::toString *)
  stringToNumber : string → num;    (* StringToNumber *)
}.

Section Values.
Context {N : JSNumber}.

(** The primitive values a caller can hand to the plugin's setters. *)
Inductive value : Type :=
  | VUndefined
  | VNull
  | VBool (b : bool)
  | VNum (n : num)
  | VStr (s : string).

Definition ToBoolean (v : value) : bool :=
  match v with
  | VUndefined | VNull => false
  | VBool b => b
  | VNum n => num_truthy n
  | VStr s => negb (String.eqb s "")
  end.

Definition ToNumber (v : value) : num :=
  match v with
  | VUndefined => nan
  | VNull => lit 0
  | VBool true => lit 1
  | VBool false => lit 0
  | VNum n => n
  | VStr s => stringToNumber s
  end.

Definition ToString (v : value) : string :=
  match v with
  | VUndefined => "undefined"
  | VNull => "null"
  | VBool true => "true"
  | VBool false => "false"
  | VNum n => numberToString n
  | VStr s => s
  end.

Definition is_string (v : value) : bool :=
  match v with VStr _ => true | _ => false end.

(** The binary [+]: concatenation as soon as one operand is a string. *)
Definition js_add (a b : value) : value :=
  if is_string a || is_string b
  then VStr (ToString a ++ ToString b)
  else VNum (num_add (ToNumber a) (ToNumber b)).

(** The binary [-]. *)
Definition js_sub (a b : value) : value :=
  VNum (num_sub (ToNumber a) (ToNumber b)).

(** [a < b] where at least one operand is not a string. *)
Definition js_lt (a b : value) : bool :=
  num_lt (ToNumber a) (ToNumber b).

(** [a || b]. *)
Definition js_or (a b : value) : value :=
  if ToBoolean a then a else b.

(** [v !== "s"] for a string literal [s]. *)
Definition strict_ne_str (v : value) (s : string) : bool :=
  match v with
  | VStr t => negb (String.eqb t s)
  | _ => true
  end.

(** A default parameter [x = d]: the default replaces [undefined], which is
    also what a missing argument is. *)
Definition default_param (d v : value) : value :=
  match v with
  | VUndefined => d
  | _ => v
  end.

(** Reading a property of an object: [undefined] when it was never set. *)
Definition get (o : gmap string value) (k : string) : value :=
  default VUndefined (o !! k).

Definition vec3 : Type := num * num * num.

End Values.

(* ===================================================================== *)
(** * The host engine, as far as the plugin calls it *)
(* ===================================================================== *)

(** [math.js] and [CubeTextureCanvas.js] are not among the sources.  The
    functions of theirs that [NavCubePlugin.js] calls are parameters: the
    embedding records which function is applied to which arguments, and says
    nothing about what the function computes. *)
Class Engine {N : JSNumber} := {
  mat4 : Type;
  AABB3 : Type;
  UV : Type;                                  (* [hit.uv] of a pick result *)
  math_DEGTORAD : num;
  math_rotationMat4c : num → num → num → num → mat4;
  math_subVec3 : vec3 → vec3 → vec3;
  math_normalizeVec3 : vec3 → vec3;
  math_mulVec3Scalar : vec3 → num → vec3;
  math_transformVec3 : mat4 → vec3 → vec3;
  math_transformPoint3 : mat4 → vec3 → vec3;
  math_getAABB3Diag : AABB3 → num;
  math_getAABB3Center : AABB3 → vec3;
  getArea : UV → Z;                           (* negative: no area *)
  getAreaDir : Z → option vec3;               (* [None]: a falsy result *)
  getAreaUp : Z → option vec3;
}.

Section Plugin.
Context {N : JSNumber} {E : Engine}.

(** ** State *)

(** [eye], [look] and [up] of a camera. *)
Record Camera := {
  cam_eye : vec3;
  cam_look : vec3;
  cam_up : vec3;
}.

(** The plugin object and the objects it owns. *)
Record NavCube := {
  this : gmap string value;            (* the [this._...] properties holding values *)
  subIds : gmap string nat;            (* the [this._on...] subscription handles *)
  cubeMesh_visible : value;            (* [this._cubeMesh.visible] *)
  shadow_visible : value;              (* [this._shadow.visible] *)
  navCubeCanvas : gmap string value;   (* properties of [this._navCubeCanvas] *)
  style : gmap string value;           (* [this._navCubeCanvas.style] *)
  navCubeCamera : Camera;              (* [this._navCubeCamera] *)
  navCubeCamera_props : gmap string value; (* its [projection], [perspective.fov], [ortho.*] *)
  errors : list string;                (* messages handed to [this.error] *)
}.

(** The variables of the constructor's closure that the mouse handlers share.
    ([dragging] is declared and never used; [minPitch], [maxPitch] and
    [sensitivity] are never assigned after their declaration and are the
    constants below.) *)
Record Closure := {
  lastAreaId : Z;
  downX : option Z;                    (* [None]: [null] *)
  downY : option Z;
  down : bool;
  over : bool;
  yaw : num;
  pitch : value;
  lastX : option Z;                    (* [None]: [undefined] *)
  lastY : option Z;
}.

Definition minPitch : value := VNull.
Definition maxPitch : value := VNull.
Definition sensitivity : num := lit (1 # 2).

(** The handlers the constructor subscribes to engine events. *)
Inductive callback :=
  | Cb_synchCamera                     (* [this._synchCamera] *)
  | Cb_fov                             (* [(fov) => ...perspective.fov = fov] *)
  | Cb_projection                      (* [(projection) => ...projection = projection] *)
  | Cb_worldAxis_empty                 (* [(worldAxis) => { /* ... */ }] *)
  | Cb_boundary                        (* [() => this._needUpdateLayout = true] *)
  | Cb_tick.                           (* [() => if (this._needUpdateLayout) ...] *)

(** The argument object of [cameraFlight.flyTo] and [cameraFlight.jumpTo]. *)
Record FlightParams := {
  f_look : vec3;
  f_eye : vec3;
  f_up : vec3;
  f_orthoScale : num;
  f_fitFOV : value;
  f_duration : option value;           (* [None]: the object has no [duration] *)
}.

(** Calls into the engine that return nothing to the plugin. *)
Inductive HostCall :=
  | OrbitYaw (angle : num)             (* [viewer.camera.orbitYaw] *)
  | OrbitPitch (angle : num)           (* [viewer.camera.orbitPitch] *)
  | FlyTo (params : FlightParams)      (* [viewer.cameraFlight.flyTo(params, ok)] *)
  | JumpTo (params : FlightParams)     (* [viewer.cameraFlight.jumpTo(params, ok)] *)
  | SuperDestroy.                      (* [super.destroy()] *)

(** The engine and the DOM, as far as the plugin acts on them: the
    subscriptions to engine events, by component and handle, and the
    counter the handles come from; the DOM listeners, as (target, event
    type, listener) triples with the listener named by the property of the
    plugin that holds the function; the areas that the texture canvas
    holds as highlighted; the areas that the cube mesh shows as
    highlighted, which are those of the texture canvas when the image of
    the mesh was last refreshed; the cursor; and the calls issued so far. *)
Record Host := {
  subscriptions : gmap (string * nat) (string * callback);
  nextHandle : nat;
  listeners : gset (string * string * string);
  highlighted : gset Z;
  painted : gset Z;
  cursor : string;                     (* [document.body.style.cursor] *)
  calls : list HostCall;               (* oldest first *)
}.

Record State := {
  plugin : NavCube;
  vars : Closure;
  host : Host;
}.

(** What the handlers read from the main viewer when they run. *)
Record Viewer := {
  camera : Camera;                     (* [viewer.camera] *)
  scene_aabb : AABB3;                  (* [viewer.scene.aabb] *)
  canvas_boundary : list value;        (* [viewer.scene.canvas.boundary] *)
  canvas_id : value;                   (* [viewer.scene.canvas.canvas.id] *)
}.

(** A DOM mouse event, with the fields the handlers read.  Coordinates,
    [which] and [buttons] are integers. *)
Record MouseEvent := {
  e_x : Z;
  e_y : Z;
  e_clientX : Z;
  e_clientY : Z;
  e_which : Z;
  e_buttons : Z;
}.

(** The answer of [navCubeScene.pick]: no hit, a hit without [uv], or a hit
    with [uv].  It depends on the scene being rendered and is an input of
    the handler that asks for it ([getCoordsWithinElement] only prepares the
    argument of [pick]). *)
Definition PickResult : Type := option (option UV).

(** ** Field updates

    [set_f v r] is the record [r] with field [f] replaced by [v]. *)

Definition set_this v (r : NavCube) : NavCube :=
  {| this := v; subIds := subIds r; cubeMesh_visible := cubeMesh_visible r;
     shadow_visible := shadow_visible r; navCubeCanvas := navCubeCanvas r;
     style := style r; navCubeCamera := navCubeCamera r;
     navCubeCamera_props := navCubeCamera_props r; errors := errors r |}.
Definition set_subIds v (r : NavCube) : NavCube :=
  {| this := this r; subIds := v; cubeMesh_visible := cubeMesh_visible r;
     shadow_visible := shadow_visible r; navCubeCanvas := navCubeCanvas r;
     style := style r; navCubeCamera := navCubeCamera r;
     navCubeCamera_props := navCubeCamera_props r; errors := errors r |}.
Definition set_cubeMesh_visible v (r : NavCube) : NavCube :=
  {| this := this r; subIds := subIds r; cubeMesh_visible := v;
     shadow_visible := shadow_visible r; navCubeCanvas := navCubeCanvas r;
     style := style r; navCubeCamera := navCubeCamera r;
     navCubeCamera_props := navCubeCamera_props r; errors := errors r |}.
Definition set_shadow_visible v (r : NavCube) : NavCube :=
  {| this := this r; subIds := subIds r;
     cubeMesh_visible := cubeMesh_visible r; shadow_visible := v;
     navCubeCanvas := navCubeCanvas r; style := style r;
     navCubeCamera := navCubeCamera r;
     navCubeCamera_props := navCubeCamera_props r; errors := errors r |}.
Definition set_navCubeCanvas v (r : NavCube) : NavCube :=
  {| this := this r; subIds := subIds r;
     cubeMesh_visible := cubeMesh_visible r;
     shadow_visible := shadow_visible r; navCubeCanvas := v;
     style := style r; navCubeCamera := navCubeCamera r;
     navCubeCamera_props := navCubeCamera_props r; errors := errors r |}.
Definition set_style v (r : NavCube) : NavCube :=
  {| this := this r; subIds := subIds r;
     cubeMesh_visible := cubeMesh_visible r;
     shadow_visible := shadow_visible r; navCubeCanvas := navCubeCanvas r;
     style := v; navCubeCamera := navCubeCamera r;
     navCubeCamera_props := navCubeCamera_props r; errors := errors r |}.
Definition set_navCubeCamera v (r : NavCube) : NavCube :=
  {| this := this r; subIds := subIds r;
     cubeMesh_visible := cubeMesh_visible r;
     shadow_visible := shadow_visible r; navCubeCanvas := navCubeCanvas r;
     style := style r; navCubeCamera := v;
     navCubeCamera_props := navCubeCamera_props r; errors := errors r |}.
Definition set_navCubeCamera_props v (r : NavCube) : NavCube :=
  {| this := this r; subIds := subIds r;
     cubeMesh_visible := cubeMesh_visible r;
     shadow_visible := shadow_visible r; navCubeCanvas := navCubeCanvas r;
     style := style r; navCubeCamera := navCubeCamera r;
     navCubeCamera_props := v; errors := errors r |}.
Definition set_errors v (r : NavCube) : NavCube :=
  {| this := this r; subIds := subIds r;
     cubeMesh_visible := cubeMesh_visible r;
     shadow_visible := shadow_visible r; navCubeCanvas := navCubeCanvas r;
     style := style r; navCubeCamera := navCubeCamera r;
     navCubeCamera_props := navCubeCamera_props r; errors := v |}.

Definition set_lastAreaId v (r : Closure) : Closure :=
  {| lastAreaId := v; downX := downX r; downY := downY r; down := down r;
     over := over r; yaw := yaw r; pitch := pitch r; lastX := lastX r;
     lastY := lastY r |}.
Definition set_downX v (r : Closure) : Closure :=
  {| lastAreaId := lastAreaId r; downX := v; downY := downY r;
     down := down r; over := over r; yaw := yaw r; pitch := pitch r;
     lastX := lastX r; lastY := lastY r |}.
Definition set_downY v (r : Closure) : Closure :=
  {| lastAreaId := lastAreaId r; downX := downX r; downY := v;
     down := down r; over := over r; yaw := yaw r; pitch := pitch r;
     lastX := lastX r; lastY := lastY r |}.
Definition set_down v (r : Closure) : Closure :=
  {| lastAreaId := lastAreaId r; downX := downX r; downY := downY r;
     down := v; over := over r; yaw := yaw r; pitch := pitch r;
     lastX := lastX r; lastY := lastY r |}.
Definition set_over v (r : Closure) : Closure :=
  {| lastAreaId := lastAreaId r; downX := downX r; downY := downY r;
     down := down r; over := v; yaw := yaw r; pitch := pitch r;
     lastX := lastX r; lastY := lastY r |}.
Definition set_yaw v (r : Closure) : Closure :=
  {| lastAreaId := lastAreaId r; downX := downX r; downY := downY r;
     down := down r; over := over r; yaw := v; pitch := pitch r;
     lastX := lastX r; lastY := lastY r |}.
Definition set_pitch v (r : Closure) : Closure :=
  {| lastAreaId := lastAreaId r; downX := downX r; downY := downY r;
     down := down r; over := over r; yaw := yaw r; pitch := v;
     lastX := lastX r; lastY := lastY r |}.
Definition set_lastX v (r : Closure) : Closure :=
  {| lastAreaId := lastAreaId r; downX := downX r; downY := downY r;
     down := down r; over := over r; yaw := yaw r; pitch := pitch r;
     lastX := v; lastY := lastY r |}.
Definition set_lastY v (r : Closure) : Closure :=
  {| lastAreaId := lastAreaId r; downX := downX r; downY := downY r;
     down := down r; over := over r; yaw := yaw r; pitch := pitch r;
     lastX := lastX r; lastY := v |}.

Definition set_subscriptions v (r : Host) : Host :=
  {| subscriptions := v; nextHandle := nextHandle r;
     listeners := listeners r; highlighted := highlighted r;
     painted := painted r; cursor := cursor r; calls := calls r |}.
Definition set_nextHandle v (r : Host) : Host :=
  {| subscriptions := subscriptions r; nextHandle := v;
     listeners := listeners r; highlighted := highlighted r;
     painted := painted r; cursor := cursor r; calls := calls r |}.
Definition set_listeners v (r : Host) : Host :=
  {| subscriptions := subscriptions r; nextHandle := nextHandle r;
     listeners := v; highlighted := highlighted r; painted := painted r;
     cursor := cursor r; calls := calls r |}.
Definition set_highlighted v (r : Host) : Host :=
  {| subscriptions := subscriptions r; nextHandle := nextHandle r;
     listeners := listeners r; highlighted := v; painted := painted r;
     cursor := cursor r; calls := calls r |}.
Definition set_painted v (r : Host) : Host :=
  {| subscriptions := subscriptions r; nextHandle := nextHandle r;
     listeners := listeners r; highlighted := highlighted r; painted := v;
     cursor := cursor r; calls := calls r |}.
Definition set_cursor v (r : Host) : Host :=
  {| subscriptions := subscriptions r; nextHandle := nextHandle r;
     listeners := listeners r; highlighted := highlighted r;
     painted := painted r; cursor := v; calls := calls r |}.
Definition set_calls v (r : Host) : Host :=
  {| subscriptions := subscriptions r; nextHandle := nextHandle r;
     listeners := listeners r; highlighted := highlighted r;
     painted := painted r; cursor := cursor r; calls := v |}.

Definition set_plugin v (r : State) : State :=
  {| plugin := v; vars := vars r; host := host r |}.
Definition set_vars v (r : State) : State :=
  {| plugin := plugin r; vars := v; host := host r |}.
Definition set_host v (r : State) : State :=
  {| plugin := plugin r; vars := vars r; host := v |}.
Definition on_plugin (f : NavCube → NavCube) (st : State) : State :=
  set_plugin (f (plugin st)) st.
Definition on_vars (f : Closure → Closure) (st : State) : State :=
  set_vars (f (vars st)) st.
Definition on_host (f : Host → Host) (st : State) : State :=
  set_host (f (host st)) st.

(** [this.k = v], [this._navCubeCanvas.k = v] and
    [this._navCubeCanvas.style.k = v]. *)
Definition assign (k : string) (v : value) (p : NavCube) : NavCube :=
  set_this (<[k := v]> (this p)) p.
Definition assign_canvas (k : string) (v : value) (p : NavCube) : NavCube :=
  set_navCubeCanvas (<[k := v]> (navCubeCanvas p)) p.
Definition assign_style (k : string) (v : value) (p : NavCube) : NavCube :=
  set_style (<[k := v]> (style p)) p.
Definition assign_camera_prop (k : string) (v : value) (p : NavCube) : NavCube :=
  set_navCubeCamera_props (<[k := v]> (navCubeCamera_props p)) p.

(** [this.error(msg)] of the [Plugin] base class: the message is reported. *)
Definition error (msg : string) (p : NavCube) : NavCube :=
  set_errors (errors p ++ [msg]) p.

Definition strict_eq_str (v : value) (s : string) : bool :=
  negb (strict_ne_str v s).

(** [v !== null] and [v !== undefined]. *)
Definition strict_ne_null (v : value) : bool :=
  match v with VNull => false | _ => true end.
Definition strict_ne_undefined (v : value) : bool :=
  match v with VUndefined => false | _ => true end.

(** [a[i]] on an array of values. *)
Definition index (a : list value) (i : nat) : value :=
  default VUndefined (a !! i).

Definition vx (v : vec3) : num := v.1.1.
Definition vy (v : vec3) : num := v.1.2.
Definition vz (v : vec3) : num := v.2.

(** ** The configuration setters and getters *)

Definition setVisible (visible : value) (p : NavCube) : NavCube :=
  let visible := default_param (VBool true) visible in
  let p := set_cubeMesh_visible visible p in
  let p := set_shadow_visible visible p in
  let p := assign_style "visibility"
             (if ToBoolean visible then VStr "visible" else VStr "hidden") p in
  assign "_needUpdateLayout" (VBool true) p.

Definition getVisible (p : NavCube) : value :=
  cubeMesh_visible p.

Definition setSize (size : value) (p : NavCube) : NavCube :=
  let size := default_param (VNum (lit 200)) size in
  let p := assign "_size" size p in
  let p := assign_canvas "width" size p in
  let p := assign_canvas "height" size p in
  assign "_needUpdateLayout" (VBool true) p.

Definition getSize (p : NavCube) : value :=
  get (this p) "_size".

Definition setAlignment (alignment : value) (p : NavCube) : NavCube :=
  let alignment := default_param (VStr "bottomRight") alignment in
  let '(alignment, p) :=
    if strict_ne_str alignment "bottomRight"
       && strict_ne_str alignment "bottomLeft"
       && strict_ne_str alignment "topLeft"
       && strict_ne_str alignment "topRight"
    then (VStr "bottomRight",
          error "Illegal value for alignment - defaulting to `bottomRight'" p)
    else (alignment, p) in
  let p := assign "_alignment" alignment p in
  assign "_needUpdateLayout" (VBool true) p.

Definition getAlignment (p : NavCube) : value :=
  get (this p) "_alignment".

Definition setLeftMargin (leftMargin : value) (p : NavCube) : NavCube :=
  let leftMargin := default_param (VNum (lit 10)) leftMargin in
  let p := assign "_leftMargin"
             (if strict_ne_null leftMargin && strict_ne_undefined leftMargin
              then leftMargin else VNum (lit 10)) p in
  assign "_needUpdateLayout" (VBool true) p.

Definition getLeftMargin (p : NavCube) : value :=
  get (this p) "_leftMargin".

Definition setRightMargin (rightMargin : value) (p : NavCube) : NavCube :=
  let rightMargin := default_param (VNum (lit 10)) rightMargin in
  let p := assign "_rightMargin"
             (if strict_ne_null rightMargin && strict_ne_undefined rightMargin
              then rightMargin else VNum (lit 10)) p in
  assign "_needUpdateLayout" (VBool true) p.

Definition getRightMargin (p : NavCube) : value :=
  get (this p) "_rightMargin".

Definition setTopMargin (topMargin : value) (p : NavCube) : NavCube :=
  let topMargin := default_param (VNum (lit 10)) topMargin in
  let p := assign "_topMargin"
             (if strict_ne_null topMargin && strict_ne_undefined topMargin
              then topMargin else VNum (lit 10)) p in
  assign "_needUpdateLayout" (VBool true) p.

Definition getTopMargin (p : NavCube) : value :=
  get (this p) "_topMargin".

Definition setBottomMargin (bottomMargin : value) (p : NavCube) : NavCube :=
  let bottomMargin := default_param (VNum (lit 10)) bottomMargin in
  let p := assign "_bottomMargin"
             (if strict_ne_null bottomMargin && strict_ne_undefined bottomMargin
              then bottomMargin else VNum (lit 10)) p in
  assign "_needUpdateLayout" (VBool true) p.

Definition getBottomMargin (p : NavCube) : value :=
  get (this p) "_bottomMargin".

Definition setCameraFly (cameraFly : value) (p : NavCube) : NavCube :=
  let cameraFly := default_param (VBool true) cameraFly in
  assign "_cameraFly" cameraFly p.

Definition getCameraFly (p : NavCube) : value :=
  get (this p) "_cameraFly".

Definition setCameraFitFOV (cameraFitFOV : value) (p : NavCube) : NavCube :=
  let cameraFitFOV := default_param (VNum (lit 45)) cameraFitFOV in
  assign "_cameraFitFOV" cameraFitFOV p.

Definition getCameraFitFOV (p : NavCube) : value :=
  get (this p) "_cameraFitFOV".

Definition setCameraFlyDuration (cameraFlyDuration : value) (p : NavCube) : NavCube :=
  let cameraFlyDuration := default_param (VNum (lit (1 # 2))) cameraFlyDuration in
  assign "_cameraFlyDuration" cameraFlyDuration p.

Definition getCameraFlyDuration (p : NavCube) : value :=
  get (this p) "_cameraFlyDuration".

(** ** Layout *)

Definition _updateLayout (v : Viewer) (p : NavCube) : NavCube :=
  let boundary := canvas_boundary v in
  let size := get (this p) "_size" in
  let p := assign_style "width" (js_add size (VStr "px")) p in
  let p := assign_style "height" (js_add size (VStr "px")) p in
  let alignment := get (this p) "_alignment" in
  let p :=
    if strict_eq_str alignment "bottomRight" then
      let p := assign_style "top"
        (js_add (js_sub (js_sub (js_add (index boundary 1) (index boundary 3)) size)
                        (get (this p) "_bottomMargin")) (VStr "px")) p in
      assign_style "left"
        (js_add (js_sub (js_sub (js_add (index boundary 0) (index boundary 2)) size)
                        (get (this p) "_rightMargin")) (VStr "px")) p
    else if strict_eq_str alignment "bottomLeft" then
      let p := assign_style "top"
        (js_add (js_sub (js_sub (js_add (index boundary 1) (index boundary 3)) size)
                        (get (this p) "_bottomMargin")) (VStr "px")) p in
      assign_style "left" (js_add (get (this p) "_leftMargin") (VStr "px")) p
    else if strict_eq_str alignment "topLeft" then
      let p := assign_style "top" (js_add (get (this p) "_topMargin") (VStr "px")) p in
      assign_style "left" (js_add (get (this p) "_leftMargin") (VStr "px")) p
    else if strict_eq_str alignment "topRight" then
      let p := assign_style "top" (js_add (get (this p) "_topMargin") (VStr "px")) p in
      assign_style "left"
        (js_add (js_sub (js_sub (js_add (index boundary 0) (index boundary 2)) size)
                        (get (this p) "_rightMargin")) (VStr "px")) p
    else p in
  assign "_needUpdateLayout" (VBool false) p.

(** The handler of the canvas [boundary] event. *)
Definition _onCanvasBoundary (p : NavCube) : NavCube :=
  assign "_needUpdateLayout" (VBool true) p.

(** The handler of the scene [tick] event. *)
Definition _onSceneTick (v : Viewer) (p : NavCube) : NavCube :=
  if ToBoolean (get (this p) "_needUpdateLayout")
  then _updateLayout v p
  else p.

(** ** Camera synchronisation *)

(** [math.rotationMat4c(-90 * math.DEGTORAD, 1, 0, 0)], computed once. *)
Definition synch_matrix : mat4 :=
  math_rotationMat4c (num_mul (num_neg (lit 90)) math_DEGTORAD)
                     (lit 1) (lit 0) (lit 0).

Definition _synchCamera (v : Viewer) (p : NavCube) : NavCube :=
  let eye := cam_eye (camera v) in
  let look := cam_look (camera v) in
  let up := cam_up (camera v) in
  let eyeLookVec :=
    math_mulVec3Scalar (math_normalizeVec3 (math_subVec3 eye look)) (lit 5) in
  if ToBoolean (get (this p) "_zUp") then
    set_navCubeCamera
      {| cam_look := (lit 0, lit 0, lit 0);
         cam_eye := math_transformVec3 synch_matrix eyeLookVec;
         cam_up := math_transformPoint3 synch_matrix up |} p
  else
    set_navCubeCamera
      {| cam_look := (lit 0, lit 0, lit 0);
         cam_eye := eyeLookVec;
         cam_up := up |} p.

(** The handlers of the [fov] and [projection] events. *)
Definition _onCameraFOV (fov : value) (p : NavCube) : NavCube :=
  assign_camera_prop "perspective.fov" fov p.

Definition _onCameraProjection (projection : value) (p : NavCube) : NavCube :=
  assign_camera_prop "projection" projection p.

(** ** Subscriptions, listeners and the texture canvas *)

(** Modelled from the spec: [Component.on] of the engine is not among the
    sources.  [target.on(event, cb)] subscribes [cb] under a new handle and
    returns the handle.  Whether the engine also calls [cb] at once is left
    to the events below. *)
Definition on (target event : string) (cb : callback) (h : Host) : nat * Host :=
  let handle := nextHandle h in
  (handle,
   set_nextHandle (S handle)
     (set_subscriptions (<[(target, handle) := (event, cb)]> (subscriptions h)) h)).

(** Modelled from the spec: [Component.off] of the engine is not among the
    sources.  [target.off(handle)], with the handle read from a property of
    the plugin, removes that subscription of [target]; a property that
    holds no handle unsubscribes nothing. *)
Definition off (target : string) (handle : option nat) (h : Host) : Host :=
  match handle with
  | Some handle => set_subscriptions (delete (target, handle) (subscriptions h)) h
  | None => h
  end.

Definition addEventListener (target type listener : string) (h : Host) : Host :=
  set_listeners ({[ (target, type, listener) ]} ∪ listeners h) h.

Definition removeEventListener (target type listener : string) (h : Host) : Host :=
  set_listeners (listeners h ∖ {[ (target, type, listener) ]}) h.

(** Modelled from the spec: [CubeTextureCanvas.js] is not among the
    sources.  [this._cubeTextureCanvas.setAreaHighlighted(areaId, flag)]
    marks the area as highlighted or as not highlighted. *)
Definition setAreaHighlighted (areaId : Z) (flag : bool) (h : Host) : Host :=
  if flag
  then set_highlighted ({[ areaId ]} ∪ highlighted h) h
  else set_highlighted (highlighted h ∖ {[ areaId ]}) h.

(** [this._repaint()]: the texture image of the cube mesh is refreshed from
    the texture canvas. *)
Definition _repaint (h : Host) : Host :=
  set_painted (highlighted h) h.

Definition call (c : HostCall) (h : Host) : Host :=
  set_calls (calls h ++ [c]) h.

(** ** Flying the camera *)

Definition flyTo (v : Viewer) (dir : vec3) (up : option vec3) (st : State) : State :=
  let aabb := scene_aabb v in
  let diag := math_getAABB3Diag aabb in
  let center := math_getAABB3Center aabb in
  let dist := Math_abs (num_div diag (Math_tan (num_div (lit 55) (lit 2)))) in
  if ToBoolean (get (this (plugin st)) "_cameraFly") then
    on_host (call (FlyTo
      {| f_look := center;
         f_eye := (num_sub (vx center) (num_mul dist (vx dir)),
                   num_sub (vy center) (num_mul dist (vy dir)),
                   num_sub (vz center) (num_mul dist (vz dir)));
         f_up := default (lit 0, lit 1, lit 0) up;
         f_orthoScale := num_mul diag (lit (13 # 10));
         f_fitFOV := get (this (plugin st)) "_cameraFitFOV";
         f_duration := Some (get (this (plugin st)) "_cameraFlyDuration") |})) st
  else
    on_host (call (JumpTo
      {| f_look := center;
         f_eye := (num_sub (vx center) (num_mul dist (vx dir)),
                   num_sub (vy center) (num_mul dist (vy dir)),
                   num_sub (vz center) (num_mul dist (vz dir)));
         f_up := default (lit 0, lit 1, lit 0) up;
         f_orthoScale := num_mul diag (lit (13 # 10));
         f_fitFOV := get (this (plugin st)) "_cameraFitFOV";
         f_duration := None |})) st.

(** ** Mouse handlers *)

(** The block
    [if (lastAreaId >= 0) { setAreaHighlighted(lastAreaId, false);
                            _repaint(); lastAreaId = -1; }]
    which the handlers repeat. *)
Definition unhighlight_last (st : State) : State :=
  if 0 <=? lastAreaId (vars st) then
    let st := on_host (setAreaHighlighted (lastAreaId (vars st)) false) st in
    let st := on_host _repaint st in
    on_vars (set_lastAreaId (-1)) st
  else st.

(** [posX - lastX] with [lastX] possibly [undefined]. *)
Definition coord_diff (pos : Z) (last : option Z) : num :=
  match last with
  | Some last => lit (inject_Z (pos - last))
  | None => nan
  end.

Definition actionMove (posX posY : Z) (st : State) : State :=
  let yawInc := num_mul (coord_diff posX (lastX (vars st))) (num_neg sensitivity) in
  let pitchInc := num_mul (coord_diff posY (lastY (vars st))) (num_neg sensitivity) in
  let st := on_vars (λ c, set_yaw (num_sub (yaw c) yawInc) c) st in
  let st := on_vars (λ c, set_pitch (js_sub (pitch c) (VNum pitchInc)) c) st in
  let st :=
    if strict_ne_undefined minPitch && js_lt (pitch (vars st)) minPitch
    then on_vars (set_pitch minPitch) st else st in
  let st :=
    if strict_ne_undefined maxPitch && js_lt maxPitch (pitch (vars st))
    then on_vars (set_pitch maxPitch) st else st in
  let st := on_host (call (OrbitYaw yawInc)) st in
  let st := on_host (call (OrbitPitch (num_neg pitchInc))) st in
  let st := on_vars (set_lastX (Some posX)) st in
  on_vars (set_lastY (Some posY)) st.

Definition _onMouseEnter (st : State) : State :=
  on_vars (set_over true) st.

Definition _onMouseLeave (st : State) : State :=
  on_vars (set_over false) st.

Definition _onMouseDown (e : MouseEvent) (hit : PickResult) (st : State) : State :=
  let st := on_vars (set_downX (Some (e_x e))) st in
  let st := on_vars (set_downY (Some (e_y e))) st in
  let st := on_vars (set_lastX (Some (e_clientX e))) st in
  let st := on_vars (set_lastY (Some (e_clientY e))) st in
  match hit with
  | Some _ => on_vars (set_down true) st
  | None => on_vars (set_down false) st
  end.

(** The callback [ok] that [_onMouseUp] hands to [flyTo]; [hit] is the
    answer of the pick it makes when the engine calls it. *)
Definition flyTo_ok (hit : PickResult) (st : State) : State :=
  let st := unhighlight_last st in
  match hit with
  | Some (Some uv) =>
      let areaId := getArea uv in
      (* [areaId !== undefined]: an area id is a number *)
      let st := on_host (set_cursor "pointer") st in
      let st := unhighlight_last st in
      if 0 <=? areaId then
        let st := on_host (setAreaHighlighted areaId true) st in
        let st := on_vars (set_lastAreaId areaId) st in
        on_host _repaint st
      else st
  | _ => st
  end.

(** A coordinate remembered at [mousedown], in arithmetic ([null] is 0). *)
Definition coord (c : option Z) : Z := default 0 c.

Definition _onMouseUp (v : Viewer) (e : MouseEvent) (hit : PickResult)
    (st : State) : State :=
  if negb (e_which e =? 1) then st else
  let st := on_vars (set_down false) st in
  match downX (vars st) with
  | None => st
  | Some _ =>
    match hit with
    | Some (Some uv) =>
        let areaId := getArea uv in
        if 0 <=? areaId then
          let st := on_host (set_cursor "pointer") st in
          let st := unhighlight_last st in
          if 0 <=? areaId then
            let st := on_host (setAreaHighlighted areaId true) st in
            let st := on_vars (set_lastAreaId areaId) st in
            let st := on_host _repaint st in
            if (e_x e <? coord (downX (vars st)) - 3)
               || (coord (downX (vars st)) + 3 <? e_x e)
               || (e_y e <? coord (downY (vars st)) - 3)
               || (coord (downY (vars st)) + 3 <? e_y e)
            then st
            else
              match getAreaDir areaId with
              | Some dir =>
                  let up := getAreaUp areaId in
                  flyTo v dir up st
              | None => st
              end
          else st
        else st
    | _ => st
    end
  end.

Definition _onMouseMove (e : MouseEvent) (hit : PickResult) (st : State) : State :=
  let st := unhighlight_last st in
  if (e_buttons e =? 1) && negb (down (vars st)) then st else
  if down (vars st) then
    let posX := e_clientX e in
    let posY := e_clientY e in
    let st := on_host (set_cursor "move") st in
    actionMove posX posY st
  else
  if negb (over (vars st)) then st else
  match hit with
  | Some (Some uv) =>
      let st := on_host (set_cursor "pointer") st in
      let areaId := getArea uv in
      if areaId =? lastAreaId (vars st) then st else
      let st :=
        if 0 <=? lastAreaId (vars st)
        then on_host (setAreaHighlighted (lastAreaId (vars st)) false) st
        else st in
      if 0 <=? areaId then
        let st := on_host (setAreaHighlighted areaId true) st in
        let st := on_host _repaint st in
        on_vars (set_lastAreaId areaId) st
      else st
  | Some None => st
  | None =>
      let st := on_host (set_cursor "default") st in
      unhighlight_last st
  end.

(** ** Construction and teardown *)

(** [this.k = target.on(event, cb)]. *)
Definition subscribe (k target event : string) (cb : callback) (st : State) : State :=
  let '(handle, h) := on target event cb (host st) in
  let st := set_host h st in
  on_plugin (λ p, set_subIds (<[k := handle]> (subIds p)) p) st.

(** [new NavCubePlugin(viewer, cfg)], in a host [h] that may already hold
    subscriptions and listeners of others; [cam0] is the camera of the
    scene the constructor creates for the cube.  Creating lights, meshes,
    materials and the texture touches nothing that is modelled here, except
    that both meshes are created visible and that a new texture canvas has
    no highlighted area. *)
Definition construct (v : Viewer) (cfg : gmap string value) (cam0 : Camera)
    (h : Host) : State :=
  let visible := VBool true in
  let size := js_or (get cfg "size") (VNum (lit 250)) in
  let p :=
    {| this := ∅; subIds := ∅;
       cubeMesh_visible := VUndefined; shadow_visible := VUndefined;
       navCubeCanvas := ∅; style := ∅;
       navCubeCamera := cam0; navCubeCamera_props := ∅;
       errors := [] |} in
  let p := assign_canvas "id" (js_add (VStr "cubeCanvas") (canvas_id v)) p in
  let p := assign_style "height" (js_add size (VStr "px")) p in
  let p := assign_style "width" (js_add size (VStr "px")) p in
  let p := assign_style "padding" (VStr "0") p in
  let p := assign_style "margin" (VStr "0") p in
  let p := assign_style "top" (VStr "0px") p in
  let p := assign_style "left" (VStr "0px") p in
  let p := assign_style "position" (VStr "absolute") p in
  let p := assign_style "z-index" (VStr "2000000") p in
  let p := assign_style "visibility"
             (if ToBoolean visible then VStr "visible" else VStr "hidden") p in
  let p := assign_camera_prop "ortho.scale" (VNum (lit 7)) p in
  let p := assign_camera_prop "ortho.near" (VNum (lit (1 # 10))) p in
  let p := assign_camera_prop "ortho.far" (VNum (lit 2000)) p in
  let p := assign "_zUp" (VBool false) p in
  let c :=
    {| lastAreaId := -1; downX := None; downY := None;
       down := false; over := false;
       yaw := lit 0; pitch := VNum (lit 0);
       lastX := None; lastY := None |} in
  let st := {| plugin := p; vars := c; host := h |} in
  let st := subscribe "_onCameraMatrix" "viewer.camera" "matrix" Cb_synchCamera st in
  let st := subscribe "_onCameraWorldAxis" "viewer.camera" "worldAxis" Cb_synchCamera st in
  let st := subscribe "_onCameraFOV" "viewer.camera.perspective" "fov" Cb_fov st in
  let st := subscribe "_onCameraProjection" "viewer.camera" "projection" Cb_projection st in
  (* [viewer.camera.on("worldAxis", ...)]: the handle is dropped *)
  let st := set_host (on "viewer.camera" "worldAxis" Cb_worldAxis_empty (host st)).2 st in
  let st := on_host (set_highlighted ∅) st in
  let st := on_host _repaint st in
  let st := on_plugin (set_cubeMesh_visible (VBool (ToBoolean visible))) st in
  let st := on_plugin (set_shadow_visible (VBool (ToBoolean visible))) st in
  let st := on_host (addEventListener "_navCubeCanvas" "mouseenter" "_onMouseEnter") st in
  let st := on_host (addEventListener "_navCubeCanvas" "mouseleave" "_onMouseLeave") st in
  let st := on_host (addEventListener "_navCubeCanvas" "mousedown" "_onMouseDown") st in
  let st := on_host (addEventListener "document" "mouseup" "_onMouseUp") st in
  let st := on_host (addEventListener "document" "mousemove" "_onMouseMove") st in
  let st := subscribe "_onCanvasBoundary" "viewer.scene.canvas" "boundary" Cb_boundary st in
  let st := subscribe "_onSceneTick" "viewer.scene" "tick" Cb_tick st in
  let st := on_plugin (setVisible (get cfg "visible")) st in
  let st := on_plugin (setSize (get cfg "size")) st in
  let st := on_plugin (setAlignment (get cfg "alignment")) st in
  let st := on_plugin (setLeftMargin (get cfg "leftMargin")) st in
  let st := on_plugin (setRightMargin (get cfg "rightMargin")) st in
  let st := on_plugin (setTopMargin (get cfg "topMargin")) st in
  let st := on_plugin (setBottomMargin (get cfg "bottomMargin")) st in
  let st := on_plugin (setCameraFitFOV (get cfg "cameraFitFOV")) st in
  let st := on_plugin (setCameraFly (get cfg "cameraFly")) st in
  on_plugin (setCameraFlyDuration (get cfg "cameraFlyDuration")) st.

Definition destroy (st : State) : State :=
  let ids := subIds (plugin st) in
  let st := on_host (off "viewer.scene.canvas" (ids !! "_onCanvasBoundary")) st in
  let st := on_host (off "viewer.scene" (ids !! "_onSceneTick")) st in
  let st := on_host (off "viewer.camera" (ids !! "_onCameraMatrix")) st in
  let st := on_host (off "viewer.camera" (ids !! "_onCameraWorldAxis")) st in
  let st := on_host (off "viewer.camera.perspective" (ids !! "_onCameraFOV")) st in
  let st := on_host (off "viewer.camera" (ids !! "_onCameraProjection")) st in
  let st := on_host (removeEventListener "_navCubeCanvas" "mouseenter" "_onMouseEnter") st in
  let st := on_host (removeEventListener "_navCubeCanvas" "mouseleave" "_onMouseLeave") st in
  let st := on_host (removeEventListener "_navCubeCanvas" "mousedown" "_onMouseDown") st in
  let st := on_host (removeEventListener "document" "mousemove" "_onMouseMove") st in
  let st := on_host (removeEventListener "document" "mouseup" "_onMouseUp") st in
  on_host (call SuperDestroy) st.

(** ** Events *)

(** The public setters. *)
Inductive setter :=
  | SetVisible | SetSize | SetAlignment
  | SetLeftMargin | SetRightMargin | SetTopMargin | SetBottomMargin
  | SetCameraFly | SetCameraFitFOV | SetCameraFlyDuration.

Definition apply_setter (m : setter) (arg : value) (p : NavCube) : NavCube :=
  match m with
  | SetVisible => setVisible arg p
  | SetSize => setSize arg p
  | SetAlignment => setAlignment arg p
  | SetLeftMargin => setLeftMargin arg p
  | SetRightMargin => setRightMargin arg p
  | SetTopMargin => setTopMargin arg p
  | SetBottomMargin => setBottomMargin arg p
  | SetCameraFly => setCameraFly arg p
  | SetCameraFitFOV => setCameraFitFOV arg p
  | SetCameraFlyDuration => setCameraFlyDuration arg p
  end.

(** The setters that the documentation lists under the appearance of the
    cube: visibility, size, alignment and margins. *)
Definition visual_setter (m : setter) : bool :=
  match m with
  | SetCameraFly | SetCameraFitFOV | SetCameraFlyDuration => false
  | _ => true
  end.

(** What can happen to a constructed plugin: an engine event, a DOM event,
    the engine calling back after a flight, or a call of a setter.  Each
    carries what its handler reads from the outside.  ([send] is left out:
    it acts through [CubeTextureCanvas.clear] alone, which is not among
    the sources.) *)
Inductive event :=
  | Ev_boundary
  | Ev_tick (v : Viewer)
  | Ev_matrix (v : Viewer)
  | Ev_worldAxis (v : Viewer)
  | Ev_fov (fov : value)
  | Ev_projection (projection : value)
  | Ev_mouseenter
  | Ev_mouseleave
  | Ev_mousedown (e : MouseEvent) (hit : PickResult)
  | Ev_mouseup (v : Viewer) (e : MouseEvent) (hit : PickResult)
  | Ev_mousemove (e : MouseEvent) (hit : PickResult)
  | Ev_flight_ok (hit : PickResult)
  | Ev_call (m : setter) (arg : value).

Definition handle (ev : event) (st : State) : State :=
  match ev with
  | Ev_boundary => on_plugin _onCanvasBoundary st
  | Ev_tick v => on_plugin (_onSceneTick v) st
  | Ev_matrix v => on_plugin (_synchCamera v) st
  | Ev_worldAxis v => on_plugin (_synchCamera v) st
  | Ev_fov fov => on_plugin (_onCameraFOV fov) st
  | Ev_projection projection => on_plugin (_onCameraProjection projection) st
  | Ev_mouseenter => _onMouseEnter st
  | Ev_mouseleave => _onMouseLeave st
  | Ev_mousedown e hit => _onMouseDown e hit st
  | Ev_mouseup v e hit => _onMouseUp v e hit st
  | Ev_mousemove e hit => _onMouseMove e hit st
  | Ev_flight_ok hit => flyTo_ok hit st
  | Ev_call m arg => on_plugin (apply_setter m arg) st
  end.

(** The states a plugin goes through: the one the constructor leaves, and
    every state a handler leaves when it ran from such a state. *)
Inductive reachable (v : Viewer) (cfg : gmap string value) (cam0 : Camera)
    (h : Host) : State → Prop :=
  | reachable_init : reachable v cfg cam0 h (construct v cfg cam0 h)
  | reachable_step st ev :
      reachable v cfg cam0 h st → reachable v cfg cam0 h (handle ev st).

(** ** State predicates *)

(** At most one area is highlighted, and [lastAreaId] names it. *)
Definition highlight_inv (st : State) : Prop :=
  (lastAreaId (vars st) = -1 ∧ highlighted (host st) = ∅)
  ∨ (0 ≤ lastAreaId (vars st)
     ∧ highlighted (host st) = {[ lastAreaId (vars st) ]}).

End Plugin.

(* ===================================================================== *)
(** * Coordinates within an element *)
(* ===================================================================== *)

(** An element of the page, with [offsetLeft] and [offsetTop]: one without
    an [offsetParent], or one inside its [offsetParent]. *)
Inductive Element :=
  | Outermost (offsetLeft offsetTop : Z)
  | Inside (offsetLeft offsetTop : Z) (offsetParent : Element).

(** What [getCoordsWithinElement] reads of the event it is given. *)
Record PositionedEvent := {
  ev_target : Element;
  ev_pageX : Z;
  ev_pageY : Z;
}.

(** The loop [while (element.offsetParent) { ... }], from [element] and
    the totals so far to the totals at its end. *)
Fixpoint total_offsets (element : Element) (totalOffsetLeft totalOffsetTop : Z)
    : Z * Z :=
  match element with
  | Inside offsetLeft offsetTop offsetParent =>
      total_offsets offsetParent (totalOffsetLeft + offsetLeft)
                    (totalOffsetTop + offsetTop)
  | Outermost _ _ => (totalOffsetLeft, totalOffsetTop)
  end.

(** [getCoordsWithinElement(event)]; [window_event] is [x] and [y] of
    [window.event], which the function reads when it is given no event. *)
Definition getCoordsWithinElement (event : option PositionedEvent)
    (window_event : Z * Z) : Z * Z :=
  match event with
  | None => (window_event.1, window_event.2)
  | Some event =>
      let '(totalOffsetLeft, totalOffsetTop) :=
        total_offsets (ev_target event) 0 0 in
      (ev_pageX event - totalOffsetLeft, ev_pageY event - totalOffsetTop)
  end.

(* ===================================================================== *)
(** * An instance to run the model on *)
(* ===================================================================== *)

(** Numbers are the kernel's binary64 floats, which is the Number type of
    the language.  [Math.tan], and the sine and cosine that the rotation
    matrix needs, are truncated power series; the printer writes the exact
    decimal value of a number (what [Number::toString] prints for integers
    and short binary fractions) and the reader accepts unsigned decimal
    integers.  The engine is a test double: vector functions written the
    usual way, and a texture canvas with six areas, the faces of the cube,
    laid out as the [uv] coordinates of the cube mesh in the constructor
    place them.  Nothing that is proved about the plugin depends on this
    instance; the examples that accompany the theorems are evaluated on it. *)

Local Open Scope float_scope.

Definition float_of_Z (z : Z) : float :=
  match z with
  | Z0 => 0
  | Zpos p => of_uint63 (Uint63.of_Z (Zpos p))
  | Zneg p => - of_uint63 (Uint63.of_Z (Zpos p))
  end.

Definition float_of_Q (q : Q) : float :=
  float_of_Z (Qnum q) / float_of_Z (Zpos (Qden q)).

Definition float_pi : float := float_of_Q (884279719003555 # 281474976710656).

(** [acc + t1 + t2 + ...] with [t(i+1) = - ti * x2 / ((k+1) * (k+2))]. *)
Fixpoint float_series (n : nat) (k term acc x2 : float) : float :=
  match n with
  | O => acc
  | S n =>
      let term := - term * x2 / ((k + 1) * (k + 2)) in
      float_series n (k + 2) term (acc + term) x2
  end.

Definition float_sin (x : float) : float := float_series 14 1 x x (x * x).
Definition float_cos (x : float) : float := float_series 14 0 1 1 (x * x).

(** The nearest integer to [y], for [y] of magnitude below 2^51. *)
Definition float_round (y : float) : float :=
  (y + 6755399441055744) - 6755399441055744.

Definition float_tan (x : float) : float :=
  let r := x - float_pi * float_round (x / float_pi) in
  float_sin r / float_cos r.

(** The decimal digits of [n >= 0] in front of [acc]; [fuel] bounds their
    number. *)
Fixpoint digits_of (fuel : nat) (n : Z) (acc : string) : string :=
  match fuel with
  | O => acc
  | S fuel =>
      let acc := String (Ascii.ascii_of_N (48 + Z.to_N (n mod 10))) acc in
      if (n / 10 =? 0)%Z then acc else digits_of fuel (n / 10)%Z acc
  end.

Definition Z_to_string (n : Z) : string :=
  if (n <? 0)%Z
  then "-" ++ digits_of (Z.to_nat (1 + Z.log2 (- n))) (- n) ""
  else digits_of (Z.to_nat (1 + Z.log2 n)) n "".

(** The decimal digits of [part / 2 ^ k], which is below 1. *)
Fixpoint fraction_digits (fuel : nat) (part k : Z) : string :=
  match fuel with
  | O => ""
  | S fuel =>
      if (part =? 0)%Z then ""
      else
        let t := (10 * part)%Z in
        String (Ascii.ascii_of_N (48 + Z.to_N (Z.shiftr t k)))
               (fraction_digits fuel (Z.land t (Z.ones k)) k)
  end.

(** The exact decimal value of [m / 2 ^ k]. *)
Definition dyadic_to_string (m : Z) (k : Z) : string :=
  let part := Z.land m (Z.ones k) in
  if (part =? 0)%Z then Z_to_string (Z.shiftr m k)
  else Z_to_string (Z.shiftr m k) ++ "." ++ fraction_digits (Z.to_nat k) part k.

Definition float_to_string (x : float) : string :=
  match Prim2SF x with
  | S754_nan => "NaN"
  | S754_zero _ => "0"
  | S754_infinity false => "Infinity"
  | S754_infinity true => "-Infinity"
  | S754_finite s m e =>
      let sign := if s then "-" else "" in
      if (0 <=? e)%Z then sign ++ Z_to_string (Zpos m * 2 ^ e)%Z
      else sign ++ dyadic_to_string (Zpos m) (- e)
  end.

Fixpoint digits_value (s : string) (acc : Z) : option Z :=
  match s with
  | EmptyString => Some acc
  | String c s =>
      let d := (Z.of_N (Ascii.N_of_ascii c) - 48)%Z in
      if ((0 <=? d) && (d <=? 9))%Z then digits_value s (10 * acc + d)%Z else None
  end.

Definition float_of_string (s : string) : float :=
  match digits_value s 0 with
  | Some z => float_of_Z z
  | None => PrimFloat.nan
  end.

#[export] Instance binary64 : JSNumber := {|
  num := float;
  lit := float_of_Q;
  nan := PrimFloat.nan;
  num_add := PrimFloat.add;
  num_sub := PrimFloat.sub;
  num_mul := PrimFloat.mul;
  num_div := PrimFloat.div;
  num_neg := PrimFloat.opp;
  num_lt := PrimFloat.ltb;
  num_truthy := λ x, negb ((x =? 0) || is_nan x);
  Math_abs := PrimFloat.abs;
  Math_tan := float_tan;
  numberToString := float_to_string;
  stringToNumber := float_of_string;
|}.

Definition fvec3 : Type := float * float * float.

Definition double_lenVec3 (v : fvec3) : float :=
  let '(x, y, z) := v in sqrt (x * x + y * y + z * z).

Definition double_subVec3 (u v : fvec3) : fvec3 :=
  let '(a, b, c) := u in let '(x, y, z) := v in (a - x, b - y, c - z).

Definition double_mulVec3Scalar (v : fvec3) (s : float) : fvec3 :=
  let '(x, y, z) := v in (x * s, y * s, z * s).

Definition double_normalizeVec3 (v : fvec3) : fvec3 :=
  double_mulVec3Scalar v (1 / double_lenVec3 v).

(** A rotation about a unit axis: the three columns of the matrix. *)
Definition double_rotationMat4c (angle x y z : float) : fvec3 * fvec3 * fvec3 :=
  let s := float_sin angle in
  let c := float_cos angle in
  let q := 1 - c in
  ((q * x * x + c, q * x * y + z * s, q * z * x - y * s),
   (q * x * y - z * s, q * y * y + c, q * y * z + x * s),
   (q * z * x + y * s, q * y * z - x * s, q * z * z + c)).

Definition double_transformVec3 (m : fvec3 * fvec3 * fvec3) (v : fvec3) : fvec3 :=
  let '((a0, a1, a2), (b0, b1, b2), (c0, c1, c2)) := m in
  let '(x, y, z) := v in
  (a0 * x + b0 * y + c0 * z, a1 * x + b1 * y + c1 * z, a2 * x + b2 * y + c2 * z).

Definition double_getAABB3Diag (aabb : fvec3 * fvec3) : float :=
  abs (double_lenVec3 (double_subVec3 aabb.2 aabb.1)).

Definition double_getAABB3Center (aabb : fvec3 * fvec3) : fvec3 :=
  let '((a, b, c), (x, y, z)) := aabb in
  ((a + x) / 2, (b + y) / 2, (c + z) / 2).

(** The face under a texture coordinate: 0 front (+Z), 1 right (+X),
    2 top (+Y), 3 left (-X), 4 bottom (-Y), 5 back (-Z). *)
Definition double_getArea (uv : float * float) : Z :=
  let '(u, v) := uv in
  if (u <? 0) || (1 <? u) || (v <? 0) || (1 <? v) then (-1)%Z
  else if (float_of_Q (3333 # 10000) <=? v) && (v <? float_of_Q (6666 # 10000)) then
    if u <? 0.25 then 3%Z else if u <? 0.5 then 0%Z
    else if u <? 0.75 then 1%Z else 5%Z
  else if (0.25 <=? u) && (u <? 0.5) then
    if float_of_Q (6666 # 10000) <=? v then 2%Z else 4%Z
  else (-1)%Z.

Definition double_getAreaDir (areaId : Z) : option fvec3 :=
  match areaId with
  | 0%Z => Some (0, 0, -1)
  | 1%Z => Some (-1, 0, 0)
  | 2%Z => Some (0, -1, 0)
  | 3%Z => Some (1, 0, 0)
  | 4%Z => Some (0, 1, 0)
  | 5%Z => Some (0, 0, 1)
  | _ => None
  end.

Definition double_getAreaUp (areaId : Z) : option fvec3 :=
  match areaId with
  | 2%Z => Some (0, 0, 1)
  | 4%Z => Some (0, 0, -1)
  | _ => None
  end.

#[export] Instance engine_double : @Engine binary64 := {|
  mat4 := fvec3 * fvec3 * fvec3;
  AABB3 := fvec3 * fvec3;
  UV := float * float;
  math_DEGTORAD := float_of_Q (174532925 # 10000000000);
  math_rotationMat4c := double_rotationMat4c;
  math_subVec3 := double_subVec3;
  math_normalizeVec3 := double_normalizeVec3;
  math_mulVec3Scalar := double_mulVec3Scalar;
  math_transformVec3 := double_transformVec3;
  math_transformPoint3 := double_transformVec3;
  math_getAABB3Diag := double_getAABB3Diag;
  math_getAABB3Center := double_getAABB3Center;
  getArea := double_getArea;
  getAreaDir := double_getAreaDir;
  getAreaUp := double_getAreaUp;
|}.

Local Close Scope float_scope.

(* ===================================================================== *)
(** * Vocabulary of the statements *)
(* ===================================================================== *)

Section Vocabulary.
Context {N : JSNumber} {E : Engine}.

(** The values that [setAlignment] accepts. *)
Definition accepted_alignments : list string :=
  ["bottomRight"; "bottomLeft"; "topLeft"; "topRight"].

(** The message of [setAlignment] on any other value. *)
Definition alignment_error : string :=
  "Illegal value for alignment - defaulting to `bottomRight'".

(** [v + "px"]: a length of [v] pixels, as a style property holds it. *)
Definition px (v : value) : value := js_add v (VStr "px").

(** [a + b - size - margin], left to right. *)
Definition far_edge (a b size margin : value) : value :=
  js_sub (js_sub (js_add a b) size) margin.

(** The camera move of a selected area, in the words of its description:
    look at the centre of the scene's bounding box, from the distance
    [|diag / tan(55/2)|] against the direction [dir], with [up] or
    [[0,1,0]], an orthographic scale of [diag * 1.3], and the stored
    field of view. *)
Definition flight_target (v : Viewer) (p : NavCube) (dir : vec3)
    (up : option vec3) (duration : option value) : FlightParams :=
  let diag := math_getAABB3Diag (scene_aabb v) in
  let center := math_getAABB3Center (scene_aabb v) in
  let dist := Math_abs (num_div diag (Math_tan (num_div (lit 55) (lit 2)))) in
  {| f_look := center;
     f_eye := (num_sub (vx center) (num_mul dist (vx dir)),
               num_sub (vy center) (num_mul dist (vy dir)),
               num_sub (vz center) (num_mul dist (vz dir)));
     f_up := match up with Some up => up | None => (lit 0, lit 1, lit 0) end;
     f_orthoScale := num_mul diag (lit (13 # 10));
     f_fitFOV := getCameraFitFOV p;
     f_duration := duration |}.

(** What a left-button [mouseup] over the area [areaId] does before it
    looks at the displacement: the button is up, the cursor is a pointer,
    the area of [lastAreaId] is un-highlighted, [areaId] is highlighted and
    recorded, and the cube is repainted. *)
Definition highlight_on_mouseup (areaId : Z) (st : State) : State :=
  let st := on_vars (set_down false) st in
  let st := on_host (set_cursor "pointer") st in
  let st := unhighlight_last st in
  let st := on_host (setAreaHighlighted areaId true) st in
  let st := on_vars (set_lastAreaId areaId) st in
  on_host _repaint st.

(** The request that [flyTo] issues, by the flag. *)
Definition flight_request (v : Viewer) (p : NavCube) (dir : vec3)
    (up : option vec3) : HostCall :=
  if ToBoolean (getCameraFly p)
  then FlyTo (flight_target v p dir up (Some (getCameraFlyDuration p)))
  else JumpTo (flight_target v p dir up None).

(** The displacement test of [_onMouseUp]. *)
Definition moved_away (e : MouseEvent) (st : State) : bool :=
  (e_x e <? coord (downX (vars st)) - 3)
  || (coord (downX (vars st)) + 3 <? e_x e)
  || (e_y e <? coord (downY (vars st)) - 3)
  || (coord (downY (vars st)) + 3 <? e_y e).

(** The cube shows what the texture canvas holds, and [highlight_inv]. *)
Definition shown_inv (st : State) : Prop :=
  highlight_inv st ∧ painted (host st) = highlighted (host st).

(** No area is highlighted, shown or recorded. *)
Definition cleared (st : State) : Prop :=
  lastAreaId (vars st) = -1
  ∧ highlighted (host st) = ∅
  ∧ painted (host st) = ∅.

(** The subscriptions the constructor makes, by component and handle, when
    the host's next handle is [n]. *)
Definition constructor_subscriptions (n : nat)
    : list (string * nat * (string * callback)) :=
  [ ("viewer.camera", n, ("matrix", Cb_synchCamera));
    ("viewer.camera", S n, ("worldAxis", Cb_synchCamera));
    ("viewer.camera.perspective", S (S n), ("fov", Cb_fov));
    ("viewer.camera", S (S (S n)), ("projection", Cb_projection));
    ("viewer.camera", S (S (S (S n))), ("worldAxis", Cb_worldAxis_empty));
    ("viewer.scene.canvas", S (S (S (S (S n)))), ("boundary", Cb_boundary));
    ("viewer.scene", S (S (S (S (S (S n))))), ("tick", Cb_tick)) ].

(** The DOM listeners the constructor adds. *)
Definition constructor_listeners : gset (string * string * string) :=
  {[ ("_navCubeCanvas", "mouseenter", "_onMouseEnter");
     ("_navCubeCanvas", "mouseleave", "_onMouseLeave");
     ("_navCubeCanvas", "mousedown", "_onMouseDown");
     ("document", "mouseup", "_onMouseUp");
     ("document", "mousemove", "_onMouseMove") ]}.

(** A host whose handles so far are below its counter. *)
Definition host_wf (h : Host) : Prop :=
  ∀ target handle, is_Some (subscriptions h !! (target, handle)) →
    (handle < nextHandle h)%nat.

(** The getter that belongs to a setter. *)
Definition apply_getter (m : setter) (p : NavCube) : value :=
  match m with
  | SetVisible => getVisible p
  | SetSize => getSize p
  | SetAlignment => getAlignment p
  | SetLeftMargin => getLeftMargin p
  | SetRightMargin => getRightMargin p
  | SetTopMargin => getTopMargin p
  | SetBottomMargin => getBottomMargin p
  | SetCameraFly => getCameraFly p
  | SetCameraFitFOV => getCameraFitFOV p
  | SetCameraFlyDuration => getCameraFlyDuration p
  end.

(** An alignment that [setAlignment] takes without an error: none given,
    or one of the accepted strings. *)
Definition alignment_ok (a : value) : bool :=
  match a with
  | VUndefined => true
  | VStr s => bool_decide (s ∈ accepted_alignments)
  | _ => false
  end.

(** A margin as configured, or 10 for [null] and [undefined]. *)
Definition margin_or_default (v : value) : value :=
  match v with
  | VNull | VUndefined => VNum (lit 10)
  | _ => v
  end.

(** What the variables of a press look like: the two coordinates of the
    press are recorded together, with the last pointer position, and the
    button is down on the cube only after a press. *)
Definition press_inv (c : Closure) : Prop :=
  (downX c = None ↔ downY c = None)
  ∧ (is_Some (downX c) → is_Some (lastX c) ∧ is_Some (lastY c))
  ∧ (down c = true → is_Some (downX c)).

(** The configuration is complete: the alignment is an accepted string, no
    margin is [null] or [undefined], and no other setting is
    [undefined]. *)
Definition config_inv (p : NavCube) : Prop :=
  (∃ a, a ∈ accepted_alignments ∧ getAlignment p = VStr a)
  ∧ (∀ m, m ∈ [SetLeftMargin; SetRightMargin; SetTopMargin; SetBottomMargin] →
       apply_getter m p ≠ VNull)
  ∧ (∀ m, apply_getter m p ≠ VUndefined).

(** The events that set the layout-dirty flag. *)
Definition dirties_layout (ev : event) : bool :=
  match ev with
  | Ev_boundary => true
  | Ev_call m _ => visual_setter m
  | _ => false
  end.

Definition is_call (ev : event) : bool :=
  match ev with Ev_call _ _ => true | _ => false end.

Definition is_mousedown (ev : event) : bool :=
  match ev with Ev_mousedown _ _ => true | _ => false end.

(** The offsets of an element and of its ancestors, the outermost one --
    the one without an [offsetParent] -- left out. *)
Fixpoint offsets_below_root (element : Element) : list (Z * Z) :=
  match element with
  | Inside offsetLeft offsetTop offsetParent =>
      (offsetLeft, offsetTop) :: offsets_below_root offsetParent
  | Outermost _ _ => []
  end.

Definition sum_Z (l : list Z) : Z := foldr Z.add 0 l.

End Vocabulary.

(** ** Vocabulary of the further properties *)

#[export] Instance setter_eq_dec : EqDecision setter.
Proof. solve_decision. Defined.

Section MoreVocabulary.
Context {N : JSNumber} {E : Engine}.

(** What a setter leaves in the property that its getter reads. *)
Definition stored (m : setter) (arg : value) : value :=
  match m with
  | SetVisible => default_param (VBool true) arg
  | SetSize => default_param (VNum (lit 200)) arg
  | SetAlignment =>
      if alignment_ok arg then default_param (VStr "bottomRight") arg
      else VStr "bottomRight"
  | SetLeftMargin | SetRightMargin | SetTopMargin | SetBottomMargin =>
      margin_or_default arg
  | SetCameraFly => default_param (VBool true) arg
  | SetCameraFitFOV => default_param (VNum (lit 45)) arg
  | SetCameraFlyDuration => default_param (VNum (lit (1 # 2))) arg
  end.

(** The entry of the configuration object that goes to a setter. *)
Definition config_key (m : setter) : string :=
  match m with
  | SetVisible => "visible"
  | SetSize => "size"
  | SetAlignment => "alignment"
  | SetLeftMargin => "leftMargin"
  | SetRightMargin => "rightMargin"
  | SetTopMargin => "topMargin"
  | SetBottomMargin => "bottomMargin"
  | SetCameraFly => "cameraFly"
  | SetCameraFitFOV => "cameraFitFOV"
  | SetCameraFlyDuration => "cameraFlyDuration"
  end.

(** The style after [_updateLayout], by the position that the alignment
    selects. *)
Definition layout_position (v : Viewer) (p : NavCube)
    : option (value * value) :=
  let b i := index (canvas_boundary v) i in
  let bottom :=
    px (far_edge (b 1%nat) (b 3%nat) (getSize p) (getBottomMargin p)) in
  let right :=
    px (far_edge (b 0%nat) (b 2%nat) (getSize p) (getRightMargin p)) in
  if strict_eq_str (getAlignment p) "bottomRight" then Some (bottom, right)
  else if strict_eq_str (getAlignment p) "bottomLeft"
       then Some (bottom, px (getLeftMargin p))
  else if strict_eq_str (getAlignment p) "topLeft"
       then Some (px (getTopMargin p), px (getLeftMargin p))
  else if strict_eq_str (getAlignment p) "topRight"
       then Some (px (getTopMargin p), right)
  else None.

(** The area of the cube that a pick hits, if it hits one. *)
Definition hit_area (hit : PickResult) : option Z :=
  match hit with
  | Some (Some uv) => if 0 <=? getArea uv then Some (getArea uv) else None
  | _ => None
  end.

(** The increment of an orbit for a pointer that went from [last] to
    [pos]: the distance times [- sensitivity]. *)
Definition orbit_increment (pos last : Z) : num :=
  num_mul (lit (inject_Z (pos - last))) (num_neg (lit (1 # 2))).

(** The calls that one event can add. *)
Definition calls_of_event (ev : event) (new : list HostCall) : Prop :=
  match ev with
  | Ev_mouseup _ _ _ =>
      new = [] ∨ ∃ params, new = [FlyTo params] ∨ new = [JumpTo params]
  | Ev_mousemove _ _ =>
      new = [] ∨ ∃ a b, new = [OrbitYaw a; OrbitPitch b]
  | _ => new = []
  end.

End MoreVocabulary.

(** ** A scenario on the instance *)

Definition demo_viewer : @Viewer binary64 engine_double :=
  {| camera := {| cam_eye := (0, 0, 10)%float;
                  cam_look := (0, 0, 0)%float;
                  cam_up := (0, 1, 0)%float |};
     scene_aabb := ((-1, -1, -1), (1, 1, 1))%float;
     canvas_boundary := [VNum 0%float; VNum 0%float; VNum 800%float; VNum 600%float];
     canvas_id := VStr "myCanvas" |}.

Definition demo_host : @Host binary64 :=
  {| subscriptions := ∅; nextHandle := 0; listeners := ∅;
     highlighted := ∅; painted := ∅; cursor := "default"; calls := [] |}.

(** The plugin constructed with an empty configuration. *)
Definition demo_state : @State binary64 :=
  construct demo_viewer ∅ (camera demo_viewer) demo_host.

(** A number as a value. *)
Definition fnum (x : float) : @value binary64 := VNum x.

(** A mouse event at [(x, y)] with the given [which] and [buttons]. *)
Definition mouse (x y which buttons : Z) : MouseEvent :=
  {| e_x := x; e_y := y; e_clientX := x; e_clientY := y;
     e_which := which; e_buttons := buttons |}.

(** A pick that hits the front face of the cube. *)
Definition front_hit : @PickResult binary64 engine_double :=
  Some (Some (float_of_Q (3 # 10), 0.5%float)).

(* ===================================================================== *)
(** * colorAdjustment: what is appended *)
(* ===================================================================== *)

Lemma colorAdjustment_app (src : list string) :
  colorAdjustment src = src ++ colorAdjustment [].
Proof.
  unfold colorAdjustment, push. cbn [app].
  by rewrite <- !app_assoc.
Qed.

Lemma colorAdjustment_length (src : list string) :
  length (colorAdjustment src) = (length src + 13)%nat.
Proof. by rewrite colorAdjustment_app, length_app. Qed.

(** C2, as stated, fails: the strings appended are not 14.  On the empty
    array the call leaves 13 elements. *)
Lemma colorAdjustment_not_14_lines : ¬ appends_fixed_lines 14.
Proof.
  intros (lines & Hlen & Happ).
  specialize (Happ []). apply (f_equal length) in Happ.
  rewrite colorAdjustment_length in Happ. cbn in Happ. lia.
Qed.

(** C2, amended: for every array [src], [colorAdjustment(src)] appends the
    same 13 strings to the end of [src] -- the declaration of the uniform
    [colorParams] first, then the function
    [brightnessSaturationAndConstrast] from its header to its closing
    brace, with the brightness product, the luminance mix for saturation,
    the clamped mix against [vec3(0.5)] for contrast and the alpha of the
    input colour in the result -- and leaves every element of [src] where
    it was.  The appended text does not depend on [src]. *)
Theorem colorAdjustment_appends_13_lines :
  appends_fixed_lines 13
  ∧ (∀ src, colorAdjustment src = src ++ colorAdjustment [])
  ∧ (∀ src i line, src !! i = Some line → colorAdjustment src !! i = Some line)
  ∧ (∀ src, length (colorAdjustment src) = (length src + 13)%nat)
  ∧ colorAdjustment [] =
      [ "uniform vec4 colorParams;";
        "vec4 brightnessSaturationAndConstrast(vec4 color) {";
        "float brightness = colorParams.r;";
        "float saturation = colorParams.g;";
        "float contrast = colorParams.b;";
        "vec3 finalColor = color.rgb * brightness;";
        "float luminance = 0.2125 * color.r + 0.7154 * color.g + 0.0721 * color.b;";
        "vec3 luminanceColor = vec3(luminance);";
        "finalColor = mix(luminanceColor,finalColor,saturation);";
        "vec3 avgColor = vec3(0.5);";
        "finalColor = clamp(mix(avgColor,finalColor,contrast),0.0,1.0);";
        "return vec4(finalColor,color.a);";
        "}" ].
Proof.
  split; [| split; [| split; [| split]]].
  - exists (colorAdjustment []). split; [reflexivity |].
    apply colorAdjustment_app.
  - apply colorAdjustment_app.
  - intros src i line Hi. rewrite colorAdjustment_app.
    by apply lookup_app_l_Some.
  - apply colorAdjustment_length.
  - reflexivity.
Qed.

(** An array that already holds a line keeps it in front. *)
Lemma colorAdjustment_appends_13_lines_witness :
  colorAdjustment ["precision mediump float;"] !! 0%nat
  = Some "precision mediump float;".
Proof.
  apply (proj1 (proj2 (proj2 colorAdjustment_appends_13_lines))).
  reflexivity.
Defined.

(* ===================================================================== *)
(** * The configuration setters *)
(* ===================================================================== *)

Section Objects.
Context {N : JSNumber}.

Lemma get_insert_eq (o : gmap string value) k v :
  get (<[k := v]> o) k = v.
Proof. unfold get. by rewrite lookup_insert_eq. Qed.

Lemma get_insert_ne (o : gmap string value) k k' v :
  k ≠ k' → get (<[k := v]> o) k' = get o k'.
Proof. intros. unfold get. by rewrite lookup_insert_ne. Qed.

End Objects.

(** Rewrites a read of a property after assignments to literal names. *)
Ltac get_assign :=
  repeat first
    [ rewrite get_insert_eq
    | rewrite get_insert_ne by discriminate ].

Section Setters.
Context {N : JSNumber}.

Lemma default_param_defined (d v : value) :
  v ≠ VUndefined → default_param d v = v.
Proof. by destruct v. Qed.

Lemma margin_guard (v : value) :
  v ≠ VNull → v ≠ VUndefined →
  strict_ne_null v && strict_ne_undefined v = true.
Proof. by destruct v. Qed.

Lemma setAlignment_accepted (a : string) (p : NavCube) :
  a ∈ accepted_alignments →
  setAlignment (VStr a) p
  = assign "_needUpdateLayout" (VBool true) (assign "_alignment" (VStr a) p).
Proof.
  unfold accepted_alignments. rewrite !elem_of_cons, elem_of_nil.
  intros [-> | [-> | [-> | [-> | []]]]]; reflexivity.
Qed.

Lemma setAlignment_rejected (a : string) (p : NavCube) :
  a ∉ accepted_alignments →
  setAlignment (VStr a) p
  = assign "_needUpdateLayout" (VBool true)
      (assign "_alignment" (VStr "bottomRight") (error alignment_error p)).
Proof.
  unfold accepted_alignments. rewrite !not_elem_of_cons.
  intros (H1 & H2 & H3 & H4 & _).
  unfold setAlignment, strict_ne_str. cbn [default_param].
  apply String.eqb_neq in H1, H2, H3, H4.
  by rewrite H1, H2, H3, H4.
Qed.

(** C3: for every string [a] that is not one of "bottomRight",
    "bottomLeft", "topLeft" and "topRight", [setAlignment(a)] reports an
    error and [getAlignment()] then returns "bottomRight"; for every [a]
    among the four, [setAlignment(a)] stores it, reports nothing, and
    [getAlignment()] returns [a]. *)
Theorem setAlignment_validates (a : string) (p : NavCube) :
  (a ∉ accepted_alignments →
     errors (setAlignment (VStr a) p) = errors p ++ [alignment_error]
     ∧ getAlignment (setAlignment (VStr a) p) = VStr "bottomRight")
  ∧ (a ∈ accepted_alignments →
     errors (setAlignment (VStr a) p) = errors p
     ∧ getAlignment (setAlignment (VStr a) p) = VStr a).
Proof.
  split; intros Ha.
  - rewrite setAlignment_rejected by done.
    split; [reflexivity |]. unfold getAlignment. cbn. by get_assign.
  - rewrite setAlignment_accepted by done.
    split; [reflexivity |]. unfold getAlignment. cbn. by get_assign.
Qed.

(** C4: for every number [s], [setSize(s)] followed by [getSize()] returns
    [s]; [setSize()] without an argument stores 200; and the other pairs
    round-trip in the same way: [visible] and [cameraFly] on booleans,
    [alignment] on an accepted value, the four margins, [cameraFitFOV] and
    [cameraFlyDuration] on numbers. *)
Theorem setters_round_trip (s : num) (b : bool) (a : string) (p : NavCube) :
  getSize (setSize (VNum s) p) = VNum s
  ∧ getSize (setSize VUndefined p) = VNum (lit 200)
  ∧ getVisible (setVisible (VBool b) p) = VBool b
  ∧ (a ∈ accepted_alignments →
       getAlignment (setAlignment (VStr a) p) = VStr a)
  ∧ getLeftMargin (setLeftMargin (VNum s) p) = VNum s
  ∧ getRightMargin (setRightMargin (VNum s) p) = VNum s
  ∧ getTopMargin (setTopMargin (VNum s) p) = VNum s
  ∧ getBottomMargin (setBottomMargin (VNum s) p) = VNum s
  ∧ getCameraFly (setCameraFly (VBool b) p) = VBool b
  ∧ getCameraFitFOV (setCameraFitFOV (VNum s) p) = VNum s
  ∧ getCameraFlyDuration (setCameraFlyDuration (VNum s) p) = VNum s.
Proof.
  repeat split;
    try (intros Ha; rewrite setAlignment_accepted by done);
    cbv [getSize setSize getVisible setVisible getAlignment
         getLeftMargin setLeftMargin getRightMargin setRightMargin
         getTopMargin setTopMargin getBottomMargin setBottomMargin
         getCameraFly setCameraFly getCameraFitFOV setCameraFitFOV
         getCameraFlyDuration setCameraFlyDuration];
    cbn; by get_assign.
Qed.

Lemma setSize_undefined (p : NavCube) :
  getSize (setSize VUndefined p) = VNum (lit 200).
Proof. unfold getSize, setSize. cbn. by get_assign. Qed.

(** C7, amended: [setAlignment] is the only setter that rejects a value or
    reports an error.  For every value [v] other than [undefined],
    [setSize(v)], [setCameraFitFOV(v)], [setCameraFlyDuration(v)] and
    [setCameraFly(v)] store [v] unchanged -- negative and non-numeric
    values too -- and report nothing; on [undefined] they store their
    defaults 200, 45, 0.5 and [true], and report nothing either.  Each
    margin setter stores [v] unchanged for every [v] other than [null] and
    [undefined], stores 10 on these two, and reports nothing.
    [setVisible] reports nothing. *)
Theorem setters_store_unvalidated (v : value) (p : NavCube) :
  (v ≠ VUndefined →
     getSize (setSize v p) = v
     ∧ getCameraFitFOV (setCameraFitFOV v p) = v
     ∧ getCameraFlyDuration (setCameraFlyDuration v p) = v
     ∧ getCameraFly (setCameraFly v p) = v)
  ∧ (getSize (setSize VUndefined p) = VNum (lit 200)
     ∧ getCameraFitFOV (setCameraFitFOV VUndefined p) = VNum (lit 45)
     ∧ getCameraFlyDuration (setCameraFlyDuration VUndefined p) = VNum (lit (1 # 2))
     ∧ getCameraFly (setCameraFly VUndefined p) = VBool true)
  ∧ (v ≠ VNull → v ≠ VUndefined →
     getLeftMargin (setLeftMargin v p) = v
     ∧ getRightMargin (setRightMargin v p) = v
     ∧ getTopMargin (setTopMargin v p) = v
     ∧ getBottomMargin (setBottomMargin v p) = v)
  ∧ (v = VNull ∨ v = VUndefined →
     getLeftMargin (setLeftMargin v p) = VNum (lit 10)
     ∧ getRightMargin (setRightMargin v p) = VNum (lit 10)
     ∧ getTopMargin (setTopMargin v p) = VNum (lit 10)
     ∧ getBottomMargin (setBottomMargin v p) = VNum (lit 10))
  ∧ (∀ m, m ≠ SetAlignment → errors (apply_setter m v p) = errors p).
Proof.
  split; [| split; [| split; [| split]]].
  - intros Hv.
    cbv [getSize setSize getCameraFly setCameraFly getCameraFitFOV
         setCameraFitFOV getCameraFlyDuration setCameraFlyDuration].
    rewrite !default_param_defined by done. cbn. by get_assign.
  - cbv [getSize setSize getCameraFly setCameraFly getCameraFitFOV
         setCameraFitFOV getCameraFlyDuration setCameraFlyDuration].
    cbn. by get_assign.
  - intros Hnull Hundef.
    cbv [getLeftMargin setLeftMargin getRightMargin setRightMargin
         getTopMargin setTopMargin getBottomMargin setBottomMargin].
    rewrite !default_param_defined, !margin_guard by done.
    cbn. by get_assign.
  - intros [-> | ->];
      cbv [getLeftMargin setLeftMargin getRightMargin setRightMargin
           getTopMargin setTopMargin getBottomMargin setBottomMargin];
      cbn; by get_assign.
  - intros m Hm. destruct m; try done; reflexivity.
Qed.

End Setters.

(** C7, as stated, fails at [undefined]: [setSize(undefined)] stores the
    default 200, not [undefined]. *)
Lemma setSize_undefined_not_stored :
  ¬ (∀ (v : @value binary64) (p : NavCube), getSize (setSize v p) = v).
Proof.
  intros H.
  specialize (H VUndefined (plugin demo_state)).
  rewrite setSize_undefined in H. discriminate H.
Qed.

Lemma setAlignment_validates_witness :
  getAlignment (setAlignment (VStr "center") (plugin demo_state)) = VStr "bottomRight"
  ∧ getAlignment (setAlignment (VStr "topLeft") (plugin demo_state)) = VStr "topLeft".
Proof.
  split.
  - apply (proj1 (setAlignment_validates "center" (plugin demo_state))).
    unfold accepted_alignments. rewrite !not_elem_of_cons.
    repeat split; try discriminate. apply not_elem_of_nil.
  - apply (proj2 (setAlignment_validates "topLeft" (plugin demo_state))).
    unfold accepted_alignments. rewrite !elem_of_cons. auto.
Defined.

Lemma setters_round_trip_witness :
  getSize (setSize (fnum 300) (plugin demo_state)) = fnum 300
  ∧ getAlignment (setAlignment (VStr "topRight") (plugin demo_state)) = VStr "topRight".
Proof.
  pose proof (setters_round_trip 300%float true "topRight" (plugin demo_state))
    as (Hsize & _ & _ & Halign & _).
  split; [exact Hsize |].
  apply Halign. unfold accepted_alignments. rewrite !elem_of_cons. auto.
Defined.

Lemma setters_store_unvalidated_witness :
  getSize (setSize (VStr "wide") (plugin demo_state)) = VStr "wide"
  ∧ getLeftMargin (setLeftMargin (fnum (-25)) (plugin demo_state))
    = fnum (-25)
  ∧ getTopMargin (setTopMargin VNull (plugin demo_state)) = fnum 10.
Proof.
  split; [| split].
  - apply (proj1 (setters_store_unvalidated (VStr "wide") (plugin demo_state))).
    discriminate.
  - apply (proj1 (proj2 (proj2
      (setters_store_unvalidated (fnum (-25)) (plugin demo_state)))));
      discriminate.
  - apply (proj1 (proj2 (proj2 (proj2
      (setters_store_unvalidated VNull (plugin demo_state))))) (or_introl eq_refl)).
Defined.

(* ===================================================================== *)
(** * Layout *)
(* ===================================================================== *)

Section Layout.
Context {N : JSNumber} {E : Engine}.

Lemma updateLayout_clears_flag (v : Viewer) (p : NavCube) :
  get (this (_updateLayout v p)) "_needUpdateLayout" = VBool false.
Proof. unfold _updateLayout. cbn. by get_assign. Qed.

Lemma tick_clean (v : Viewer) (p : NavCube) :
  ToBoolean (get (this p) "_needUpdateLayout") = false → _onSceneTick v p = p.
Proof. intros H. unfold _onSceneTick. by rewrite H. Qed.

Lemma tick_dirty (v : Viewer) (p : NavCube) :
  ToBoolean (get (this p) "_needUpdateLayout") = true →
  _onSceneTick v p = _updateLayout v p.
Proof. intros H. unfold _onSceneTick. by rewrite H. Qed.

Lemma tick_twice (v v' : Viewer) (p : NavCube) :
  _onSceneTick v' (_onSceneTick v p) = _onSceneTick v p.
Proof.
  destruct (ToBoolean (get (this p) "_needUpdateLayout")) eqn:Hflag.
  - rewrite (tick_dirty v p Hflag). apply tick_clean.
    by rewrite updateLayout_clears_flag.
  - rewrite (tick_clean v p Hflag). by apply tick_clean.
Qed.

Lemma visual_setter_sets_flag (m : setter) (arg : value) (p : NavCube) :
  visual_setter m = true →
  get (this (apply_setter m arg p)) "_needUpdateLayout" = VBool true.
Proof.
  destruct m; try discriminate; intros _; cbn [apply_setter].
  - unfold setVisible. cbn. by get_assign.
  - unfold setSize. cbn. by get_assign.
  - unfold setAlignment.
    destruct (strict_ne_str _ _ && _ && _ && _); cbn; by get_assign.
  - unfold setLeftMargin. cbn. by get_assign.
  - unfold setRightMargin. cbn. by get_assign.
  - unfold setTopMargin. cbn. by get_assign.
  - unfold setBottomMargin. cbn. by get_assign.
Qed.

Lemma updateLayout_size (v : Viewer) (p : NavCube) :
  get (style (_updateLayout v p)) "width" = px (getSize p)
  ∧ get (style (_updateLayout v p)) "height" = px (getSize p).
Proof.
  unfold _updateLayout, px, getSize. cbn [this assign_style set_style].
  repeat match goal with |- context [strict_eq_str ?a ?s] =>
    destruct (strict_eq_str a s) end;
    cbn; by get_assign.
Qed.

Lemma updateLayout_position (v : Viewer) (p : NavCube) (a : string) :
  getAlignment p = VStr a →
  let b i := index (canvas_boundary v) i in
  let top := get (style (_updateLayout v p)) "top" in
  let left := get (style (_updateLayout v p)) "left" in
  let bottom_top := px (far_edge (b 1%nat) (b 3%nat) (getSize p) (getBottomMargin p)) in
  let right_left := px (far_edge (b 0%nat) (b 2%nat) (getSize p) (getRightMargin p)) in
  (a = "topLeft" → top = px (getTopMargin p) ∧ left = px (getLeftMargin p))
  ∧ (a = "topRight" → top = px (getTopMargin p) ∧ left = right_left)
  ∧ (a = "bottomLeft" → top = bottom_top ∧ left = px (getLeftMargin p))
  ∧ (a = "bottomRight" → top = bottom_top ∧ left = right_left).
Proof.
  unfold getAlignment. intros Ha.
  unfold _updateLayout, px, far_edge, getSize, getTopMargin, getLeftMargin,
    getBottomMargin, getRightMargin.
  cbn [this assign_style set_style]. rewrite Ha.
  split; [| split; [| split]]; intros ->; cbn; split; by get_assign.
Qed.

(** C6: on a scene tick the layout is recomputed exactly when the
    layout-dirty flag is set.  Every visual setter and the handler of the
    canvas [boundary] event set the flag, the recomputation clears it, and
    a tick that follows a tick recomputes nothing.  The recomputation sets
    the style width and height of the canvas to [size] pixels, and its
    position by alignment: "topLeft" has top = topMargin and
    left = leftMargin; "topRight" has top = topMargin and
    left = boundary[0] + boundary[2] - size - rightMargin; "bottomLeft" has
    top = boundary[1] + boundary[3] - size - bottomMargin and
    left = leftMargin; "bottomRight" has that top and the left of
    "topRight". *)
Theorem layout_on_tick (v v' : Viewer) (p : NavCube) :
  let flag q := get (this q) "_needUpdateLayout" in
  let b i := index (canvas_boundary v) i in
  let top := get (style (_updateLayout v p)) "top" in
  let left := get (style (_updateLayout v p)) "left" in
  let bottom_top := px (far_edge (b 1%nat) (b 3%nat) (getSize p) (getBottomMargin p)) in
  let right_left := px (far_edge (b 0%nat) (b 2%nat) (getSize p) (getRightMargin p)) in
  (ToBoolean (flag p) = true → _onSceneTick v p = _updateLayout v p)
  ∧ (ToBoolean (flag p) = false → _onSceneTick v p = p)
  ∧ (∀ m arg, visual_setter m = true → flag (apply_setter m arg p) = VBool true)
  ∧ flag (_onCanvasBoundary p) = VBool true
  ∧ flag (_updateLayout v p) = VBool false
  ∧ _onSceneTick v' (_onSceneTick v p) = _onSceneTick v p
  ∧ get (style (_updateLayout v p)) "width" = px (getSize p)
  ∧ get (style (_updateLayout v p)) "height" = px (getSize p)
  ∧ (getAlignment p = VStr "topLeft" →
       top = px (getTopMargin p) ∧ left = px (getLeftMargin p))
  ∧ (getAlignment p = VStr "topRight" →
       top = px (getTopMargin p) ∧ left = right_left)
  ∧ (getAlignment p = VStr "bottomLeft" →
       top = bottom_top ∧ left = px (getLeftMargin p))
  ∧ (getAlignment p = VStr "bottomRight" →
       top = bottom_top ∧ left = right_left).
Proof.
  cbv zeta.
  split; [apply tick_dirty |].
  split; [apply tick_clean |].
  split; [intros m arg; apply visual_setter_sets_flag |].
  split; [unfold _onCanvasBoundary; cbn; by get_assign |].
  split; [apply updateLayout_clears_flag |].
  split; [apply tick_twice |].
  split; [apply updateLayout_size |].
  split; [apply updateLayout_size |].
  split; [| split; [| split]]; intros Ha;
    pose proof (updateLayout_position v p _ Ha) as (H1 & H2 & H3 & H4);
    [ by apply H1 | by apply H2 | by apply H3 | by apply H4 ].
Qed.

End Layout.

(** With the default configuration in an 800 by 600 canvas, the first tick
    puts the 200 pixel cube 10 pixels from the bottom right corner. *)
Lemma layout_on_tick_witness :
  _onSceneTick demo_viewer (plugin demo_state)
    = _updateLayout demo_viewer (plugin demo_state)
  ∧ get (style (_updateLayout demo_viewer (plugin demo_state))) "top" = VStr "390px"
  ∧ get (style (_updateLayout demo_viewer (plugin demo_state))) "left" = VStr "590px".
Proof.
  pose proof (layout_on_tick demo_viewer demo_viewer (plugin demo_state)) as H.
  cbv zeta in H.
  destruct H as (Htick & _ & _ & _ & _ & _ & _ & _ & _ & _ & _ & Hbr).
  split; [apply Htick; reflexivity |].
  destruct Hbr as [Htop Hleft]; [reflexivity |].
  split; [rewrite Htop | rewrite Hleft]; reflexivity.
Defined.

(* ===================================================================== *)
(** * Camera synchronisation *)
(* ===================================================================== *)

Section Synchronisation.
Context {N : JSNumber} {E : Engine}.

(** The handler changes nothing but the camera of the cube. *)
Lemma synchCamera_frame (v : Viewer) (p : NavCube) :
  _synchCamera v p = set_navCubeCamera (navCubeCamera (_synchCamera v p)) p.
Proof. unfold _synchCamera. by destruct (ToBoolean _). Qed.

(** C1: for every pose of the main camera with [eye] distinct from [look],
    the synchronisation handler sets [look] of the cube's camera to
    [[0,0,0]]; when [_zUp] is false it sets [eye] to 5 times the normalised
    [eye - look] and [up] to the main camera's [up]; when [_zUp] is true,
    that eye and that up are first transformed by the rotation of -90
    degrees about the X axis ([eye] as a vector, [up] as a point). *)
Theorem synchCamera_pose (v : Viewer) (p : NavCube) :
  cam_eye (camera v) ≠ cam_look (camera v) →
  let towards :=
    math_mulVec3Scalar
      (math_normalizeVec3 (math_subVec3 (cam_eye (camera v)) (cam_look (camera v))))
      (lit 5) in
  let rotation :=
    math_rotationMat4c (num_mul (num_neg (lit 90)) math_DEGTORAD)
                       (lit 1) (lit 0) (lit 0) in
  let cube := navCubeCamera (_synchCamera v p) in
  cam_look cube = (lit 0, lit 0, lit 0)
  ∧ (ToBoolean (get (this p) "_zUp") = false →
       cam_eye cube = towards ∧ cam_up cube = cam_up (camera v))
  ∧ (ToBoolean (get (this p) "_zUp") = true →
       cam_eye cube = math_transformVec3 rotation towards
       ∧ cam_up cube = math_transformPoint3 rotation (cam_up (camera v))).
Proof.
  intros _. cbv zeta. unfold _synchCamera, synch_matrix.
  destruct (ToBoolean (get (this p) "_zUp")); cbn;
    repeat split; intros; try discriminate; reflexivity.
Qed.

End Synchronisation.

(** The main camera at [(0,0,10)] looking at the origin: the cube's camera
    goes to [(0,0,5)]. *)
Lemma synchCamera_pose_witness :
  cam_eye (navCubeCamera (_synchCamera demo_viewer (plugin demo_state)))
  = (0, 0, 5)%float.
Proof.
  assert (Hpose : cam_eye (camera demo_viewer) ≠ cam_look (camera demo_viewer)).
  { intros H. apply (f_equal (λ u : fvec3, PrimFloat.eqb u.2 0)) in H.
    discriminate H. }
  pose proof (synchCamera_pose demo_viewer (plugin demo_state) Hpose) as H.
  cbv zeta in H. destruct H as (_ & Hy & _).
  rewrite (proj1 (Hy eq_refl)). reflexivity.
Defined.

(* ===================================================================== *)
(** * Flying the camera to a selected area *)
(* ===================================================================== *)

Section Flight.
Context {N : JSNumber} {E : Engine}.

Lemma flyTo_fly (v : Viewer) (dir : vec3) (up : option vec3) (st : State) :
  ToBoolean (getCameraFly (plugin st)) = true →
  flyTo v dir up st
  = on_host (call (FlyTo (flight_target v (plugin st) dir up
                            (Some (getCameraFlyDuration (plugin st)))))) st.
Proof.
  unfold getCameraFly. intros Hfly. unfold flyTo. rewrite Hfly.
  by destruct up.
Qed.

Lemma flyTo_jump (v : Viewer) (dir : vec3) (up : option vec3) (st : State) :
  ToBoolean (getCameraFly (plugin st)) = false →
  flyTo v dir up st
  = on_host (call (JumpTo (flight_target v (plugin st) dir up None))) st.
Proof.
  unfold getCameraFly. intros Hfly. unfold flyTo. rewrite Hfly.
  by destruct up.
Qed.

Lemma flyTo_request (v : Viewer) (dir : vec3) (up : option vec3) (st : State) :
  flyTo v dir up st = on_host (call (flight_request v (plugin st) dir up)) st.
Proof.
  unfold flight_request.
  destruct (ToBoolean (getCameraFly (plugin st))) eqn:Hfly.
  - by apply flyTo_fly.
  - by apply flyTo_jump.
Qed.

Lemma unhighlight_last_plugin (st : State) :
  plugin (unhighlight_last st) = plugin st.
Proof. unfold unhighlight_last. by destruct (0 <=? _). Qed.

Lemma unhighlight_last_calls (st : State) :
  calls (host (unhighlight_last st)) = calls (host st).
Proof. unfold unhighlight_last. by destruct (0 <=? _). Qed.

Lemma unhighlight_last_downX (st : State) :
  downX (vars (unhighlight_last st)) = downX (vars st)
  ∧ downY (vars (unhighlight_last st)) = downY (vars st).
Proof. unfold unhighlight_last. by destruct (0 <=? _). Qed.

Lemma highlight_on_mouseup_frame (areaId : Z) (st : State) :
  plugin (highlight_on_mouseup areaId st) = plugin st
  ∧ calls (host (highlight_on_mouseup areaId st)) = calls (host st)
  ∧ downX (vars (highlight_on_mouseup areaId st)) = downX (vars st)
  ∧ downY (vars (highlight_on_mouseup areaId st)) = downY (vars st).
Proof.
  unfold highlight_on_mouseup. cbn.
  rewrite unhighlight_last_plugin, unhighlight_last_calls.
  destruct (unhighlight_last_downX
    (on_host (set_cursor "pointer") (on_vars (set_down false) st))) as [-> ->].
  done.
Qed.

(** [_onMouseUp], case by case. *)
Lemma onMouseUp_cases (v : Viewer) (e : MouseEvent) (hit : PickResult)
    (st : State) :
  _onMouseUp v e hit st =
    if negb (e_which e =? 1) then st else
    match downX (vars st), hit with
    | Some _, Some (Some uv) =>
        if 0 <=? getArea uv then
          if moved_away e st then highlight_on_mouseup (getArea uv) st
          else
            match getAreaDir (getArea uv) with
            | Some dir =>
                flyTo v dir (getAreaUp (getArea uv))
                  (highlight_on_mouseup (getArea uv) st)
            | None => highlight_on_mouseup (getArea uv) st
            end
        else on_vars (set_down false) st
    | _, _ => on_vars (set_down false) st
    end.
Proof.
  unfold _onMouseUp. destruct (negb (e_which e =? 1)); [done |].
  cbn [vars on_vars set_vars downX set_down].
  destruct (downX (vars st)) as [dx |] eqn:Hdx; [| done].
  destruct hit as [[uv |] |]; try done.
  destruct (0 <=? getArea uv) eqn:Harea; [| done].
  fold (highlight_on_mouseup (getArea uv) st).
  destruct (highlight_on_mouseup_frame (getArea uv) st) as (_ & _ & Hx & Hy).
  unfold moved_away. rewrite Hx, Hy. reflexivity.
Qed.

(** C5: the camera move of a selected area looks at the centre of the
    scene's bounding box, from [eye = center - dist * dir] componentwise
    with [dist = |diag / tan(55/2)|] and [diag] the diagonal of the box,
    with the area's [up] or [[0,1,0]] when it has none, and
    [orthoScale = diag * 1.3].  It is made by [cameraFlight.flyTo], with
    [duration] the stored [cameraFlyDuration] and [fitFOV] the stored
    [cameraFitFOV], exactly when the stored [cameraFly] is true, and by
    [cameraFlight.jumpTo], without a [duration], otherwise.  A left-button
    [mouseup] on an area with a direction, within 3 pixels of the
    [mousedown], requests exactly this move for the direction and [up] of
    the area. *)
Theorem flyTo_target (v : Viewer) (dir : vec3) (up : option vec3) (st : State) :
  let p := plugin st in
  let diag := math_getAABB3Diag (scene_aabb v) in
  let center := math_getAABB3Center (scene_aabb v) in
  let dist := Math_abs (num_div diag (Math_tan (num_div (lit 55) (lit 2)))) in
  let target duration :=
    {| f_look := center;
       f_eye := (num_sub (vx center) (num_mul dist (vx dir)),
                 num_sub (vy center) (num_mul dist (vy dir)),
                 num_sub (vz center) (num_mul dist (vz dir)));
       f_up := default (lit 0, lit 1, lit 0) up;
       f_orthoScale := num_mul diag (lit (13 # 10));
       f_fitFOV := getCameraFitFOV p;
       f_duration := duration |} in
  (ToBoolean (getCameraFly p) = true →
     flyTo v dir up st
     = on_host (call (FlyTo (target (Some (getCameraFlyDuration p))))) st)
  ∧ (ToBoolean (getCameraFly p) = false →
     flyTo v dir up st = on_host (call (JumpTo (target None))) st)
  ∧ (∀ e uv,
       e_which e = 1 → is_Some (downX (vars st)) →
       moved_away e st = false →
       0 ≤ getArea uv → getAreaDir (getArea uv) = Some dir →
       up = getAreaUp (getArea uv) →
       calls (host (_onMouseUp v e (Some (Some uv)) st))
       = calls (host st)
         ++ [ if ToBoolean (getCameraFly p)
              then FlyTo (target (Some (getCameraFlyDuration p)))
              else JumpTo (target None) ]).
Proof.
  cbv zeta. split; [| split].
  - intros Hfly. rewrite flyTo_fly by done. unfold flight_target. by destruct up.
  - intros Hfly. rewrite flyTo_jump by done. unfold flight_target. by destruct up.
  - intros e uv Hwhich [dx Hdx] Hmoved Harea Hdir ->.
    rewrite onMouseUp_cases, Hwhich, Hdx. cbn [Z.eqb Pos.eqb negb].
    apply Z.leb_le in Harea. rewrite Harea, Hmoved, Hdir.
    rewrite flyTo_request. cbn [calls host on_host set_host call set_calls].
    destruct (highlight_on_mouseup_frame (getArea uv) st) as (-> & -> & _).
    unfold flight_request, flight_target. by destruct (getAreaUp _).
Qed.

End Flight.

(** With the default configuration the move is a flight of half a second
    that fits 45 degrees. *)
Lemma flyTo_target_witness :
  ∃ params,
    calls (host (flyTo demo_viewer (0, 0, -1)%float None demo_state))
    = [FlyTo params]
    ∧ f_duration params = Some (fnum 0.5)
    ∧ f_fitFOV params = fnum 45
    ∧ f_up params = (0, 1, 0)%float.
Proof.
  pose proof (flyTo_target demo_viewer (0, 0, -1)%float None demo_state) as H.
  cbv zeta in H. destruct H as (Hfly & _ & _).
  eexists. rewrite Hfly by reflexivity.
  repeat split; reflexivity.
Defined.

(* ===================================================================== *)
(** * The highlighted area *)
(* ===================================================================== *)

Section Mouse.
Context {N : JSNumber} {E : Engine}.

Lemma cleared_shown (st : State) : cleared st → shown_inv st.
Proof.
  intros (Hl & Hh & Hp). split; [left; by split | by rewrite Hh, Hp].
Qed.

(** From a state that keeps the invariant, the repeated block leaves no
    area highlighted, shown or recorded. *)
Lemma unhighlight_last_cleared (st : State) :
  shown_inv st → cleared (unhighlight_last st).
Proof.
  intros [[[Hl Hh] | [Hl Hh]] Hp]; unfold unhighlight_last, cleared.
  - rewrite Hl. cbn. by rewrite Hp, Hh.
  - rewrite (proj2 (Z.leb_le _ _) Hl). cbn.
    rewrite Hh, difference_diag_L. done.
Qed.

Lemma unhighlight_last_idle (st : State) :
  lastAreaId (vars st) = -1 → unhighlight_last st = st.
Proof. intros Hl. unfold unhighlight_last. by rewrite Hl. Qed.

(** Highlighting, recording and repainting [areaId] in a cleared state. *)
Lemma highlight_cleared (areaId : Z) (st : State) :
  cleared st → 0 ≤ areaId →
  shown_inv
    (on_host _repaint
       (on_vars (set_lastAreaId areaId)
          (on_host (setAreaHighlighted areaId true) st))).
Proof.
  intros (Hl & Hh & Hp) Ha. split; [right |]; cbn; [| done].
  split; [done |]. by rewrite Hh, union_empty_r_L.
Qed.

Lemma highlight_on_mouseup_shown (areaId : Z) (st : State) :
  shown_inv st → 0 ≤ areaId → shown_inv (highlight_on_mouseup areaId st).
Proof.
  intros Hinv Ha. unfold highlight_on_mouseup.
  apply highlight_cleared; [| done].
  apply unhighlight_last_cleared. exact Hinv.
Qed.

Lemma flyTo_shown (v : Viewer) dir up (st : State) :
  shown_inv st → shown_inv (flyTo v dir up st).
Proof. intros Hinv. rewrite flyTo_request. exact Hinv. Qed.

Lemma onMouseUp_shown (v : Viewer) (e : MouseEvent) (hit : PickResult)
    (st : State) :
  shown_inv st → shown_inv (_onMouseUp v e hit st).
Proof.
  intros Hinv. rewrite onMouseUp_cases.
  destruct (negb _); [done |].
  destruct (downX (vars st)); [| done].
  destruct hit as [[uv |] |]; try done.
  destruct (0 <=? getArea uv) eqn:Ha; [| done].
  apply Z.leb_le in Ha.
  pose proof (highlight_on_mouseup_shown _ _ Hinv Ha) as Hhl.
  destruct (moved_away e st); [done |].
  destruct (getAreaDir _); [| done].
  by apply flyTo_shown.
Qed.

Lemma actionMove_frame (posX posY : Z) (st : State) :
  lastAreaId (vars (actionMove posX posY st)) = lastAreaId (vars st)
  ∧ highlighted (host (actionMove posX posY st)) = highlighted (host st)
  ∧ painted (host (actionMove posX posY st)) = painted (host st).
Proof.
  unfold actionMove.
  repeat match goal with |- context [if ?c then _ else _] => destruct c end;
    done.
Qed.

Lemma onMouseMove_shown (e : MouseEvent) (hit : PickResult) (st : State) :
  shown_inv st → shown_inv (_onMouseMove e hit st).
Proof.
  intros Hinv. unfold _onMouseMove.
  pose proof (unhighlight_last_cleared st Hinv) as Hc.
  remember (unhighlight_last st) as st1 eqn:Hst1. clear Hst1 Hinv st.
  rename st1 into st. cbv zeta. pose proof Hc as (Hl & Hh & Hp).
  destruct (_ && _); [by apply cleared_shown |].
  destruct (down (vars st)).
  { destruct (actionMove_frame (e_clientX e) (e_clientY e)
                (on_host (set_cursor "move") st)) as (Hl' & Hh' & Hp').
    apply cleared_shown. unfold cleared. by rewrite Hl', Hh', Hp'. }
  destruct (negb _); [by apply cleared_shown |].
  destruct hit as [[uv |] |].
  - cbn [vars on_host set_host]. rewrite Hl.
    destruct (getArea uv =? -1); [by apply cleared_shown |].
    cbn [Z.leb Z.compare].
    destruct (0 <=? getArea uv) eqn:Ha; [| by apply cleared_shown].
    apply Z.leb_le in Ha.
    split; [right |]; cbn; [| done].
    split; [done |]. by rewrite Hh, union_empty_r_L.
  - by apply cleared_shown.
  - rewrite unhighlight_last_idle by done. by apply cleared_shown.
Qed.

Lemma flyTo_ok_shown (hit : PickResult) (st : State) :
  shown_inv st → shown_inv (flyTo_ok hit st).
Proof.
  intros Hinv. unfold flyTo_ok.
  pose proof (unhighlight_last_cleared st Hinv) as Hc.
  remember (unhighlight_last st) as st1 eqn:Hst1. clear Hst1 Hinv st.
  rename st1 into st. cbv zeta. pose proof Hc as (Hl & Hh & Hp).
  destruct hit as [[uv |] |]; try by apply cleared_shown.
  rewrite unhighlight_last_idle by done.
  destruct (0 <=? getArea uv) eqn:Ha; [| by apply cleared_shown].
  apply Z.leb_le in Ha. by apply (highlight_cleared _ (on_host _ st)).
Qed.

Lemma construct_cleared (v : Viewer) cfg cam0 h :
  cleared (construct v cfg cam0 h).
Proof. done. Qed.

(** Every handler keeps the invariant. *)
Lemma handle_shown (ev : event) (st : State) :
  shown_inv st → shown_inv (handle ev st).
Proof.
  intros Hinv. destruct ev; cbn [handle]; try exact Hinv.
  - unfold _onMouseDown. by destruct hit.
  - by apply onMouseUp_shown.
  - by apply onMouseMove_shown.
  - by apply flyTo_ok_shown.
Qed.

(** C9: between the runs of event handlers at most one area of the cube is
    highlighted, and [lastAreaId] is the id of that area, or -1 when there
    is none; the cube shows the texture as it is highlighted.  The
    [mousemove] and [mouseup] handlers keep this: the area of [lastAreaId]
    is un-highlighted, repainted and forgotten before another area is
    highlighted and recorded, so that an area recorded after a handler is
    the only one highlighted. *)
Theorem one_area_highlighted (v : Viewer) (cfg : gmap string value)
    (cam0 : Camera) (h : Host) (st : State) :
  reachable v cfg cam0 h st →
  highlight_inv st
  ∧ painted (host st) = highlighted (host st)
  ∧ (∀ ev, highlight_inv (handle ev st))
  ∧ (∀ e hit a,
       a ∈ highlighted (host (_onMouseMove e hit st)) →
       highlighted (host (_onMouseMove e hit st)) = {[ a ]}
       ∧ lastAreaId (vars (_onMouseMove e hit st)) = a)
  ∧ (∀ v' e hit a,
       a ∈ highlighted (host (_onMouseUp v' e hit st)) →
       highlighted (host (_onMouseUp v' e hit st)) = {[ a ]}
       ∧ lastAreaId (vars (_onMouseUp v' e hit st)) = a).
Proof.
  intros Hreach.
  assert (Hinv : shown_inv st).
  { induction Hreach as [| st ev _ IH].
    - apply cleared_shown, construct_cleared.
    - by apply handle_shown. }
  assert (Hone : ∀ st' a, shown_inv st' → a ∈ highlighted (host st') →
            highlighted (host st') = {[ a ]} ∧ lastAreaId (vars st') = a).
  { intros st' a [[[_ Hh] | [_ Hh]] _] Ha; rewrite Hh in Ha |- *.
    - by apply elem_of_empty in Ha.
    - apply elem_of_singleton in Ha. by subst a. }
  split; [apply Hinv |]. split; [apply Hinv |].
  split; [intros ev; by apply handle_shown |].
  split.
  - intros e hit a. apply Hone. by apply onMouseMove_shown.
  - intros v' e hit a. apply Hone. by apply onMouseUp_shown.
Qed.

(** C10: a [mouseup] of a button other than the left one changes nothing;
    a [mouseup] requests a camera move only if it is of the left button,
    over an area of the cube, and at most 3 pixels away from the
    [mousedown] position along each axis; over an area but further away,
    it still highlights, records and shows that area, and requests no
    camera move and changes nothing of the plugin. *)
Theorem mouseup_click_tolerance (v : Viewer) (e : MouseEvent)
    (hit : PickResult) (st : State) :
  (e_which e ≠ 1 → _onMouseUp v e hit st = st)
  ∧ (calls (host (_onMouseUp v e hit st)) ≠ calls (host st) →
       e_which e = 1
       ∧ (∃ uv, hit = Some (Some uv) ∧ 0 ≤ getArea uv)
       ∧ ∃ dx, downX (vars st) = Some dx
          ∧ dx - 3 ≤ e_x e ≤ dx + 3
          ∧ coord (downY (vars st)) - 3 ≤ e_y e ≤ coord (downY (vars st)) + 3)
  ∧ (∀ uv dx dy,
       e_which e = 1 →
       downX (vars st) = Some dx → downY (vars st) = Some dy →
       hit = Some (Some uv) → 0 ≤ getArea uv →
       (e_x e < dx - 3 ∨ dx + 3 < e_x e ∨ e_y e < dy - 3 ∨ dy + 3 < e_y e) →
       let st' := _onMouseUp v e hit st in
       getArea uv ∈ highlighted (host st')
       ∧ painted (host st') = highlighted (host st')
       ∧ lastAreaId (vars st') = getArea uv
       ∧ calls (host st') = calls (host st)
       ∧ plugin st' = plugin st).
Proof.
  split; [| split].
  - intros Hwhich. unfold _onMouseUp.
    apply Z.eqb_neq in Hwhich. by rewrite Hwhich.
  - rewrite onMouseUp_cases.
    destruct (e_which e =? 1) eqn:Hwhich; [| done]. cbn [negb].
    apply Z.eqb_eq in Hwhich.
    destruct (downX (vars st)) as [dx |] eqn:Hdx; [| done].
    destruct hit as [[uv |] |]; try done.
    destruct (0 <=? getArea uv) eqn:Ha; [| done].
    apply Z.leb_le in Ha.
    destruct (highlight_on_mouseup_frame (getArea uv) st) as (_ & Hcalls & _).
    destruct (moved_away e st) eqn:Hmoved; [by rewrite Hcalls |].
    intros _. split; [done |]. split; [by exists uv |].
    exists dx. split; [done |].
    unfold moved_away in Hmoved. rewrite Hdx in Hmoved.
    change (coord (Some dx)) with dx in Hmoved.
    rewrite !orb_false_iff, !Z.ltb_ge in Hmoved. lia.
  - intros uv dx dy Hwhich Hdx Hdy -> Ha Hfar. cbv zeta.
    rewrite onMouseUp_cases, Hwhich, Hdx. cbn [Z.eqb Pos.eqb negb].
    rewrite (proj2 (Z.leb_le _ _) Ha).
    assert (Hmoved : moved_away e st = true).
    { unfold moved_away. rewrite Hdx, Hdy.
      change (coord (Some dx)) with dx. change (coord (Some dy)) with dy.
      rewrite !orb_true_iff, !Z.ltb_lt. lia. }
    rewrite Hmoved.
    destruct (highlight_on_mouseup_frame (getArea uv) st) as (Hp & Hc & _).
    split; [| split; [| split; [| split]]]; try done.
    unfold highlight_on_mouseup. cbn.
    apply elem_of_union_l. by apply elem_of_singleton.
Qed.

End Mouse.

(** The pointer enters the cube and moves over its front face: the face
    is highlighted and recorded. *)
Lemma one_area_highlighted_witness :
  highlight_inv
    (handle (Ev_mousemove (mouse 20 20 0 0) front_hit)
       (handle Ev_mouseenter demo_state)).
Proof.
  refine (proj1 (one_area_highlighted demo_viewer ∅ (camera demo_viewer)
                   demo_host _ _)).
  apply reachable_step, reachable_step, reachable_init.
Defined.

(** A press at (10, 10) released at (30, 10) over the front face: the face
    is highlighted and no camera move is requested. *)
Lemma mouseup_click_tolerance_witness :
  let st := handle (Ev_mousedown (mouse 10 10 1 1) front_hit) demo_state in
  let st' := _onMouseUp demo_viewer (mouse 30 10 1 0) front_hit st in
  lastAreaId (vars st') = 0 ∧ calls (host st') = [].
Proof.
  cbv zeta.
  pose proof (mouseup_click_tolerance demo_viewer (mouse 30 10 1 0) front_hit
    (handle (Ev_mousedown (mouse 10 10 1 1) front_hit) demo_state)) as H.
  destruct H as (_ & _ & H).
  destruct (H (float_of_Q (3 # 10), 0.5%float) 10 10)
    as (_ & _ & Hlast & Hcalls & _).
  - reflexivity.
  - reflexivity.
  - reflexivity.
  - reflexivity.
  - vm_compute. discriminate.
  - right. left. reflexivity.
  - split; [exact Hlast | exact Hcalls].
Defined.

(* ===================================================================== *)
(** * Teardown *)
(* ===================================================================== *)

Section Teardown.
Context {N : JSNumber} {E : Engine}.

Lemma setAlignment_subIds (a : value) (p : NavCube) :
  subIds (setAlignment a p) = subIds p.
Proof. unfold setAlignment. by destruct (_ && _). Qed.

(** Proves that two subscription keys differ. *)
Ltac key_ne := intros [=]; lia.

(** Looks a key up after the deletions and insertions of the constructor
    followed by [destroy]. *)
Ltac lookup_keys :=
  repeat first
    [ rewrite lookup_delete_eq
    | rewrite lookup_delete_ne by key_ne
    | rewrite lookup_insert_eq
    | rewrite lookup_insert_ne by key_ne ].

Lemma construct_subIds (v : Viewer) cfg cam0 (h : Host) :
  let n := nextHandle h in
  let ids := subIds (plugin (construct v cfg cam0 h)) in
  ids !! "_onCameraMatrix" = Some n
  ∧ ids !! "_onCameraWorldAxis" = Some (1 + n)%nat
  ∧ ids !! "_onCameraFOV" = Some (2 + n)%nat
  ∧ ids !! "_onCameraProjection" = Some (3 + n)%nat
  ∧ ids !! "_onCanvasBoundary" = Some (5 + n)%nat
  ∧ ids !! "_onSceneTick" = Some (6 + n)%nat.
Proof.
  cbv zeta. unfold construct.
  cbn [plugin on_plugin set_plugin setCameraFlyDuration setCameraFly
       setCameraFitFOV setBottomMargin setTopMargin setRightMargin
       setLeftMargin assign set_this subIds].
  rewrite setAlignment_subIds.
  repeat split; reflexivity.
Qed.

Lemma construct_host (v : Viewer) cfg cam0 (h : Host) :
  let n := nextHandle h in
  let h' := host (construct v cfg cam0 h) in
  subscriptions h'
  = <[("viewer.scene", (6 + n)%nat) := ("tick", Cb_tick)]>
     (<[("viewer.scene.canvas", (5 + n)%nat) := ("boundary", Cb_boundary)]>
     (<[("viewer.camera", (4 + n)%nat) := ("worldAxis", Cb_worldAxis_empty)]>
     (<[("viewer.camera", (3 + n)%nat) := ("projection", Cb_projection)]>
     (<[("viewer.camera.perspective", (2 + n)%nat) := ("fov", Cb_fov)]>
     (<[("viewer.camera", (1 + n)%nat) := ("worldAxis", Cb_synchCamera)]>
     (<[("viewer.camera", n) := ("matrix", Cb_synchCamera)]>
        (subscriptions h)))))))
  ∧ listeners h' = constructor_listeners ∪ listeners h
  ∧ calls h' = calls h.
Proof.
  cbv zeta. split; [reflexivity |]. split; [| reflexivity].
  cbn. unfold constructor_listeners.
  apply set_eq. intros x.
  rewrite !elem_of_union, !elem_of_singleton. tauto.
Qed.

Lemma destroy_host (st : State) :
  let ids := subIds (plugin st) in
  host (destroy st)
  = call SuperDestroy
     (removeEventListener "document" "mouseup" "_onMouseUp"
     (removeEventListener "document" "mousemove" "_onMouseMove"
     (removeEventListener "_navCubeCanvas" "mousedown" "_onMouseDown"
     (removeEventListener "_navCubeCanvas" "mouseleave" "_onMouseLeave"
     (removeEventListener "_navCubeCanvas" "mouseenter" "_onMouseEnter"
     (off "viewer.camera" (ids !! "_onCameraProjection")
     (off "viewer.camera.perspective" (ids !! "_onCameraFOV")
     (off "viewer.camera" (ids !! "_onCameraWorldAxis")
     (off "viewer.camera" (ids !! "_onCameraMatrix")
     (off "viewer.scene" (ids !! "_onSceneTick")
     (off "viewer.scene.canvas" (ids !! "_onCanvasBoundary")
        (host st)))))))))))).
Proof. reflexivity. Qed.

Lemma destroy_construct_subscriptions (v : Viewer) cfg cam0 (h : Host) :
  let n := nextHandle h in
  subscriptions (host (destroy (construct v cfg cam0 h)))
  = delete ("viewer.camera", (3 + n)%nat)
     (delete ("viewer.camera.perspective", (2 + n)%nat)
     (delete ("viewer.camera", (1 + n)%nat)
     (delete ("viewer.camera", n)
     (delete ("viewer.scene", (6 + n)%nat)
     (delete ("viewer.scene.canvas", (5 + n)%nat)
        (subscriptions (host (construct v cfg cam0 h)))))))).
Proof.
  cbv zeta. rewrite destroy_host. cbv zeta.
  destruct (construct_subIds v cfg cam0 h) as (-> & -> & -> & -> & -> & ->).
  reflexivity.
Qed.

(** C8, on the code: [destroy] unsubscribes the canvas boundary, scene
    tick, camera matrix, camera worldAxis, perspective fov and camera
    projection handlers, removes the five DOM listeners, touches no other
    subscription or listener, and calls the teardown of the base class
    last.  One subscription of the constructor stays behind: the second
    handler of the camera's [worldAxis] event, whose handle the constructor
    drops.  In a host whose handles are below its counter, the
    subscriptions after [destroy] are therefore not those from before the
    constructor. *)
Theorem destroy_leaves_worldAxis_subscription (v : Viewer)
    (cfg : gmap string value) (cam0 : Camera) (h : Host) :
  let n := nextHandle h in
  let after := host (destroy (construct v cfg cam0 h)) in
  subscriptions after !! ("viewer.scene.canvas", (5 + n)%nat) = None
  ∧ subscriptions after !! ("viewer.scene", (6 + n)%nat) = None
  ∧ subscriptions after !! ("viewer.camera", n) = None
  ∧ subscriptions after !! ("viewer.camera", (1 + n)%nat) = None
  ∧ subscriptions after !! ("viewer.camera.perspective", (2 + n)%nat) = None
  ∧ subscriptions after !! ("viewer.camera", (3 + n)%nat) = None
  ∧ listeners after = listeners h ∖ constructor_listeners
  ∧ (∀ key, key ∉ (constructor_subscriptions n).*1 →
       subscriptions after !! key = subscriptions h !! key)
  ∧ (∃ before, calls after = before ++ [SuperDestroy])
  ∧ subscriptions after !! ("viewer.camera", (4 + n)%nat)
    = Some ("worldAxis", Cb_worldAxis_empty)
  ∧ (host_wf h → subscriptions after ≠ subscriptions h).
Proof.
  cbv zeta.
  pose proof (destroy_construct_subscriptions v cfg cam0 h) as Hsubs.
  destruct (construct_host v cfg cam0 h) as (Hcons & Hlist & Hcalls).
  cbv zeta in Hsubs, Hcons. rewrite Hcons in Hsubs. clear Hcons.
  assert (Hleak :
    subscriptions (host (destroy (construct v cfg cam0 h)))
      !! ("viewer.camera", (4 + nextHandle h)%nat)
    = Some ("worldAxis", Cb_worldAxis_empty)).
  { rewrite Hsubs. by lookup_keys. }
  repeat match goal with |- _ !! _ = None ∧ _ =>
    split; [rewrite Hsubs; by lookup_keys |] end.
  split.
  { rewrite destroy_host. cbv zeta.
    cbn [listeners call set_calls removeEventListener set_listeners].
    transitivity (listeners (host (construct v cfg cam0 h)) ∖ constructor_listeners).
    - unfold constructor_listeners.
      generalize (subIds (plugin (construct v cfg cam0 h))). intros ids.
      assert (Hoff : ∀ t o (g : Host), listeners (off t o g) = listeners g)
        by (by intros t [] g).
      rewrite !Hoff.
      apply set_eq. intros x.
      rewrite !elem_of_difference, !elem_of_union, !elem_of_singleton. tauto.
    - rewrite Hlist. apply set_eq. intros x.
      rewrite !elem_of_difference, !elem_of_union. tauto. }
  split.
  { intros key Hkey. rewrite Hsubs.
    cbn [constructor_subscriptions fmap list_fmap fst] in Hkey.
    rewrite !not_elem_of_cons in Hkey.
    destruct Hkey as (H1 & H2 & H3 & H4 & H5 & H6 & H7 & _).
    rewrite !lookup_delete_ne, !lookup_insert_ne by done. done. }
  split.
  { rewrite destroy_host. cbv zeta. by eexists. }
  split; [exact Hleak |].
  intros Hwf Heq. rewrite Heq in Hleak.
  assert (is_Some (subscriptions h !! ("viewer.camera", (4 + nextHandle h)%nat)))
    as Hin by (by rewrite Hleak).
  apply Hwf in Hin. lia.
Qed.

End Teardown.

(** Constructing the plugin in an empty host and destroying it leaves one
    subscription. *)
Lemma destroy_leaves_worldAxis_subscription_witness :
  subscriptions (host (destroy demo_state)) ≠ ∅.
Proof.
  pose proof (destroy_leaves_worldAxis_subscription
    demo_viewer ∅ (camera demo_viewer) demo_host) as H.
  cbv zeta in H.
  destruct H as (_ & _ & _ & _ & _ & _ & _ & _ & _ & _ & H).
  apply H. intros target handle [x Hx].
  unfold demo_host in Hx. cbn [subscriptions] in Hx.
  by rewrite lookup_empty in Hx.
Defined.

(* ===================================================================== *)
(** * The Z-up flag *)
(* ===================================================================== *)

Section ZUp.
Context {N : JSNumber} {E : Engine}.

Lemma apply_setter_zUp (m : setter) (arg : value) (p : NavCube) :
  get (this (apply_setter m arg p)) "_zUp" = get (this p) "_zUp".
Proof.
  destruct m; cbn [apply_setter];
    cbv [setVisible setSize setAlignment setLeftMargin setRightMargin
         setTopMargin setBottomMargin setCameraFly setCameraFitFOV
         setCameraFlyDuration];
    try destruct (_ && _ && _ && _); cbn; by get_assign.
Qed.

Lemma updateLayout_zUp (v : Viewer) (p : NavCube) :
  get (this (_updateLayout v p)) "_zUp" = get (this p) "_zUp".
Proof.
  unfold _updateLayout. cbn [this assign_style set_style].
  repeat match goal with |- context [strict_eq_str ?a ?s] =>
    destruct (strict_eq_str a s) end;
    cbn; by get_assign.
Qed.

Lemma actionMove_plugin (posX posY : Z) (st : State) :
  plugin (actionMove posX posY st) = plugin st.
Proof.
  unfold actionMove.
  repeat match goal with |- context [if ?c then _ else _] => destruct c end;
    done.
Qed.

Lemma onMouseMove_plugin (e : MouseEvent) (hit : PickResult) (st : State) :
  plugin (_onMouseMove e hit st) = plugin st.
Proof.
  unfold _onMouseMove. rewrite <- (unhighlight_last_plugin st).
  generalize (unhighlight_last st). clear st. intros st. cbv zeta.
  destruct (_ && _); [done |].
  destruct (down (vars st)); [by rewrite actionMove_plugin |].
  destruct (negb _); [done |].
  destruct hit as [[uv |] |]; [| done | by rewrite unhighlight_last_plugin].
  cbn [vars on_host set_host].
  destruct (_ =? _); [done |].
  destruct (0 <=? lastAreaId (vars st)); by destruct (0 <=? getArea uv).
Qed.

Lemma flyTo_ok_plugin (hit : PickResult) (st : State) :
  plugin (flyTo_ok hit st) = plugin st.
Proof.
  unfold flyTo_ok. rewrite <- (unhighlight_last_plugin st).
  generalize (unhighlight_last st). clear st. intros st. cbv zeta.
  destruct hit as [[uv |] |]; try done.
  destruct (0 <=? getArea uv); cbn; by rewrite unhighlight_last_plugin.
Qed.

Lemma onMouseUp_plugin (v : Viewer) (e : MouseEvent) (hit : PickResult)
    (st : State) :
  plugin (_onMouseUp v e hit st) = plugin st.
Proof.
  rewrite onMouseUp_cases.
  destruct (negb _); [done |].
  destruct (downX (vars st)); [| done].
  destruct hit as [[uv |] |]; try done.
  destruct (0 <=? getArea uv); [| done].
  destruct (highlight_on_mouseup_frame (getArea uv) st) as (Hp & _).
  destruct (moved_away e st); [done |].
  destruct (getAreaDir _); [| done].
  by rewrite flyTo_request.
Qed.

(** The constructor sets [_zUp] to false and no handler assigns it: the
    synchronisation handler of a constructed plugin takes its Y-up branch. *)
Lemma zUp_stays_false (v : Viewer) (cfg : gmap string value) (cam0 : Camera)
    (h : Host) (st : State) :
  reachable v cfg cam0 h st → get (this (plugin st)) "_zUp" = VBool false.
Proof.
  induction 1 as [| st ev _ IH].
  - unfold construct.
    cbn [plugin on_plugin set_plugin].
    etransitivity; [exact (apply_setter_zUp SetCameraFlyDuration _ _) |].
    etransitivity; [exact (apply_setter_zUp SetCameraFly _ _) |].
    etransitivity; [exact (apply_setter_zUp SetCameraFitFOV _ _) |].
    etransitivity; [exact (apply_setter_zUp SetBottomMargin _ _) |].
    etransitivity; [exact (apply_setter_zUp SetTopMargin _ _) |].
    etransitivity; [exact (apply_setter_zUp SetRightMargin _ _) |].
    etransitivity; [exact (apply_setter_zUp SetLeftMargin _ _) |].
    etransitivity; [exact (apply_setter_zUp SetAlignment _ _) |].
    etransitivity; [exact (apply_setter_zUp SetSize _ _) |].
    etransitivity; [exact (apply_setter_zUp SetVisible _ _) |].
    cbn. by get_assign.
  - destruct ev; cbn [handle plugin on_plugin set_plugin];
      try exact IH.
    + unfold _onCanvasBoundary. cbn. by get_assign.
    + unfold _onSceneTick. destruct (ToBoolean _); [| done].
      by rewrite updateLayout_zUp.
    + by rewrite synchCamera_frame.
    + by rewrite synchCamera_frame.
    + unfold _onMouseDown. by destruct hit.
    + by rewrite onMouseUp_plugin.
    + by rewrite onMouseMove_plugin.
    + by rewrite flyTo_ok_plugin.
    + by rewrite apply_setter_zUp.
Qed.

End ZUp.

(* ===================================================================== *)
(** * The scenario, evaluated *)
(* ===================================================================== *)

(** A click on the front face of the cube highlights it and requests one
    flight, to a point in front of the scene. *)
Example demo_click :
  let st :=
    handle (Ev_mouseup demo_viewer (mouse 11 12 1 0) front_hit)
      (handle (Ev_mousedown (mouse 10 10 1 1) front_hit) demo_state) in
  elements (highlighted (host st)) = [0]
  ∧ lastAreaId (vars st) = 0
  ∧ match calls (host st) with
    | [FlyTo params] =>
        PrimFloat.eqb (vx (f_eye params)) 0
        && PrimFloat.eqb (vy (f_eye params)) 0
        && PrimFloat.ltb 3 (vz (f_eye params))
    | _ => false
    end = true.
Proof. cbv zeta. repeat split; vm_compute; reflexivity. Qed.

(** After [destroy], the second [worldAxis] handler is the only
    subscription left, and no listener is. *)
Example demo_destroy :
  map_to_list (subscriptions (host (destroy demo_state)))
  = [("viewer.camera", 4%nat, ("worldAxis", Cb_worldAxis_empty))]
  ∧ elements (listeners (host (destroy demo_state))) = [].
Proof. split; vm_compute; reflexivity. Qed.

(* ===================================================================== *)
(** * Further properties: coordinates within an element *)
(* ===================================================================== *)

Lemma total_offsets_sum (element : Element) (left top : Z) :
  total_offsets element left top
  = (left + sum_Z (offsets_below_root element).*1,
     top + sum_Z (offsets_below_root element).*2).
Proof.
  revert left top.
  induction element as [l t | l t parent IH]; intros left top; cbn.
  - f_equal; lia.
  - rewrite IH. unfold sum_Z. f_equal; lia.
Qed.

(** X1: [getCoordsWithinElement] subtracts from the page position of the
    event the offsets of the target and of each of its ancestors except
    the outermost one, whose own offsets are never counted; for a target
    without an [offsetParent] the result is the page position itself; and
    without an event the result is the position of [window.event]. *)
Theorem getCoordsWithinElement_offsets (target : Element) (pageX pageY : Z)
    (window_event : Z * Z) :
  let event := {| ev_target := target; ev_pageX := pageX; ev_pageY := pageY |} in
  getCoordsWithinElement (Some event) window_event
  = (pageX - sum_Z (offsets_below_root target).*1,
     pageY - sum_Z (offsets_below_root target).*2)
  ∧ (∀ l t l' t',
       getCoordsWithinElement
         (Some {| ev_target := Inside l t (Outermost l' t');
                  ev_pageX := pageX; ev_pageY := pageY |}) window_event
       = (pageX - l, pageY - t))
  ∧ (∀ l t,
       getCoordsWithinElement
         (Some {| ev_target := Outermost l t;
                  ev_pageX := pageX; ev_pageY := pageY |}) window_event
       = (pageX, pageY))
  ∧ (∀ l t,
       let inner := {| ev_target := Inside l t target;
                       ev_pageX := pageX; ev_pageY := pageY |} in
       (getCoordsWithinElement (Some inner) window_event).1
       = (getCoordsWithinElement (Some event) window_event).1 - l
       ∧ (getCoordsWithinElement (Some inner) window_event).2
         = (getCoordsWithinElement (Some event) window_event).2 - t)
  ∧ getCoordsWithinElement None window_event = window_event.
Proof.
  cbv zeta. unfold getCoordsWithinElement. cbn [ev_target ev_pageX ev_pageY].
  split; [| split; [| split; [| split]]].
  - rewrite total_offsets_sum. f_equal; lia.
  - intros. cbn. f_equal; lia.
  - intros. cbn. f_equal; lia.
  - intros l t. rewrite !total_offsets_sum. cbn. unfold sum_Z. cbn. lia.
  - by destruct window_event.
Qed.

(* ===================================================================== *)
(** * Further properties: colorAdjustment *)
(* ===================================================================== *)

(** X2: [colorAdjustment] only looks at the end of the array: what it does
    to [a ++ b] is what it does to [b], after [a].  It is not idempotent:
    a second call appends the same 13 lines again, so that the uniform
    [colorParams] and the function are declared twice. *)
Theorem colorAdjustment_twice (a b : list string) :
  colorAdjustment (a ++ b) = a ++ colorAdjustment b
  ∧ colorAdjustment (colorAdjustment a)
    = a ++ colorAdjustment [] ++ colorAdjustment []
  ∧ length (colorAdjustment (colorAdjustment a)) = (length a + 26)%nat
  ∧ colorAdjustment (colorAdjustment a) !! (length a + 13)%nat
    = Some "uniform vec4 colorParams;"
  ∧ colorAdjustment (colorAdjustment a) ≠ colorAdjustment a.
Proof.
  assert (Htwice : colorAdjustment (colorAdjustment a)
                   = a ++ colorAdjustment [] ++ colorAdjustment []).
  { rewrite (colorAdjustment_app (colorAdjustment a)), (colorAdjustment_app a).
    by rewrite <- app_assoc. }
  split; [| split; [| split; [| split]]].
  - rewrite (colorAdjustment_app (a ++ b)), (colorAdjustment_app b).
    by rewrite app_assoc.
  - exact Htwice.
  - rewrite !colorAdjustment_length. lia.
  - rewrite Htwice, app_assoc.
    rewrite lookup_app_r; rewrite length_app; cbn [length colorAdjustment push app]; [| lia].
    by replace (length a + 13 - (length a + 13))%nat with 0%nat by lia.
  - intros Heq. apply (f_equal length) in Heq.
    rewrite !colorAdjustment_length in Heq. lia.
Qed.

(* ===================================================================== *)
(** * Further properties: the configuration *)
(* ===================================================================== *)

Section Configuration.
Context {N : JSNumber} {E : Engine}.

(** The properties of the plugin that a setter assigns. *)
Lemma setAlignment_this (a : value) (p : NavCube) :
  this (setAlignment a p)
  = <["_needUpdateLayout" := VBool true]>
      (<["_alignment" :=
           if alignment_ok a then default_param (VStr "bottomRight") a
           else VStr "bottomRight"]> (this p)).
Proof.
  unfold setAlignment.
  destruct a as [| | b | n | s]; try reflexivity.
  cbn [default_param alignment_ok].
  destruct (bool_decide (s ∈ accepted_alignments)) eqn:Hs.
  - apply bool_decide_eq_true in Hs.
    unfold accepted_alignments in Hs.
    rewrite !elem_of_cons, elem_of_nil in Hs.
    destruct Hs as [-> | [-> | [-> | [-> | []]]]]; reflexivity.
  - apply bool_decide_eq_false in Hs.
    unfold accepted_alignments in Hs. rewrite !not_elem_of_cons in Hs.
    destruct Hs as (H1 & H2 & H3 & H4 & _).
    unfold strict_ne_str.
    apply String.eqb_neq in H1, H2, H3, H4.
    by rewrite H1, H2, H3, H4.
Qed.

Lemma setAlignment_errors (a : value) (p : NavCube) :
  errors (setAlignment a p)
  = if alignment_ok a then errors p else errors p ++ [alignment_error].
Proof.
  unfold setAlignment.
  destruct a as [| | b | n | s]; try reflexivity.
  cbn [default_param alignment_ok].
  destruct (bool_decide (s ∈ accepted_alignments)) eqn:Hs.
  - apply bool_decide_eq_true in Hs.
    unfold accepted_alignments in Hs.
    rewrite !elem_of_cons, elem_of_nil in Hs.
    destruct Hs as [-> | [-> | [-> | [-> | []]]]]; reflexivity.
  - apply bool_decide_eq_false in Hs.
    unfold accepted_alignments in Hs. rewrite !not_elem_of_cons in Hs.
    destruct Hs as (H1 & H2 & H3 & H4 & _).
    unfold strict_ne_str.
    apply String.eqb_neq in H1, H2, H3, H4.
    by rewrite H1, H2, H3, H4.
Qed.

Lemma setAlignment_rest (a : value) (p : NavCube) :
  cubeMesh_visible (setAlignment a p) = cubeMesh_visible p
  ∧ style (setAlignment a p) = style p
  ∧ navCubeCanvas (setAlignment a p) = navCubeCanvas p
  ∧ navCubeCamera (setAlignment a p) = navCubeCamera p.
Proof. unfold setAlignment. by destruct (_ && _ && _ && _). Qed.

Lemma margin_stored (v : value) :
  (if strict_ne_null (default_param (VNum (lit 10)) v)
      && strict_ne_undefined (default_param (VNum (lit 10)) v)
   then default_param (VNum (lit 10)) v else VNum (lit 10))
  = margin_or_default v.
Proof. by destruct v. Qed.

Lemma getter_after_setter (m : setter) (arg : value) (p : NavCube) :
  apply_getter m (apply_setter m arg p) = stored m arg.
Proof.
  destruct m; cbn [apply_getter apply_setter stored];
    cbv [getVisible setVisible getSize setSize getAlignment
         getLeftMargin setLeftMargin getRightMargin setRightMargin
         getTopMargin setTopMargin getBottomMargin setBottomMargin
         getCameraFly setCameraFly getCameraFitFOV setCameraFitFOV
         getCameraFlyDuration setCameraFlyDuration];
    rewrite ?setAlignment_this, ?margin_stored; cbn; by get_assign.
Qed.

Lemma getter_after_other_setter (m m' : setter) (arg : value) (p : NavCube) :
  m ≠ m' → apply_getter m' (apply_setter m arg p) = apply_getter m' p.
Proof.
  intros Hne.
  destruct m, m'; try done; cbn [apply_getter apply_setter];
    cbv [getVisible getSize getAlignment getLeftMargin getRightMargin
         getTopMargin getBottomMargin getCameraFly getCameraFitFOV
         getCameraFlyDuration];
    rewrite ?setAlignment_this, ?(proj1 (setAlignment_rest _ _));
    cbv [setVisible setSize setLeftMargin setRightMargin setTopMargin
         setBottomMargin setCameraFly setCameraFitFOV setCameraFlyDuration];
    cbn; by get_assign.
Qed.

Lemma stored_defined (m : setter) (arg : value) :
  stored m arg ≠ VUndefined.
Proof.
  destruct m; cbn [stored]; try (by destruct arg).
  destruct (alignment_ok arg); by destruct arg.
Qed.

Lemma stored_margin_not_null (m : setter) (arg : value) :
  m ∈ [SetLeftMargin; SetRightMargin; SetTopMargin; SetBottomMargin] →
  stored m arg ≠ VNull.
Proof.
  rewrite !elem_of_cons, elem_of_nil.
  intros [-> | [-> | [-> | [-> | []]]]]; by destruct arg.
Qed.

Lemma stored_alignment_accepted (arg : value) :
  ∃ a, a ∈ accepted_alignments ∧ stored SetAlignment arg = VStr a.
Proof.
  cbn [stored]. destruct arg as [| | b | n | s]; cbn [alignment_ok default_param];
    try (exists "bottomRight"; split; [| done];
         unfold accepted_alignments; apply elem_of_cons; by left).
  destruct (bool_decide (s ∈ accepted_alignments)) eqn:Hs.
  - apply bool_decide_eq_true in Hs. by exists s.
  - exists "bottomRight". split; [| done].
    unfold accepted_alignments. apply elem_of_cons. by left.
Qed.

(** X3: the setters do not interfere: a setter changes what its own getter
    returns and leaves what every other getter returns as it was; and of
    two calls of one setter the later decides what the getter returns. *)
Theorem setters_independent (m m' : setter) (arg arg' : value) (p : NavCube) :
  (m ≠ m' → apply_getter m' (apply_setter m arg p) = apply_getter m' p)
  ∧ apply_getter m (apply_setter m arg' (apply_setter m arg p))
    = apply_getter m (apply_setter m arg' p)
  ∧ (m ≠ m' →
     apply_getter m (apply_setter m' arg' (apply_setter m arg p))
     = apply_getter m (apply_setter m arg p)).
Proof.
  split; [apply getter_after_other_setter |].
  split; [by rewrite !getter_after_setter |].
  intros Hne. by apply getter_after_other_setter.
Qed.

End Configuration.

Lemma setters_independent_witness :
  getSize (setAlignment (VStr "topLeft") (setSize (fnum 300) (plugin demo_state)))
  = getSize (setSize (fnum 300) (plugin demo_state)).
Proof.
  apply (proj2 (proj2 (setters_independent SetSize SetAlignment (fnum 300)
                         (VStr "topLeft") (plugin demo_state)))).
  discriminate.
Defined.

Section Construction.
Context {N : JSNumber} {E : Engine}.

Lemma setter_errors (m : setter) (arg : value) (p : NavCube) :
  errors (apply_setter m arg p)
  = match m with
    | SetAlignment =>
        if alignment_ok arg then errors p else errors p ++ [alignment_error]
    | _ => errors p
    end.
Proof. destruct m; try reflexivity. apply setAlignment_errors. Qed.

Lemma setter_flag (m : setter) (arg : value) (p : NavCube) :
  get (this (apply_setter m arg p)) "_needUpdateLayout"
  = if visual_setter m then VBool true
    else get (this p) "_needUpdateLayout".
Proof.
  destruct m; cbn [apply_setter visual_setter];
    rewrite ?setAlignment_this;
    cbv [setVisible setSize setLeftMargin setRightMargin setTopMargin
         setBottomMargin setCameraFly setCameraFitFOV setCameraFlyDuration];
    cbn; by get_assign.
Qed.

Lemma setter_style (m : setter) (arg : value) (p : NavCube) (k : string) :
  k ≠ "visibility" →
  get (style (apply_setter m arg p)) k = get (style p) k.
Proof.
  intros Hk. destruct m; cbn [apply_setter];
    rewrite ?(proj1 (proj2 (setAlignment_rest _ _))); try reflexivity.
  unfold setVisible. cbn. by rewrite get_insert_ne.
Qed.

(** The plugin that the constructor leaves: the setters, in the order of
    the constructor, applied to the plugin [p0] as it is before them. *)
Lemma construct_plugin (v : Viewer) (cfg : gmap string value) (cam0 : Camera)
    (h : Host) :
  ∃ p0,
    plugin (construct v cfg cam0 h)
    = apply_setter SetCameraFlyDuration (get cfg "cameraFlyDuration")
       (apply_setter SetCameraFly (get cfg "cameraFly")
       (apply_setter SetCameraFitFOV (get cfg "cameraFitFOV")
       (apply_setter SetBottomMargin (get cfg "bottomMargin")
       (apply_setter SetTopMargin (get cfg "topMargin")
       (apply_setter SetRightMargin (get cfg "rightMargin")
       (apply_setter SetLeftMargin (get cfg "leftMargin")
       (apply_setter SetAlignment (get cfg "alignment")
       (apply_setter SetSize (get cfg "size")
       (apply_setter SetVisible (get cfg "visible") p0)))))))))
    ∧ errors p0 = []
    ∧ get (style p0) "width" = px (js_or (get cfg "size") (VNum (lit 250)))
    ∧ get (style p0) "height" = px (js_or (get cfg "size") (VNum (lit 250)))
    ∧ get (style p0) "top" = VStr "0px"
    ∧ get (style p0) "left" = VStr "0px".
Proof.
  unfold construct. cbn [plugin on_plugin set_plugin apply_setter].
  eexists. split; [reflexivity |].
  cbn. unfold px. repeat split; by get_assign.
Qed.

(** Rewrites a getter, the flag, the errors or a style property through
    the setters of the constructor. *)
Ltac through_setters :=
  repeat first
    [ rewrite getter_after_setter
    | rewrite getter_after_other_setter by discriminate
    | rewrite setter_flag
    | rewrite setter_errors
    | rewrite setter_style by discriminate ].

Lemma construct_getter (v : Viewer) (cfg : gmap string value) (cam0 : Camera)
    (h : Host) (m : setter) :
  apply_getter m (plugin (construct v cfg cam0 h))
  = stored m (get cfg (config_key m)).
Proof.
  destruct (construct_plugin v cfg cam0 h) as (p0 & -> & _).
  destruct m; by through_setters.
Qed.

Lemma stored_config_inv (p : NavCube) :
  (∀ m, ∃ arg, apply_getter m p = stored m arg) → config_inv p.
Proof.
  intros Hstored. split; [| split].
  - destruct (Hstored SetAlignment) as [arg Harg].
    destruct (stored_alignment_accepted arg) as (a & Ha & Heq).
    exists a. split; [done |]. cbn [apply_getter] in Harg. congruence.
  - intros m Hm. destruct (Hstored m) as [arg ->].
    by apply stored_margin_not_null.
  - intros m. destruct (Hstored m) as [arg ->]. apply stored_defined.
Qed.

Lemma handle_getter (ev : event) (st : State) (m : setter) :
  apply_getter m (plugin (handle ev st))
  = match ev with
    | Ev_call m' arg =>
        if decide (m' = m) then stored m arg else apply_getter m (plugin st)
    | _ => apply_getter m (plugin st)
    end.
Proof.
  destruct ev; cbn [handle plugin on_plugin set_plugin].
  - destruct m; try reflexivity;
      cbv [apply_getter getSize getAlignment getLeftMargin getRightMargin
           getTopMargin getBottomMargin getCameraFly getCameraFitFOV
           getCameraFlyDuration _onCanvasBoundary];
      cbn; by get_assign.
  - unfold _onSceneTick. destruct (ToBoolean _); [| done].
    destruct m; cbn [apply_getter];
      cbv [getVisible getSize getAlignment getLeftMargin getRightMargin
           getTopMargin getBottomMargin getCameraFly getCameraFitFOV
           getCameraFlyDuration];
      unfold _updateLayout; cbn [this assign_style set_style];
      repeat match goal with |- context [strict_eq_str ?a ?s] =>
        destruct (strict_eq_str a s) end;
      cbn; by get_assign.
  - rewrite synchCamera_frame. by destruct m.
  - rewrite synchCamera_frame. by destruct m.
  - by destruct m.
  - by destruct m.
  - done.
  - done.
  - unfold _onMouseDown. by destruct hit.
  - by rewrite onMouseUp_plugin.
  - by rewrite onMouseMove_plugin.
  - by rewrite flyTo_ok_plugin.
  - case_decide as Hm.
    + subst. apply getter_after_setter.
    + by apply getter_after_other_setter.
Qed.

Lemma reachable_stored (v : Viewer) (cfg : gmap string value) (cam0 : Camera)
    (h : Host) (st : State) :
  reachable v cfg cam0 h st →
  ∀ m, ∃ arg, apply_getter m (plugin st) = stored m arg.
Proof.
  induction 1 as [| st ev _ IH]; intros m.
  - eexists. apply construct_getter.
  - rewrite handle_getter. destruct ev; try apply IH.
    case_decide; [by eexists | apply IH].
Qed.

(** X4: the constructor configures the plugin through the setters: every
    getter returns the entry of the configuration object, or the default
    of its setter when there is none (and 10 for a margin of [null]); an
    alignment that is not accepted gives "bottomRight" and the one error
    the constructor reports; and the layout is left to be computed. *)
Theorem construct_configuration (v : Viewer) (cfg : gmap string value)
    (cam0 : Camera) (h : Host) :
  let p := plugin (construct v cfg cam0 h) in
  getVisible p = default_param (VBool true) (get cfg "visible")
  ∧ getSize p = default_param (VNum (lit 200)) (get cfg "size")
  ∧ getAlignment p
    = (if alignment_ok (get cfg "alignment")
       then default_param (VStr "bottomRight") (get cfg "alignment")
       else VStr "bottomRight")
  ∧ getLeftMargin p = margin_or_default (get cfg "leftMargin")
  ∧ getRightMargin p = margin_or_default (get cfg "rightMargin")
  ∧ getTopMargin p = margin_or_default (get cfg "topMargin")
  ∧ getBottomMargin p = margin_or_default (get cfg "bottomMargin")
  ∧ getCameraFly p = default_param (VBool true) (get cfg "cameraFly")
  ∧ getCameraFitFOV p = default_param (VNum (lit 45)) (get cfg "cameraFitFOV")
  ∧ getCameraFlyDuration p
    = default_param (VNum (lit (1 # 2))) (get cfg "cameraFlyDuration")
  ∧ errors p
    = (if alignment_ok (get cfg "alignment") then [] else [alignment_error])
  ∧ get (this p) "_needUpdateLayout" = VBool true.
Proof.
  cbv zeta.
  pose proof (construct_getter v cfg cam0 h) as Hget.
  repeat match goal with |- _ ∧ _ => split end;
    try (match goal with
         | |- getVisible _ = _ => exact (Hget SetVisible)
         | |- getSize _ = _ => exact (Hget SetSize)
         | |- getAlignment _ = _ => exact (Hget SetAlignment)
         | |- getLeftMargin _ = _ => exact (Hget SetLeftMargin)
         | |- getRightMargin _ = _ => exact (Hget SetRightMargin)
         | |- getTopMargin _ = _ => exact (Hget SetTopMargin)
         | |- getBottomMargin _ = _ => exact (Hget SetBottomMargin)
         | |- getCameraFly _ = _ => exact (Hget SetCameraFly)
         | |- getCameraFitFOV _ = _ => exact (Hget SetCameraFitFOV)
         | |- getCameraFlyDuration _ = _ => exact (Hget SetCameraFlyDuration)
         end).
  - destruct (construct_plugin v cfg cam0 h) as (p0 & -> & Herr & _).
    through_setters. rewrite Herr. by destruct (alignment_ok _).
  - destruct (construct_plugin v cfg cam0 h) as (p0 & -> & _).
    by through_setters.
Qed.

(** X5: in every state of the plugin the configuration is complete: the
    alignment is one of the four accepted strings, no margin is [null] or
    [undefined], and no getter returns [undefined]. *)
Theorem configuration_complete (v : Viewer) (cfg : gmap string value)
    (cam0 : Camera) (h : Host) (st : State) :
  reachable v cfg cam0 h st → config_inv (plugin st).
Proof.
  intros Hreach. apply stored_config_inv.
  by apply (reachable_stored v cfg cam0 h).
Qed.

(** X6: no event handler changes the configuration: between two calls of
    setters every getter keeps returning the same value. *)
Theorem handlers_keep_configuration (ev : event) (st : State) (m : setter) :
  is_call ev = false →
  apply_getter m (plugin (handle ev st)) = apply_getter m (plugin st).
Proof. intros Hev. rewrite handle_getter. by destruct ev. Qed.

(** X7: until the first tick the canvas of the cube is not laid out by the
    configuration: the constructor leaves it at [0px], [0px] with the
    style size [cfg.size || 250], whatever the alignment; with no size
    configured that is 250 pixels for a cube of size 200, and the first
    tick, which the constructor leaves pending, sets the style size to
    the 200 pixels of [getSize()]. *)
Theorem construct_style (v : Viewer) (cfg : gmap string value)
    (cam0 : Camera) (h : Host) :
  cfg !! "size" = None →
  let p := plugin (construct v cfg cam0 h) in
  get (style p) "width" = px (VNum (lit 250))
  ∧ get (style p) "height" = px (VNum (lit 250))
  ∧ get (style p) "top" = VStr "0px"
  ∧ get (style p) "left" = VStr "0px"
  ∧ getSize p = VNum (lit 200)
  ∧ ∀ v', get (style (_onSceneTick v' p)) "width" = px (VNum (lit 200))
          ∧ get (style (_onSceneTick v' p)) "height" = px (VNum (lit 200)).
Proof.
  intros Hsize. cbv zeta.
  assert (Hcfg : get cfg "size" = VUndefined) by (unfold get; by rewrite Hsize).
  pose proof (construct_getter v cfg cam0 h SetSize) as Hget.
  cbn [apply_getter stored config_key] in Hget. rewrite Hcfg in Hget.
  cbn [default_param] in Hget.
  assert (Hflag : get (this (plugin (construct v cfg cam0 h))) "_needUpdateLayout"
                  = VBool true).
  { destruct (construct_plugin v cfg cam0 h) as (p0 & -> & _).
    by through_setters. }
  destruct (construct_plugin v cfg cam0 h) as (p0 & Hp & _ & Hw & Hh & Ht & Hl).
  rewrite Hcfg in Hw, Hh. cbn [js_or ToBoolean] in Hw, Hh.
  split; [| split; [| split; [| split; [| split]]]].
  - rewrite Hp. by through_setters.
  - rewrite Hp. by through_setters.
  - rewrite Hp. by through_setters.
  - rewrite Hp. by through_setters.
  - exact Hget.
  - intros v'. rewrite tick_dirty by (by rewrite Hflag).
    destruct (updateLayout_size v' (plugin (construct v cfg cam0 h))) as [-> ->].
    by rewrite Hget.
Qed.

End Construction.

(* ===================================================================== *)
(** * Further properties: layout *)
(* ===================================================================== *)

Section LayoutMore.
Context {N : JSNumber} {E : Engine}.

Lemma js_add_px (v : value) : px v = VStr (ToString v ++ "px").
Proof. unfold px, js_add. cbn. by rewrite orb_true_r. Qed.

Lemma far_edge_number (a b size margin : value) :
  far_edge a b size margin
  = VNum (num_sub (num_sub (ToNumber (js_add a b)) (ToNumber size))
                  (ToNumber margin)).
Proof. reflexivity. Qed.

Lemma updateLayout_other (v : Viewer) (p : NavCube) :
  cubeMesh_visible (_updateLayout v p) = cubeMesh_visible p
  ∧ navCubeCanvas (_updateLayout v p) = navCubeCanvas p
  ∧ navCubeCamera (_updateLayout v p) = navCubeCamera p
  ∧ errors (_updateLayout v p) = errors p
  ∧ this (_updateLayout v p) = <["_needUpdateLayout" := VBool false]> (this p).
Proof.
  unfold _updateLayout. cbn [this assign_style set_style].
  repeat match goal with |- context [strict_eq_str ?a ?s] =>
    destruct (strict_eq_str a s) end; done.
Qed.

Lemma updateLayout_style (v : Viewer) (p : NavCube) :
  style (_updateLayout v p)
  = match layout_position v p with
    | Some (y, x) =>
        <["left" := x]> (<["top" := y]>
          (<["height" := px (getSize p)]>
             (<["width" := px (getSize p)]> (style p))))
    | None =>
        <["height" := px (getSize p)]>
          (<["width" := px (getSize p)]> (style p))
    end.
Proof.
  unfold _updateLayout, layout_position, getAlignment.
  cbn [this assign_style set_style].
  repeat match goal with |- context [strict_eq_str ?a ?s] =>
    destruct (strict_eq_str a s) end; reflexivity.
Qed.

Lemma layout_position_after (v : Viewer) (p : NavCube) :
  layout_position v (_updateLayout v p) = layout_position v p.
Proof.
  unfold layout_position, getAlignment, getSize, getBottomMargin,
    getRightMargin, getLeftMargin, getTopMargin.
  rewrite (proj2 (proj2 (proj2 (proj2 (updateLayout_other v p))))).
  by get_assign.
Qed.

(** X8: recomputing the layout again, with the same canvas boundary,
    changes nothing. *)
Theorem updateLayout_idempotent (v : Viewer) (p : NavCube) :
  _updateLayout v (_updateLayout v p) = _updateLayout v p.
Proof.
  pose proof (updateLayout_other v (_updateLayout v p)) as (H1 & H2 & H3 & H4 & H5).
  assert (Hsize : getSize (_updateLayout v p) = getSize p).
  { unfold getSize. rewrite (proj2 (proj2 (proj2 (proj2 (updateLayout_other v p))))).
    by get_assign. }
  assert (Hsub : subIds (_updateLayout v (_updateLayout v p))
                 = subIds (_updateLayout v p)
               ∧ shadow_visible (_updateLayout v (_updateLayout v p))
                 = shadow_visible (_updateLayout v p)
               ∧ navCubeCamera_props (_updateLayout v (_updateLayout v p))
                 = navCubeCamera_props (_updateLayout v p)).
  { generalize (_updateLayout v p). intros q. unfold _updateLayout.
    cbn [this assign_style set_style].
    repeat match goal with |- context [strict_eq_str ?a ?s] =>
      destruct (strict_eq_str a s) end; done. }
  destruct Hsub as (Hs1 & Hs2 & Hs3).
  assert (Hthis : this (_updateLayout v (_updateLayout v p))
                  = this (_updateLayout v p)).
  { rewrite H5, (proj2 (proj2 (proj2 (proj2 (updateLayout_other v p))))).
    apply insert_insert_eq. }
  assert (Hst : style (_updateLayout v (_updateLayout v p))
                = style (_updateLayout v p)).
  { rewrite (updateLayout_style v (_updateLayout v p)), layout_position_after,
      Hsize, (updateLayout_style v p).
    destruct (layout_position v p) as [[y x] |];
      apply map_eq; intros k; rewrite !lookup_insert;
      repeat case_decide; congruence. }
  destruct (_updateLayout v (_updateLayout v p)), (_updateLayout v p).
  cbn in *. congruence.
Qed.

(** X9: whatever values the configuration holds, the recomputation writes
    strings to the style: the size and a margin as they print, followed by
    "px", and for an edge measured from the far side of the canvas the
    number [boundary + boundary - size - margin], each operand converted
    to a number, as it prints, followed by "px". *)
Theorem layout_writes_strings (v : Viewer) (p : NavCube) (a : string) :
  getAlignment p = VStr a → a ∈ accepted_alignments →
  let b i := index (canvas_boundary v) i in
  let after := style (_updateLayout v p) in
  let far_px x y margin :=
    VStr (numberToString
            (num_sub (num_sub (ToNumber (js_add x y)) (ToNumber (getSize p)))
                     (ToNumber margin)) ++ "px") in
  get after "width" = VStr (ToString (getSize p) ++ "px")
  ∧ get after "height" = VStr (ToString (getSize p) ++ "px")
  ∧ get after "top"
    = (if bool_decide (a = "topLeft" ∨ a = "topRight")
       then VStr (ToString (getTopMargin p) ++ "px")
       else far_px (b 1%nat) (b 3%nat) (getBottomMargin p))
  ∧ get after "left"
    = (if bool_decide (a = "topLeft" ∨ a = "bottomLeft")
       then VStr (ToString (getLeftMargin p) ++ "px")
       else far_px (b 0%nat) (b 2%nat) (getRightMargin p)).
Proof.
  intros Ha Hin. cbv zeta. rewrite updateLayout_style.
  unfold layout_position. rewrite Ha.
  unfold accepted_alignments in Hin. rewrite !elem_of_cons, elem_of_nil in Hin.
  destruct Hin as [-> | [-> | [-> | [-> | []]]]]; cbn;
    rewrite ?js_add_px, ?far_edge_number; get_assign;
    rewrite ?js_add_px; done.
Qed.

Lemma handle_flag (ev : event) (st : State) :
  get (this (plugin (handle ev st))) "_needUpdateLayout"
  = match ev with
    | Ev_tick _ =>
        if ToBoolean (get (this (plugin st)) "_needUpdateLayout")
        then VBool false
        else get (this (plugin st)) "_needUpdateLayout"
    | _ =>
        if dirties_layout ev then VBool true
        else get (this (plugin st)) "_needUpdateLayout"
    end.
Proof.
  destruct ev; cbn [handle plugin on_plugin set_plugin dirties_layout];
    try reflexivity.
  - unfold _onCanvasBoundary. cbn. by get_assign.
  - unfold _onSceneTick. destruct (ToBoolean _); [| done].
    apply updateLayout_clears_flag.
  - by rewrite synchCamera_frame.
  - by rewrite synchCamera_frame.
  - unfold _onMouseDown. by destruct hit.
  - by rewrite onMouseUp_plugin.
  - by rewrite onMouseMove_plugin.
  - by rewrite flyTo_ok_plugin.
  - apply setter_flag.
Qed.

Lemma handle_style (ev : event) (st : State) (k : string) :
  k ≠ "visibility" →
  (∀ v, ev ≠ Ev_tick v) →
  get (style (plugin (handle ev st))) k = get (style (plugin st)) k.
Proof.
  intros Hk Hev.
  destruct ev; cbn [handle plugin on_plugin set_plugin]; try reflexivity.
  - by destruct (Hev v).
  - by rewrite synchCamera_frame.
  - by rewrite synchCamera_frame.
  - unfold _onMouseDown. by destruct hit.
  - by rewrite onMouseUp_plugin.
  - by rewrite onMouseMove_plugin.
  - by rewrite flyTo_ok_plugin.
  - by apply setter_style.
Qed.

(** X10: the layout is deferred to the tick.  A visual setter and a
    canvas boundary event only set the flag; no event but a tick changes
    the size or the position in the style of the canvas, so that after
    [setSize(s)] the style keeps its old size until the next tick and has
    [s] pixels from then on; a tick leaves the flag clear; and every other
    event leaves the flag as it is. *)
Theorem layout_is_deferred (ev : event) (st : State) (v : Viewer) (s : value) :
  let flag st := get (this (plugin st)) "_needUpdateLayout" in
  (dirties_layout ev = true → flag (handle ev st) = VBool true)
  ∧ ToBoolean (flag (handle (Ev_tick v) st)) = false
  ∧ (dirties_layout ev = false → (∀ v', ev ≠ Ev_tick v') →
       flag (handle ev st) = flag st)
  ∧ (∀ k, k ∈ ["width"; "height"; "top"; "left"] → (∀ v', ev ≠ Ev_tick v') →
       get (style (plugin (handle ev st))) k = get (style (plugin st)) k)
  ∧ get (style (plugin (handle (Ev_tick v) (handle (Ev_call SetSize s) st))))
        "width"
    = px (default_param (VNum (lit 200)) s).
Proof.
  cbv zeta. split; [| split; [| split; [| split]]].
  - intros Hev. rewrite handle_flag. rewrite Hev. by destruct ev.
  - rewrite handle_flag.
    destruct (ToBoolean (get (this (plugin st)) "_needUpdateLayout")) eqn:Hflag;
      [reflexivity | exact Hflag].
  - intros Hev Htick. rewrite handle_flag, Hev. destruct ev; try done.
    by destruct (Htick v0).
  - intros k Hk Htick. apply handle_style; [| done].
    rewrite !elem_of_cons, elem_of_nil in Hk.
    by destruct Hk as [-> | [-> | [-> | [-> | []]]]].
  - cbn [handle plugin on_plugin set_plugin].
    rewrite tick_dirty.
    + destruct (updateLayout_size v (apply_setter SetSize s (plugin st))) as [-> _].
      f_equal. apply (getter_after_setter SetSize).
    + by rewrite setter_flag.
Qed.

End LayoutMore.

(* ===================================================================== *)
(** * Further properties: the mouse *)
(* ===================================================================== *)

Section MouseMore.
Context {N : JSNumber} {E : Engine}.

Lemma actionMove_effects (posX posY lx ly : Z) (st : State) :
  lastX (vars st) = Some lx → lastY (vars st) = Some ly →
  let st' := actionMove posX posY st in
  calls (host st')
  = calls (host st)
    ++ [OrbitYaw (orbit_increment posX lx);
        OrbitPitch (num_neg (orbit_increment posY ly))]
  ∧ lastX (vars st') = Some posX
  ∧ lastY (vars st') = Some posY
  ∧ yaw (vars st') = num_sub (yaw (vars st)) (orbit_increment posX lx)
  ∧ cursor (host st') = cursor (host st)
  ∧ down (vars st') = down (vars st)
  ∧ over (vars st') = over (vars st)
  ∧ downX (vars st') = downX (vars st)
  ∧ downY (vars st') = downY (vars st).
Proof.
  intros Hx Hy. cbv zeta. unfold actionMove, orbit_increment, sensitivity.
  rewrite Hx, Hy. cbn [coord_diff].
  repeat match goal with |- context [if ?c then _ else _] => destruct c end;
    cbn; rewrite <- ?app_assoc; done.
Qed.

Lemma actionMove_vars (posX posY : Z) (st : State) :
  let st' := actionMove posX posY st in
  lastX (vars st') = Some posX
  ∧ lastY (vars st') = Some posY
  ∧ down (vars st') = down (vars st)
  ∧ downX (vars st') = downX (vars st)
  ∧ downY (vars st') = downY (vars st)
  ∧ ∃ a b, calls (host st') = calls (host st) ++ [OrbitYaw a; OrbitPitch b].
Proof.
  cbv zeta. unfold actionMove.
  repeat match goal with |- context [if ?c then _ else _] => destruct c end;
    cbn; repeat split; try done; do 2 eexists; by rewrite <- app_assoc.
Qed.

Lemma unhighlight_last_vars (st : State) :
  downX (vars (unhighlight_last st)) = downX (vars st)
  ∧ downY (vars (unhighlight_last st)) = downY (vars st)
  ∧ lastX (vars (unhighlight_last st)) = lastX (vars st)
  ∧ lastY (vars (unhighlight_last st)) = lastY (vars st)
  ∧ down (vars (unhighlight_last st)) = down (vars st)
  ∧ over (vars (unhighlight_last st)) = over (vars st)
  ∧ cursor (host (unhighlight_last st)) = cursor (host st).
Proof. unfold unhighlight_last. by destruct (0 <=? _). Qed.

(** X11: dragging the cube.  While the button is down on the cube, a
    [mousemove] asks the camera for exactly one yaw and one pitch orbit,
    of minus half the horizontal distance and of half the vertical
    distance that the pointer covered since the last position, takes the
    position of the event as the last one, shows the "move" cursor,
    leaves no area highlighted, and does not look at the pick. *)
Theorem drag_orbits (e : MouseEvent) (hit : PickResult) (st : State)
    (lx ly : Z) :
  shown_inv st →
  down (vars st) = true →
  lastX (vars st) = Some lx → lastY (vars st) = Some ly →
  let st' := _onMouseMove e hit st in
  calls (host st')
  = calls (host st)
    ++ [OrbitYaw (orbit_increment (e_clientX e) lx);
        OrbitPitch (num_neg (orbit_increment (e_clientY e) ly))]
  ∧ lastX (vars st') = Some (e_clientX e)
  ∧ lastY (vars st') = Some (e_clientY e)
  ∧ cursor (host st') = "move"
  ∧ cleared st'
  ∧ down (vars st') = true.
Proof.
  intros Hinv Hdown Hx Hy. cbv zeta. unfold _onMouseMove.
  pose proof (unhighlight_last_cleared st Hinv) as Hc.
  pose proof (unhighlight_last_calls st) as Hcalls.
  destruct (unhighlight_last_vars st) as (_ & _ & Hlx & Hly & Hd & _).
  rewrite Hx in Hlx. rewrite Hy in Hly. rewrite Hdown in Hd.
  remember (unhighlight_last st) as st1 eqn:Hst1. clear Hst1.
  cbv zeta. rewrite Hd, andb_false_r.
  destruct (actionMove_effects (e_clientX e) (e_clientY e) lx ly
              (on_host (set_cursor "move") st1) Hlx Hly)
    as (Hc1 & Hc2 & Hc3 & _ & Hc5 & Hc6 & _).
  destruct (actionMove_frame (e_clientX e) (e_clientY e)
              (on_host (set_cursor "move") st1)) as (Hl & Hh & Hp).
  rewrite Hc1, Hc2, Hc3, Hc5, Hc6. cbn. rewrite Hcalls.
  repeat split; try done.
  - rewrite Hl. apply Hc.
  - rewrite Hh. apply Hc.
  - rewrite Hp. apply Hc.
Qed.


(** X13: when the engine calls back after a flight, no camera call is
    made and the configuration is untouched; the area under the pointer,
    if the pick hits one, is then the one highlighted, shown and recorded,
    and otherwise no area is. *)
Theorem flight_callback_rehighlights (hit : PickResult) (st : State) :
  shown_inv st →
  let st' := flyTo_ok hit st in
  calls (host st') = calls (host st)
  ∧ plugin st' = plugin st
  ∧ (hit_area hit = None → cleared st')
  ∧ (∀ a, hit_area hit = Some a →
       highlighted (host st') = {[ a ]}
       ∧ painted (host st') = {[ a ]}
       ∧ lastAreaId (vars st') = a).
Proof.
  intros Hinv. cbv zeta. split; [| split; [apply flyTo_ok_plugin |]].
  - unfold flyTo_ok. rewrite <- (unhighlight_last_calls st).
    generalize (unhighlight_last st). intros st1. cbv zeta.
    destruct hit as [[uv |] |]; try done.
    destruct (0 <=? getArea uv); cbn; by rewrite unhighlight_last_calls.
  - unfold flyTo_ok.
    pose proof (unhighlight_last_cleared st Hinv) as Hc.
    remember (unhighlight_last st) as st1 eqn:Hst1. clear Hst1.
    cbv zeta. pose proof Hc as (Hl & Hh & Hp).
    destruct hit as [[uv |] |]; cbn [hit_area];
      try (split; [done | intros a Hn; discriminate]).
    rewrite unhighlight_last_idle by done.
    destruct (0 <=? getArea uv) eqn:Ha.
    + split; [done |]. intros a [= <-]. cbn.
      by rewrite Hh, union_empty_r_L.
    + split; [done | intros a Hn; discriminate].
Qed.

Lemma highlight_on_mouseup_vars (areaId : Z) (st : State) :
  lastX (vars (highlight_on_mouseup areaId st)) = lastX (vars st)
  ∧ lastY (vars (highlight_on_mouseup areaId st)) = lastY (vars st)
  ∧ down (vars (highlight_on_mouseup areaId st)) = false.
Proof.
  unfold highlight_on_mouseup. cbn.
  destruct (unhighlight_last_vars
    (on_host (set_cursor "pointer") (on_vars (set_down false) st)))
    as (_ & _ & -> & -> & -> & _).
  done.
Qed.

Lemma flyTo_vars (v : Viewer) dir up (st : State) :
  vars (flyTo v dir up st) = vars st.
Proof. by rewrite flyTo_request. Qed.

Lemma press_inv_same (c c' : Closure) :
  downX c' = downX c → downY c' = downY c →
  lastX c' = lastX c → lastY c' = lastY c →
  (down c' = true → down c = true) →
  press_inv c → press_inv c'.
Proof.
  intros Hx Hy Hlx Hly Hd (H1 & H2 & H3). unfold press_inv.
  rewrite Hx, Hy, Hlx, Hly. split; [done |]. split; [done |].
  intros Hdown. by apply H3, Hd.
Qed.

Lemma press_inv_moved (c c' : Closure) (x y : Z) :
  downX c' = downX c → downY c' = downY c →
  lastX c' = Some x → lastY c' = Some y →
  (down c' = true → down c = true) →
  press_inv c → press_inv c'.
Proof.
  intros Hx Hy Hlx Hly Hd (H1 & H2 & H3). unfold press_inv.
  rewrite Hx, Hy, Hlx, Hly. split; [done |]. split; [by eauto |].
  intros Hdown. by apply H3, Hd.
Qed.

Lemma handle_press (ev : event) (st : State) :
  press_inv (vars st) → press_inv (vars (handle ev st)).
Proof.
  intros Hinv.
  destruct ev; cbn [handle vars on_plugin set_plugin]; try done.
  - unfold _onMouseDown. destruct hit; cbn; repeat split; eauto; done.
  - rewrite onMouseUp_cases.
    destruct (negb _); [done |].
    assert (Hup : press_inv (vars (on_vars (set_down false) st))).
    { revert Hinv. apply press_inv_same; cbn; auto; discriminate. }
    destruct (downX (vars st)) eqn:Hdx; [| exact Hup].
    destruct hit as [[uv |] |]; try exact Hup.
    destruct (0 <=? getArea uv); [| exact Hup].
    destruct (highlight_on_mouseup_frame (getArea uv) st) as (_ & _ & Hx & Hy).
    destruct (highlight_on_mouseup_vars (getArea uv) st) as (Hlx & Hly & Hd).
    assert (Hhl : press_inv (vars (highlight_on_mouseup (getArea uv) st))).
    { revert Hinv. apply press_inv_same; try done; try congruence. }
    destruct (moved_away e st); [done |].
    destruct (getAreaDir _); [| done].
    by rewrite flyTo_vars.
  - unfold _onMouseMove.
    destruct (unhighlight_last_vars st) as (Hx & Hy & Hlx & Hly & Hd & _).
    assert (Hinv1 : press_inv (vars (unhighlight_last st))).
    { revert Hinv. apply press_inv_same; try done. by rewrite Hd. }
    remember (unhighlight_last st) as st1 eqn:Hst1.
    clear Hst1 Hx Hy Hlx Hly Hd. cbv zeta.
    destruct (_ && _); [done |].
    destruct (down (vars st1)) eqn:Hd1.
    { destruct (actionMove_vars (e_clientX e) (e_clientY e)
                  (on_host (set_cursor "move") st1))
        as (Hlx & Hly & Hd & Hx & Hy & _).
      revert Hinv1. eapply press_inv_moved; try done. }
    destruct (negb _); [done |].
    destruct hit as [[uv |] |]; [| done |].
    + cbn [vars on_host set_host].
      destruct (_ =? _); [done |].
      destruct (0 <=? lastAreaId (vars st1)); by destruct (0 <=? getArea uv).
    + destruct (unhighlight_last_vars (on_host (set_cursor "default") st1))
        as (Hx & Hy & Hlx & Hly & Hd & _).
      revert Hinv1. apply press_inv_same; try done. by rewrite Hd.
  - unfold flyTo_ok.
    destruct (unhighlight_last_vars st) as (Hx & Hy & Hlx & Hly & Hd & _).
    assert (Hinv1 : press_inv (vars (unhighlight_last st))).
    { revert Hinv. apply press_inv_same; try done. by rewrite Hd. }
    remember (unhighlight_last st) as st1 eqn:Hst1.
    clear Hst1 Hx Hy Hlx Hly Hd. cbv zeta.
    destruct hit as [[uv |] |]; try done.
    destruct (unhighlight_last_vars (on_host (set_cursor "pointer") st1))
      as (Hx & Hy & Hlx & Hly & Hd & _).
    destruct (0 <=? getArea uv); revert Hinv1; apply press_inv_same;
      cbn; try done; by rewrite Hd.
Qed.

(** X14: the variables of a press stay consistent: in every state the
    two coordinates of the last [mousedown] are both recorded or both not;
    once they are, so is the last pointer position; and the button counts
    as down on the cube only after a [mousedown].  An orbit is therefore
    never computed from a position that was not recorded. *)
Theorem press_recorded (v : Viewer) (cfg : gmap string value) (cam0 : Camera)
    (h : Host) (st : State) :
  reachable v cfg cam0 h st →
  press_inv (vars st)
  ∧ (down (vars st) = true →
       ∃ lx ly, lastX (vars st) = Some lx ∧ lastY (vars st) = Some ly
         ∧ ∀ e hit,
             calls (host (_onMouseMove e hit st))
             = calls (host st)
               ++ [OrbitYaw (orbit_increment (e_clientX e) lx);
                   OrbitPitch (num_neg (orbit_increment (e_clientY e) ly))]).
Proof.
  intros Hreach.
  assert (Hpress : press_inv (vars st)).
  { induction Hreach as [| st ev _ IH]; [| by apply handle_press].
    cbn. repeat split; try done; intros [x Hx]; discriminate. }
  split; [exact Hpress |].
  intros Hdown. destruct Hpress as (_ & Hlast & Hd).
  destruct (Hlast (Hd Hdown)) as [[lx Hlx] [ly Hly]].
  exists lx, ly. split; [done |]. split; [done |].
  intros e hit. unfold _onMouseMove.
  pose proof (unhighlight_last_calls st) as Hcalls.
  destruct (unhighlight_last_vars st) as (_ & _ & Hlx' & Hly' & Hd' & _).
  rewrite Hlx in Hlx'. rewrite Hly in Hly'. rewrite Hdown in Hd'.
  remember (unhighlight_last st) as st1 eqn:Hst1. clear Hst1.
  cbv zeta. rewrite Hd', andb_false_r.
  destruct (actionMove_effects (e_clientX e) (e_clientY e) lx ly
              (on_host (set_cursor "move") st1) Hlx' Hly') as (-> & _).
  cbn. by rewrite Hcalls.
Qed.

Lemma onMouseMove_calls (e : MouseEvent) (hit : PickResult) (st : State) :
  ∃ new, calls (host (_onMouseMove e hit st)) = calls (host st) ++ new
    ∧ (new = [] ∨ ∃ a b, new = [OrbitYaw a; OrbitPitch b]).
Proof.
  unfold _onMouseMove. rewrite <- (unhighlight_last_calls st).
  generalize (unhighlight_last st). intros st1. cbv zeta.
  destruct (_ && _); [exists []; rewrite app_nil_r; auto |].
  destruct (down (vars st1)).
  { destruct (actionMove_vars (e_clientX e) (e_clientY e)
                (on_host (set_cursor "move") st1))
      as (_ & _ & _ & _ & _ & a & b & ->).
    eexists. split; [reflexivity |]. right. by exists a, b. }
  exists []. rewrite app_nil_r. split; [| by left].
  destruct (negb _); [done |].
  destruct hit as [[uv |] |]; [| done |].
  - cbn [vars on_host set_host].
    destruct (_ =? _); [done |].
    destruct (0 <=? lastAreaId (vars st1)); by destruct (0 <=? getArea uv).
  - by rewrite unhighlight_last_calls.
Qed.

Lemma onMouseUp_calls (v : Viewer) (e : MouseEvent) (hit : PickResult)
    (st : State) :
  ∃ new, calls (host (_onMouseUp v e hit st)) = calls (host st) ++ new
    ∧ (new = [] ∨ ∃ params, new = [FlyTo params] ∨ new = [JumpTo params]).
Proof.
  rewrite onMouseUp_cases.
  assert (Hnil : ∀ st', calls (host st') = calls (host st) →
            ∃ new, calls (host st') = calls (host st) ++ new
              ∧ (new = [] ∨ ∃ params, new = [FlyTo params] ∨ new = [JumpTo params])).
  { intros st' ->. exists []. rewrite app_nil_r. auto. }
  destruct (negb _); [by apply Hnil |].
  destruct (downX (vars st)); [| by apply Hnil].
  destruct hit as [[uv |] |]; try by apply Hnil.
  destruct (0 <=? getArea uv); [| by apply Hnil].
  destruct (highlight_on_mouseup_frame (getArea uv) st) as (_ & Hc & _).
  destruct (moved_away e st); [by apply Hnil |].
  destruct (getAreaDir _) as [dir |]; [| by apply Hnil].
  rewrite flyTo_request. cbn [calls host on_host set_host call set_calls].
  rewrite Hc.
  eexists. split; [reflexivity |]. right. unfold flight_request.
  destruct (ToBoolean _); eexists; eauto.
Qed.

(** X15: the handlers only add to the calls made to the engine, and each
    adds what is its own: a [mouseup] at most one flight or jump, a
    [mousemove] nothing or one yaw and one pitch orbit, every other event
    nothing; the teardown of the base class is never called by a
    handler. *)
Theorem handlers_add_calls (ev : event) (st : State) :
  ∃ new,
    calls (host (handle ev st)) = calls (host st) ++ new
    ∧ calls_of_event ev new
    ∧ SuperDestroy ∉ new.
Proof.
  assert (Hnil : ∀ st', calls (host st') = calls (host st) →
            ∃ new, calls (host st') = calls (host st) ++ new
              ∧ new = [] ∧ SuperDestroy ∉ new).
  { intros st' ->. exists []. rewrite app_nil_r.
    split; [done |]. split; [done | apply not_elem_of_nil]. }
  destruct ev; cbn [handle calls_of_event]; try (apply Hnil; reflexivity).
  - apply Hnil. unfold _onMouseDown. by destruct hit.
  - destruct (onMouseUp_calls v e hit st) as (new & Hnew & Hcase).
    exists new. split; [done |]. split; [done |].
    destruct Hcase as [-> | (params & [-> | ->])];
      [apply not_elem_of_nil | |];
      rewrite !elem_of_cons, elem_of_nil; by intros [? | []].
  - destruct (onMouseMove_calls e hit st) as (new & Hnew & Hcase).
    exists new. split; [done |]. split; [done |].
    destruct Hcase as [-> | (a & b & ->)]; [apply not_elem_of_nil |].
    rewrite !elem_of_cons, elem_of_nil. by intros [? | [? | []]].
  - apply Hnil.
    unfold flyTo_ok. rewrite <- (unhighlight_last_calls st).
    generalize (unhighlight_last st). intros st1. cbv zeta.
    destruct hit as [[uv |] |]; try done.
    destruct (0 <=? getArea uv); cbn; by rewrite unhighlight_last_calls.
Qed.

End MouseMore.

Section PressMore.
Context {N : JSNumber} {E : Engine}.

Lemma handle_down_position (ev : event) (st : State) :
  is_mousedown ev = false →
  downX (vars (handle ev st)) = downX (vars st)
  ∧ downY (vars (handle ev st)) = downY (vars st).
Proof.
  intros Hev.
  destruct ev; cbn [handle vars on_plugin set_plugin]; try done.
  - rewrite onMouseUp_cases.
    destruct (negb _); [done |].
    destruct (downX (vars st)) eqn:Hdx; [| by rewrite <- Hdx].
    rewrite <- Hdx.
    destruct hit as [[uv |] |]; try done.
    destruct (0 <=? getArea uv); [| done].
    destruct (highlight_on_mouseup_frame (getArea uv) st) as (_ & _ & Hx & Hy).
    destruct (moved_away e st); [done |].
    destruct (getAreaDir _); [| done].
    by rewrite flyTo_vars.
  - unfold _onMouseMove.
    destruct (unhighlight_last_vars st) as (<- & <- & _).
    generalize (unhighlight_last st). intros st1. cbv zeta.
    destruct (_ && _); [done |].
    destruct (down (vars st1)).
    { destruct (actionMove_vars (e_clientX e) (e_clientY e)
                  (on_host (set_cursor "move") st1))
        as (_ & _ & _ & Hx & Hy & _).
      by rewrite Hx, Hy. }
    destruct (negb _); [done |].
    destruct hit as [[uv |] |]; [| done |].
    + cbn [vars on_host set_host].
      destruct (_ =? _); [done |].
      destruct (0 <=? lastAreaId (vars st1)); by destruct (0 <=? getArea uv).
    + by destruct (unhighlight_last_vars (on_host (set_cursor "default") st1))
        as (-> & -> & _).
  - unfold flyTo_ok.
    destruct (unhighlight_last_vars st) as (<- & <- & _).
    generalize (unhighlight_last st). intros st1. cbv zeta.
    destruct hit as [[uv |] |]; try done.
    destruct (unhighlight_last_vars (on_host (set_cursor "pointer") st1))
      as (Hx & Hy & _).
    by destruct (0 <=? getArea uv).
Qed.

(** X16: a click is not tied to its press.  The position of the last
    [mousedown] is changed by a [mousedown] alone -- a [mouseup] does not
    forget it -- so that a [mouseup] that requests a camera move, when it
    comes again, requests the same move again. *)
Theorem mouseup_repeats_flight (v : Viewer) (e : MouseEvent) (hit : PickResult)
    (st : State) :
  (∀ ev, is_mousedown ev = false →
     downX (vars (handle ev st)) = downX (vars st)
     ∧ downY (vars (handle ev st)) = downY (vars st))
  ∧ (calls (host (_onMouseUp v e hit st)) ≠ calls (host st) →
     ∃ request,
       calls (host (_onMouseUp v e hit st)) = calls (host st) ++ [request]
       ∧ calls (host (_onMouseUp v e hit (_onMouseUp v e hit st)))
         = calls (host st) ++ [request; request]).
Proof.
  split; [intros ev; apply handle_down_position |].
  rewrite (onMouseUp_cases v e hit st).
  destruct (negb (e_which e =? 1)) eqn:Hwhich; [done |].
  destruct (downX (vars st)) as [dx |] eqn:Hdx; [| done].
  destruct hit as [[uv |] |]; try done.
  destruct (0 <=? getArea uv) eqn:Ha; [| done].
  destruct (highlight_on_mouseup_frame (getArea uv) st) as (Hp & Hc & Hx & Hy).
  destruct (moved_away e st) eqn:Hmoved; [by rewrite Hc |].
  destruct (getAreaDir (getArea uv)) as [dir |] eqn:Hdir; [| by rewrite Hc].
  intros _.
  set (st1 := flyTo v dir (getAreaUp (getArea uv))
                (highlight_on_mouseup (getArea uv) st)).
  assert (Hvars1 : downX (vars st1) = Some dx
                   ∧ downY (vars st1) = downY (vars st)).
  { unfold st1. rewrite flyTo_vars, Hx, Hy. done. }
  assert (Hplugin1 : plugin st1 = plugin st).
  { unfold st1. by rewrite flyTo_request. }
  assert (Hcalls1 : calls (host st1)
            = calls (host st)
              ++ [flight_request v (plugin st) dir (getAreaUp (getArea uv))]).
  { unfold st1. rewrite flyTo_request.
    cbn [calls host on_host set_host call set_calls]. by rewrite Hc, Hp. }
  exists (flight_request v (plugin st) dir (getAreaUp (getArea uv))).
  split; [exact Hcalls1 |].
  rewrite (onMouseUp_cases v e (Some (Some uv)) st1), Hwhich.
  destruct Hvars1 as [Hx1 Hy1]. rewrite Hx1, Ha.
  assert (Hmoved1 : moved_away e st1 = false).
  { unfold moved_away in *. by rewrite Hx1, Hy1, <- Hdx. }
  rewrite Hmoved1, Hdir, flyTo_request.
  cbn [calls host on_host set_host call set_calls].
  destruct (highlight_on_mouseup_frame (getArea uv) st1) as (-> & -> & _).
  rewrite Hplugin1, Hcalls1. by rewrite <- app_assoc.
Qed.

(** X17: in a constructed plugin the cube is always synchronised as for a
    Y-up world: after every [matrix] or [worldAxis] event of the camera,
    the cube's camera looks at the origin from 5 times the normalised
    [eye - look] with the [up] of the main camera, and the rotation of the
    Z-up branch is never applied. *)
Theorem synchCamera_always_yUp (v : Viewer) (cfg : gmap string value)
    (cam0 : Camera) (h : Host) (st : State) (v' : Viewer) :
  reachable v cfg cam0 h st →
  let towards :=
    math_mulVec3Scalar
      (math_normalizeVec3
         (math_subVec3 (cam_eye (camera v')) (cam_look (camera v'))))
      (lit 5) in
  let yUp :=
    {| cam_look := (lit 0, lit 0, lit 0);
       cam_eye := towards;
       cam_up := cam_up (camera v') |} in
  navCubeCamera (plugin (handle (Ev_matrix v') st)) = yUp
  ∧ navCubeCamera (plugin (handle (Ev_worldAxis v') st)) = yUp.
Proof.
  intros Hreach. cbv zeta. cbn [handle plugin on_plugin set_plugin].
  unfold _synchCamera.
  rewrite (zUp_stays_false v cfg cam0 h st Hreach). done.
Qed.

End PressMore.

(* ===================================================================== *)
(** * Further properties: subscriptions *)
(* ===================================================================== *)

Section HostMore.
Context {N : JSNumber} {E : Engine}.

Ltac key_ne := intros [=]; lia.

Ltac lookup_keys :=
  repeat first
    [ rewrite lookup_insert_eq
    | rewrite lookup_insert_ne by key_ne ].

Lemma construct_nextHandle (v : Viewer) cfg cam0 (h : Host) :
  nextHandle (host (construct v cfg cam0 h)) = (7 + nextHandle h)%nat.
Proof. reflexivity. Qed.

(** X18: the constructor adds to a host without disturbing it.  Where the
    handles in use are below the counter, every subscription that was
    there is still there, the seven subscriptions of the constructor are
    there under seven new handles, the handles in use are again below the
    counter, and the listeners are the five of the constructor and those
    that were there. *)
Theorem construct_extends_host (v : Viewer) (cfg : gmap string value)
    (cam0 : Camera) (h : Host) :
  host_wf h →
  let h' := host (construct v cfg cam0 h) in
  (∀ key, is_Some (subscriptions h !! key) →
     subscriptions h' !! key = subscriptions h !! key)
  ∧ (∀ key sub, (key, sub) ∈ constructor_subscriptions (nextHandle h) →
       subscriptions h !! key = None ∧ subscriptions h' !! key = Some sub)
  ∧ (∀ key, key ∉ (constructor_subscriptions (nextHandle h)).*1 →
       subscriptions h' !! key = subscriptions h !! key)
  ∧ host_wf h'
  ∧ listeners h' = constructor_listeners ∪ listeners h.
Proof.
  intros Hwf. cbv zeta.
  destruct (construct_host v cfg cam0 h) as (Hsubs & Hlist & _).
  cbv zeta in Hsubs.
  assert (Hfresh : ∀ t k, subscriptions h !! (t, (k + nextHandle h)%nat) = None).
  { intros t k. destruct (subscriptions h !! _) eqn:Hk; [| done].
    assert (is_Some (subscriptions h !! (t, (k + nextHandle h)%nat))) as Hin
      by (by rewrite Hk).
    apply Hwf in Hin. lia. }
  assert (Hother : ∀ key, key ∉ (constructor_subscriptions (nextHandle h)).*1 →
     subscriptions (host (construct v cfg cam0 h)) !! key
     = subscriptions h !! key).
  { intros key Hkey. rewrite Hsubs.
    cbn [constructor_subscriptions fmap list_fmap fst] in Hkey.
    rewrite !not_elem_of_cons in Hkey.
    destruct Hkey as (H1 & H2 & H3 & H4 & H5 & H6 & H7 & _).
    by rewrite !lookup_insert_ne by done. }
  split; [| split; [| split; [| split]]].
  - intros [t k] Hin. apply Hother.
    cbn [constructor_subscriptions fmap list_fmap fst].
    apply Hwf in Hin as Hlt.
    rewrite !not_elem_of_cons. repeat split; try apply not_elem_of_nil;
      intros [= ? ?]; lia.
  - intros key sub Hin.
    unfold constructor_subscriptions in Hin.
    rewrite !elem_of_cons, elem_of_nil in Hin.
    rewrite Hsubs.
    destruct Hin as [[= -> ->] | [[= -> ->] | [[= -> ->] | [[= -> ->]
      | [[= -> ->] | [[= -> ->] | [[= -> ->] | []]]]]]]];
      (split;
       [ first [ apply (Hfresh _ 0%nat) | apply (Hfresh _ 1%nat)
               | apply (Hfresh _ 2%nat) | apply (Hfresh _ 3%nat)
               | apply (Hfresh _ 4%nat) | apply (Hfresh _ 5%nat)
               | apply (Hfresh _ 6%nat) ]
       | by lookup_keys ]).
  - exact Hother.
  - intros t k Hin. rewrite construct_nextHandle.
    rewrite Hsubs in Hin.
    repeat (rewrite lookup_insert in Hin;
            match type of Hin with context [decide (?key = _)] =>
              destruct (decide (key = (t, k))) as [Hk | Hk];
              [injection Hk as <- <-; lia | clear Hk]
            end).
    apply Hwf in Hin. lia.
  - exact Hlist.
Qed.

Lemma off_frame (t : string) (o : option nat) (g : Host) :
  listeners (off t o g) = listeners g ∧ calls (off t o g) = calls g.
Proof. by destruct o. Qed.

Lemma off_lookup (t : string) (o : option nat) (g : Host) key :
  subscriptions (off t o g) !! key
  = if bool_decide (o = Some key.2 ∧ t = key.1) then None
    else subscriptions g !! key.
Proof.
  destruct o as [n |]; cbn.
  - rewrite lookup_delete. destruct key as [t' n'].
    case_decide as Hk; case_bool_decide as Hb; try done.
    + destruct Hb. by injection Hk as -> ->.
    + destruct Hk. destruct Hb as [[= ->] ->]. done.
  - by case_bool_decide as Hb; [destruct Hb |].
Qed.

Lemma subscriptions_frame (c : HostCall) (t e l : string) (g : Host) :
  subscriptions (call c g) = subscriptions g
  ∧ subscriptions (removeEventListener t e l g) = subscriptions g.
Proof. done. Qed.

Lemma destroy_listeners (st : State) :
  listeners (host (destroy st)) = listeners (host st) ∖ constructor_listeners.
Proof.
  rewrite destroy_host. cbv zeta.
  cbn [listeners call set_calls removeEventListener set_listeners].
  rewrite !(proj1 (off_frame _ _ _)).
  unfold constructor_listeners. apply set_eq. intros x.
  rewrite !elem_of_difference, !elem_of_union, !elem_of_singleton. tauto.
Qed.

Lemma destroy_calls (st : State) :
  calls (host (destroy st)) = calls (host st) ++ [SuperDestroy].
Proof.
  rewrite destroy_host. cbv zeta.
  cbn [calls call set_calls removeEventListener set_listeners].
  by rewrite !(proj2 (off_frame _ _ _)).
Qed.

(** X19: [destroy] can come twice: the second call finds nothing left to
    unsubscribe or to remove, and only calls the teardown of the base
    class again.  The statements of [destroy] itself change neither the
    configuration nor the variables of the handlers; what the teardown
    of the base class does is outside this file and is recorded as a
    call. *)
Theorem destroy_twice (st : State) :
  subscriptions (host (destroy (destroy st)))
  = subscriptions (host (destroy st))
  ∧ listeners (host (destroy (destroy st))) = listeners (host (destroy st))
  ∧ calls (host (destroy (destroy st)))
    = calls (host st) ++ [SuperDestroy; SuperDestroy]
  ∧ plugin (destroy st) = plugin st
  ∧ vars (destroy st) = vars st.
Proof.
  assert (Hplugin : plugin (destroy st) = plugin st) by reflexivity.
  split; [| split; [| split; [| split]]]; try reflexivity.
  - apply map_eq. intros key.
    rewrite (destroy_host (destroy st)). cbv zeta. rewrite Hplugin.
    rewrite (destroy_host st). cbv zeta.
    cbn [subscriptions call set_calls removeEventListener set_listeners].
    rewrite !off_lookup.
    rewrite (proj1 (subscriptions_frame _ "" "" "" _)),
      !(proj2 (subscriptions_frame SuperDestroy _ _ _ _)), !off_lookup.
    repeat case_bool_decide; done.
  - rewrite !destroy_listeners. apply set_eq. intros x.
    rewrite !elem_of_difference. tauto.
  - rewrite !destroy_calls. by rewrite <- app_assoc.
Qed.

End HostMore.

(* ===================================================================== *)
(** * Further properties, on the scenario *)
(* ===================================================================== *)

(** The plugin with the pointer over the cube. *)
Lemma demo_entered_shown : shown_inv (handle Ev_mouseenter demo_state).
Proof. apply handle_shown, cleared_shown, construct_cleared. Qed.

Lemma demo_pressed_shown :
  shown_inv (handle (Ev_mousedown (mouse 10 10 1 1) front_hit) demo_state).
Proof. apply handle_shown, cleared_shown, construct_cleared. Qed.

Lemma configuration_complete_witness :
  config_inv
    (plugin (handle (Ev_call SetAlignment (VStr "nowhere")) demo_state)).
Proof.
  apply (configuration_complete demo_viewer ∅ (camera demo_viewer) demo_host).
  apply reachable_step, reachable_init.
Defined.

Lemma handlers_keep_configuration_witness :
  apply_getter SetSize (plugin (handle (Ev_tick demo_viewer) demo_state))
  = apply_getter SetSize (plugin demo_state).
Proof.
  exact (handlers_keep_configuration (Ev_tick demo_viewer) demo_state SetSize
           eq_refl).
Defined.

(** Before the first tick the style says 250 pixels, after it 200. *)
Lemma construct_style_witness :
  get (style (plugin demo_state)) "width" = VStr "250px"
  ∧ get (style (_onSceneTick demo_viewer (plugin demo_state))) "width"
    = VStr "200px".
Proof.
  pose proof (construct_style demo_viewer ∅ (camera demo_viewer) demo_host
                (lookup_empty _)) as H.
  cbv zeta in H. destruct H as (Hw & _ & _ & _ & _ & Htick).
  split.
  - unfold demo_state. rewrite Hw. reflexivity.
  - unfold demo_state. rewrite (proj1 (Htick demo_viewer)). reflexivity.
Defined.

Lemma layout_writes_strings_witness :
  get (style (_updateLayout demo_viewer (plugin demo_state))) "top"
  = VStr "390px".
Proof.
  pose proof (layout_writes_strings demo_viewer (plugin demo_state)
                "bottomRight" eq_refl) as H.
  cbv zeta in H. destruct H as (_ & _ & Htop & _).
  - unfold accepted_alignments. apply elem_of_cons. by left.
  - rewrite Htop. reflexivity.
Defined.

(** Pressed at (10, 10) and moved to (14, 12): a yaw of -2 and a pitch
    of 1. *)
Lemma drag_orbits_witness :
  calls (host (_onMouseMove (mouse 14 12 1 1) None
                 (handle (Ev_mousedown (mouse 10 10 1 1) front_hit) demo_state)))
  = [OrbitYaw (-2)%float; OrbitPitch 1%float].
Proof.
  pose proof (drag_orbits (mouse 14 12 1 1) None
                (handle (Ev_mousedown (mouse 10 10 1 1) front_hit) demo_state)
                10 10 demo_pressed_shown eq_refl eq_refl eq_refl) as H.
  cbv zeta in H. destruct H as (Hcalls & _).
  rewrite Hcalls. reflexivity.
Defined.


Lemma flight_callback_rehighlights_witness :
  lastAreaId (vars (flyTo_ok front_hit (handle Ev_mouseenter demo_state))) = 0.
Proof.
  pose proof (flight_callback_rehighlights front_hit
                (handle Ev_mouseenter demo_state) demo_entered_shown) as H.
  cbv zeta in H. destruct H as (_ & _ & _ & H).
  destruct (H 0) as (_ & _ & Hl); [| exact Hl].
  vm_compute. reflexivity.
Defined.

Lemma press_recorded_witness :
  press_inv
    (vars (handle (Ev_mousedown (mouse 10 10 1 1) front_hit) demo_state)).
Proof.
  refine (proj1 (press_recorded demo_viewer ∅ (camera demo_viewer) demo_host
                   _ _)).
  apply reachable_step, reachable_init.
Defined.

Lemma synchCamera_always_yUp_witness :
  cam_up (navCubeCamera (plugin (handle (Ev_matrix demo_viewer) demo_state)))
  = (0, 1, 0)%float.
Proof.
  pose proof (synchCamera_always_yUp demo_viewer ∅ (camera demo_viewer)
                demo_host demo_state demo_viewer (reachable_init _ _ _ _)) as H.
  cbv zeta in H. destruct H as (Hm & _).
  rewrite Hm. reflexivity.
Defined.

Lemma demo_host_wf : host_wf demo_host.
Proof.
  intros target handle [x Hx].
  unfold demo_host in Hx. cbn [subscriptions] in Hx.
  by rewrite lookup_empty in Hx.
Qed.

Lemma construct_extends_host_witness :
  host_wf (host demo_state)
  ∧ nextHandle (host demo_state) = 7%nat.
Proof.
  pose proof (construct_extends_host demo_viewer ∅ (camera demo_viewer)
                demo_host demo_host_wf) as H.
  cbv zeta in H. destruct H as (_ & _ & _ & Hwf & _).
  split; [exact Hwf | reflexivity].
Defined.

(** A click on the front face, and the release event once more: two
    flights. *)
Lemma mouseup_repeats_flight_witness :
  let st := handle (Ev_mousedown (mouse 10 10 1 1) front_hit) demo_state in
  let up := _onMouseUp demo_viewer (mouse 11 12 1 0) front_hit in
  length (calls (host (up (up st)))) = 2%nat.
Proof.
  cbv zeta.
  pose proof (mouseup_repeats_flight demo_viewer (mouse 11 12 1 0) front_hit
                (handle (Ev_mousedown (mouse 10 10 1 1) front_hit) demo_state))
    as (_ & H).
  destruct H as (request & _ & Htwice).
  - intros Heq. apply (f_equal length) in Heq. vm_compute in Heq.
    discriminate Heq.
  - rewrite Htwice. reflexivity.
Defined.

(* ===================================================================== *)
(** * Further properties: the camera of the cube *)
(* ===================================================================== *)

Section CubeCamera.
Context {N : JSNumber} {E : Engine}.

Lemma setter_camera (m : setter) (arg : value) (p : NavCube) :
  navCubeCamera (apply_setter m arg p) = navCubeCamera p
  ∧ navCubeCamera_props (apply_setter m arg p) = navCubeCamera_props p.
Proof.
  destruct m; cbn [apply_setter]; try done.
  unfold setAlignment. by destruct (_ && _ && _ && _).
Qed.

Lemma updateLayout_camera (v : Viewer) (p : NavCube) :
  navCubeCamera (_updateLayout v p) = navCubeCamera p
  ∧ navCubeCamera_props (_updateLayout v p) = navCubeCamera_props p.
Proof.
  unfold _updateLayout. cbn [this assign_style set_style].
  repeat match goal with |- context [strict_eq_str ?a ?s] =>
    destruct (strict_eq_str a s) end; done.
Qed.

Lemma handle_camera (ev : event) (st : State) :
  (navCubeCamera (plugin (handle ev st)) = navCubeCamera (plugin st)
   ∨ ∃ v, ev = Ev_matrix v ∨ ev = Ev_worldAxis v)
  ∧ (∀ k, get (navCubeCamera_props (plugin (handle ev st))) k
          = get (navCubeCamera_props (plugin st)) k
        ∨ (k = "perspective.fov" ∧ ∃ fov, ev = Ev_fov fov)
        ∨ (k = "projection" ∧ ∃ projection, ev = Ev_projection projection)).
Proof.
  destruct ev; cbn [handle plugin on_plugin set_plugin].
  - split; [by left |]. by left.
  - unfold _onSceneTick. destruct (ToBoolean _); [| split; [by left | by left]].
    destruct (updateLayout_camera v (plugin st)) as [-> ->].
    split; [by left | by left].
  - split; [right; by exists v; left |].
    rewrite synchCamera_frame. by left.
  - split; [right; by exists v; right |].
    rewrite synchCamera_frame. by left.
  - split; [by left |]. intros k. unfold _onCameraFOV. cbn.
    destruct (decide (k = "perspective.fov")) as [-> | Hk].
    + right. left. split; [done |]. by exists fov.
    + left. by rewrite get_insert_ne.
  - split; [by left |]. intros k. unfold _onCameraProjection. cbn.
    destruct (decide (k = "projection")) as [-> | Hk].
    + right. right. split; [done |]. by exists projection.
    + left. by rewrite get_insert_ne.
  - split; [by left | by left].
  - split; [by left | by left].
  - unfold _onMouseDown. destruct hit; split; by left.
  - rewrite onMouseUp_plugin. split; by left.
  - rewrite onMouseMove_plugin. split; by left.
  - rewrite flyTo_ok_plugin. split; by left.
  - destruct (setter_camera m arg (plugin st)) as [-> ->]. split; by left.
Qed.

(** X20: the camera of the cube follows the events of the main camera
    and nothing else.  Its pose changes only in the handler of a [matrix]
    or [worldAxis] event, its field of view only in the handler of a [fov]
    event, which stores the value of the event, and its projection only in
    the handler of a [projection] event, likewise; neither a mouse event
    on the cube nor a setter nor a tick changes them. *)
Theorem cube_camera_follows (ev : event) (st : State) (x : value) :
  let cam st := navCubeCamera (plugin st) in
  let prop k st := get (navCubeCamera_props (plugin st)) k in
  (cam (handle ev st) ≠ cam st → ∃ v, ev = Ev_matrix v ∨ ev = Ev_worldAxis v)
  ∧ (prop "perspective.fov" (handle ev st) ≠ prop "perspective.fov" st →
       ∃ fov, ev = Ev_fov fov)
  ∧ (prop "projection" (handle ev st) ≠ prop "projection" st →
       ∃ projection, ev = Ev_projection projection)
  ∧ prop "perspective.fov" (handle (Ev_fov x) st) = x
  ∧ prop "projection" (handle (Ev_projection x) st) = x.
Proof.
  cbv zeta. destruct (handle_camera ev st) as [Hcam Hprops].
  split; [| split; [| split; [| split]]].
  - intros Hne. by destruct Hcam.
  - intros Hne.
    destruct (Hprops "perspective.fov") as [? | [[_ ?] | [? _]]]; done.
  - intros Hne.
    destruct (Hprops "projection") as [? | [[? _] | [_ ?]]]; done.
  - cbn. by rewrite get_insert_eq.
  - cbn. by rewrite get_insert_eq.
Qed.

End CubeCamera.

Lemma cube_camera_follows_witness :
  get (navCubeCamera_props
         (plugin (handle (Ev_fov (fnum 60)) demo_state))) "perspective.fov"
  = fnum 60.
Proof.
  pose proof (cube_camera_follows (Ev_fov (fnum 60)) demo_state (fnum 60)) as H.
  cbv zeta in H. exact (proj1 (proj2 (proj2 (proj2 H)))).
Defined.
